(** * The cipher-suite catalogue of sslyze

    Module [sslyze.plugins.openssl_cipher_suites.cipher_suites].

    A shallow embedding of the module: the frozen [CipherSuite] record, the
    three static name and key-size dictionaries, the catalogue builder
    [_parse_all_cipher_suites] and the [CipherSuitesRepository] accessor.

    Python dictionaries are [gmap]s, Python sets are [gset]s, a failed
    subscript is a raised [KeyError], and the two OpenSSL clients of [nassl]
    (which are not part of this module) are a parameter of the development:
    a function from the client variant, the protocol version and the cipher
    string to the list returned by [get_cipher_list].  Every use of a client
    is appended to a log, so that the number and order of enumerations can
    be stated. *)

From Stdlib Require Import ZArith String List Bool.
From stdpp Require Import base tactics decidable countable.
From stdpp Require Import list sets gmap fin_maps fin_sets strings.

Local Open Scope Z_scope.
Local Open Scope string_scope.

(** ** Data model *)

(** Modelled from the spec: [sslyze.server_connectivity.TlsVersionEnum], which
    the module imports and whose declaration is not part of it.  The spec
    gives the protocol version as a closed enumeration of six versions; the
    members are named as the module names them. *)
Inductive TlsVersionEnum : Set :=
  | SSL_2_0 | SSL_3_0 | TLS_1_0 | TLS_1_1 | TLS_1_2 | TLS_1_3.

#[global] Instance TlsVersionEnum_eq_dec : EqDecision TlsVersionEnum.
Proof. solve_decision. Defined.

(** A numbering of the members, for the [Countable] instance only. *)
Definition TlsVersionEnum_index (v : TlsVersionEnum) : nat :=
  match v with
  | SSL_2_0 => 1 | SSL_3_0 => 2 | TLS_1_0 => 3
  | TLS_1_1 => 4 | TLS_1_2 => 5 | TLS_1_3 => 6
  end%nat.

Definition TlsVersionEnum_of_index (n : nat) : option TlsVersionEnum :=
  match n with
  | 1 => Some SSL_2_0 | 2 => Some SSL_3_0 | 3 => Some TLS_1_0
  | 4 => Some TLS_1_1 | 5 => Some TLS_1_2 | 6 => Some TLS_1_3
  | _ => None
  end%nat.

#[global] Instance TlsVersionEnum_countable : Countable TlsVersionEnum.
Proof.
  apply (inj_countable TlsVersionEnum_index TlsVersionEnum_of_index).
  intros []; reflexivity.
Defined.

(** The frozen dataclass [CipherSuite]; equality and hashing are field-wise. *)
Record CipherSuite : Set := mkCipherSuite
  { name : string;
    openssl_name : string;
    is_anonymous : bool;
    key_size : Z }.

#[global] Instance CipherSuite_eq_dec : EqDecision CipherSuite.
Proof. solve_decision. Defined.

#[global] Instance CipherSuite_countable : Countable CipherSuite.
Proof.
  apply (inj_countable'
           (fun c => (name c, openssl_name c, is_anonymous c, key_size c))
           (fun t => match t with (n, o, a, k) => mkCipherSuite n o a k end)).
  intros []; reflexivity.
Defined.

(** ** Exceptions *)

(** The object a failed subscript complains about. *)
Inductive key : Set :=
  | KeyStr (s : string)
  | KeyVersion (v : TlsVersionEnum).

Inductive exn : Set :=
  | KeyError (k : key).

Inductive result (A : Type) : Type :=
  | Ok (a : A)
  | Raise (e : exn).
Arguments Ok {A} a.
Arguments Raise {A} e.

#[global] Instance result_ret : MRet result := fun A a => Ok a.
#[global] Instance result_bind : MBind result := fun A B f r =>
  match r with
  | Ok a => f a
  | Raise e => Raise e
  end.

Definition is_Ok {A} (r : result A) : Prop := exists a, r = Ok a.

Definition result_to_option {A} (r : result A) : option A :=
  match r with
  | Ok a => Some a
  | Raise _ => None
  end.

(** ** Python primitives *)

(** A dictionary display: entries are stored left to right, a repeated key
    keeps the value written last. *)
Definition dict_literal {V} (items : list (string * V)) : gmap string V :=
  foldl (fun m kv => <[kv.1 := kv.2]> m) ∅ items.

(** Subscripts [d[k]]: a missing key raises [KeyError]. *)
Definition getitem_str {V} (d : gmap string V) (k : string) : result V :=
  match d !! k with
  | Some v => Ok v
  | None => Raise (KeyError (KeyStr k))
  end.

Definition getitem_version {V} (d : gmap TlsVersionEnum V) (k : TlsVersionEnum)
  : result V :=
  match d !! k with
  | Some v => Ok v
  | None => Raise (KeyError (KeyVersion k))
  end.

(** [needle in s] on [str]: [needle] occurs in [s] as a contiguous run. *)
Fixpoint str_in (needle s : string) : bool :=
  String.prefix needle s ||
  match s with
  | EmptyString => false
  | String _ s' => str_in needle s'
  end.

(** A [for] statement over a sequence, with the loop-carried variables [s];
    an exception raised by the body leaves the loop.  A Python set is
    iterated in an order the language does not specify: the builder below
    iterates over [elements], and no statement of this file depends on the
    order. *)
Fixpoint for_each {X S} (l : list X) (body : X -> S -> result S) (s : S)
  : result S :=
  match l with
  | [] => Ok s
  | x :: l' => s' ← body x s; for_each l' body s'
  end.

(** ** The static tables *)

Definition _SSLV2_OPENSSL_TO_RFC_NAMES_items : list (string * string) :=
  [ ("RC4-MD5", "SSL_CK_RC4_128_WITH_MD5");
    ("EXP-RC4-MD5", "SSL_CK_RC4_128_EXPORT40_WITH_MD5");
    ("RC2-CBC-MD5", "SSL_CK_RC2_128_CBC_WITH_MD5");
    ("EXP-RC2-CBC-MD5", "SSL_CK_RC2_128_CBC_EXPORT40_WITH_MD5");
    ("IDEA-CBC-MD5", "SSL_CK_IDEA_128_CBC_WITH_MD5");
    ("DES-CBC-MD5", "SSL_CK_DES_64_CBC_WITH_MD5");
    ("DES-CBC3-MD5", "SSL_CK_DES_192_EDE3_CBC_WITH_MD5");
    ("RC4-64-MD5", "SSL_CK_RC4_64_WITH_MD5");
    ("NULL-MD5", "TLS_RSA_WITH_NULL_MD5") ].

Definition _TLS_OPENSSL_TO_RFC_NAMES_items : list (string * string) :=
  [ ("NULL-MD5", "TLS_RSA_WITH_NULL_MD5");
    ("NULL-SHA", "TLS_RSA_WITH_NULL_SHA");
    ("EXP-RC4-MD5", "TLS_RSA_EXPORT_WITH_RC4_40_MD5");
    ("RC4-MD5", "TLS_RSA_WITH_RC4_128_MD5");
    ("RC4-SHA", "TLS_RSA_WITH_RC4_128_SHA");
    ("EXP-RC2-CBC-MD5", "TLS_RSA_EXPORT_WITH_RC2_CBC_40_MD5");
    ("IDEA-CBC-SHA", "TLS_RSA_WITH_IDEA_CBC_SHA");
    ("EXP-DES-CBC-SHA", "TLS_RSA_EXPORT_WITH_DES40_CBC_SHA");
    ("DES-CBC-SHA", "TLS_RSA_WITH_DES_CBC_SHA");
    ("DES-CBC3-SHA", "TLS_RSA_WITH_3DES_EDE_CBC_SHA");
    ("EXP-DH-DSS-DES-CBC-SHA", "TLS_DH_DSS_EXPORT_WITH_DES40_CBC_SHA");
    ("DH-DSS-DES-CBC-SHA", "TLS_DH_DSS_WITH_DES_CBC_SHA");
    ("DH-DSS-DES-CBC3-SHA", "TLS_DH_DSS_WITH_3DES_EDE_CBC_SHA");
    ("EXP-DH-RSA-DES-CBC-SHA", "TLS_DH_RSA_EXPORT_WITH_DES40_CBC_SHA");
    ("DH-RSA-DES-CBC-SHA", "TLS_DH_RSA_WITH_DES_CBC_SHA");
    ("DH-RSA-DES-CBC3-SHA", "TLS_DH_RSA_WITH_3DES_EDE_CBC_SHA");
    ("EXP-EDH-DSS-DES-CBC-SHA", "TLS_DHE_DSS_EXPORT_WITH_DES40_CBC_SHA");
    ("EDH-DSS-DES-CBC-SHA", "TLS_DHE_DSS_WITH_DES_CBC_SHA");
    ("EDH-DSS-DES-CBC3-SHA", "TLS_DHE_DSS_WITH_3DES_EDE_CBC_SHA");
    ("EXP-EDH-RSA-DES-CBC-SHA", "TLS_DHE_RSA_EXPORT_WITH_DES40_CBC_SHA");
    ("EDH-RSA-DES-CBC-SHA", "TLS_DHE_RSA_WITH_DES_CBC_SHA");
    ("EDH-RSA-DES-CBC3-SHA", "TLS_DHE_RSA_WITH_3DES_EDE_CBC_SHA");
    ("EXP-ADH-RC4-MD5", "TLS_DH_anon_EXPORT_WITH_RC4_40_MD5");
    ("ADH-RC4-MD5", "TLS_DH_anon_WITH_RC4_128_MD5");
    ("EXP-ADH-DES-CBC-SHA", "TLS_DH_anon_EXPORT_WITH_DES40_CBC_SHA");
    ("ADH-DES-CBC-SHA", "TLS_DH_anon_WITH_DES_CBC_SHA");
    ("ADH-DES-CBC3-SHA", "TLS_DH_anon_WITH_3DES_EDE_CBC_SHA");
    ("KRB5-DES-CBC-SHA", "TLS_KRB5_WITH_DES_CBC_SHA");
    ("KRB5-DES-CBC3-SHA", "TLS_KRB5_WITH_3DES_EDE_CBC_SHA");
    ("KRB5-RC4-SHA", "TLS_KRB5_WITH_RC4_128_SHA");
    ("KRB5-IDEA-CBC-SHA", "TLS_KRB5_WITH_IDEA_CBC_SHA");
    ("KRB5-DES-CBC-MD5", "TLS_KRB5_WITH_DES_CBC_MD5");
    ("KRB5-DES-CBC3-MD5", "TLS_KRB5_WITH_3DES_EDE_CBC_MD5");
    ("KRB5-RC4-MD5", "TLS_KRB5_WITH_RC4_128_MD5");
    ("KRB5-IDEA-CBC-MD5", "TLS_KRB5_WITH_IDEA_CBC_MD5");
    ("EXP-KRB5-DES-CBC-SHA", "TLS_KRB5_EXPORT_WITH_DES_CBC_40_SHA");
    ("EXP-KRB5-RC2-CBC-SHA", "TLS_KRB5_EXPORT_WITH_RC2_CBC_40_SHA");
    ("EXP-KRB5-RC4-SHA", "TLS_KRB5_EXPORT_WITH_RC4_40_SHA");
    ("EXP-KRB5-DES-CBC-MD5", "TLS_KRB5_EXPORT_WITH_DES_CBC_40_MD5");
    ("EXP-KRB5-RC2-CBC-MD5", "TLS_KRB5_EXPORT_WITH_RC2_CBC_40_MD5");
    ("EXP-KRB5-RC4-MD5", "TLS_KRB5_EXPORT_WITH_RC4_40_MD5");
    ("AES128-SHA", "TLS_RSA_WITH_AES_128_CBC_SHA");
    ("DH-DSS-AES128-SHA", "TLS_DH_DSS_WITH_AES_128_CBC_SHA");
    ("DH-RSA-AES128-SHA", "TLS_DH_RSA_WITH_AES_128_CBC_SHA");
    ("DHE-DSS-AES128-SHA", "TLS_DHE_DSS_WITH_AES_128_CBC_SHA");
    ("DHE-RSA-AES128-SHA", "TLS_DHE_RSA_WITH_AES_128_CBC_SHA");
    ("ADH-AES128-SHA", "TLS_DH_anon_WITH_AES_128_CBC_SHA");
    ("AES256-SHA", "TLS_RSA_WITH_AES_256_CBC_SHA");
    ("DH-DSS-AES256-SHA", "TLS_DH_DSS_WITH_AES_256_CBC_SHA");
    ("DH-RSA-AES256-SHA", "TLS_DH_RSA_WITH_AES_256_CBC_SHA");
    ("DHE-DSS-AES256-SHA", "TLS_DHE_DSS_WITH_AES_256_CBC_SHA");
    ("DHE-RSA-AES256-SHA", "TLS_DHE_RSA_WITH_AES_256_CBC_SHA");
    ("ADH-AES256-SHA", "TLS_DH_anon_WITH_AES_256_CBC_SHA");
    ("NULL-SHA256", "TLS_RSA_WITH_NULL_SHA256");
    ("AES128-SHA256", "TLS_RSA_WITH_AES_128_CBC_SHA256");
    ("AES256-SHA256", "TLS_RSA_WITH_AES_256_CBC_SHA256");
    ("DH-DSS-AES128-SHA256", "TLS_DH_DSS_WITH_AES_128_CBC_SHA256");
    ("DH-RSA-AES128-SHA256", "TLS_DH_RSA_WITH_AES_128_CBC_SHA256");
    ("DHE-DSS-AES128-SHA256", "TLS_DHE_DSS_WITH_AES_128_CBC_SHA256");
    ("CAMELLIA128-SHA", "TLS_RSA_WITH_CAMELLIA_128_CBC_SHA");
    ("DH-DSS-CAMELLIA128-SHA", "TLS_DH_DSS_WITH_CAMELLIA_128_CBC_SHA");
    ("DH-RSA-CAMELLIA128-SHA", "TLS_DH_RSA_WITH_CAMELLIA_128_CBC_SHA");
    ("DHE-DSS-CAMELLIA128-SHA", "TLS_DHE_DSS_WITH_CAMELLIA_128_CBC_SHA");
    ("DHE-RSA-CAMELLIA128-SHA", "TLS_DHE_RSA_WITH_CAMELLIA_128_CBC_SHA");
    ("ADH-CAMELLIA128-SHA", "TLS_DH_anon_WITH_CAMELLIA_128_CBC_SHA");
    ("EXP1024-DES-CBC-SHA", "TLS_RSA_EXPORT1024_WITH_DES_CBC_SHA");
    ("EXP1024-DHE-DSS-DES-CBC-SHA", "TLS_DHE_DSS_EXPORT1024_WITH_DES_CBC_SHA");
    ("EXP1024-RC4-SHA", "TLS_RSA_EXPORT1024_WITH_RC4_56_SHA");
    ("EXP1024-RC4-MD5", "TLS_RSA_EXPORT1024_WITH_RC4_56_MD5");
    ("EXP1024-RC2-CBC-MD5", "TLS_RSA_EXPORT1024_WITH_RC2_CBC_56_MD5");
    ("EXP1024-DHE-DSS-RC4-SHA", "TLS_DHE_DSS_EXPORT1024_WITH_RC4_56_SHA");
    ("DHE-DSS-RC4-SHA", "TLS_DHE_DSS_WITH_RC4_128_SHA");
    ("DHE-RSA-AES128-SHA256", "TLS_DHE_RSA_WITH_AES_128_CBC_SHA256");
    ("DH-DSS-AES256-SHA256", "TLS_DH_DSS_WITH_AES_256_CBC_SHA256");
    ("DH-RSA-AES256-SHA256", "TLS_DH_RSA_WITH_AES_256_CBC_SHA256");
    ("DHE-DSS-AES256-SHA256", "TLS_DHE_DSS_WITH_AES_256_CBC_SHA256");
    ("DHE-RSA-AES256-SHA256", "TLS_DHE_RSA_WITH_AES_256_CBC_SHA256");
    ("ADH-AES128-SHA256", "TLS_DH_anon_WITH_AES_128_CBC_SHA256");
    ("ADH-AES256-SHA256", "TLS_DH_anon_WITH_AES_256_CBC_SHA256");
    ("GOST94-GOST89-GOST89", "TLS_GOSTR341094_WITH_28147_CNT_IMIT");
    ("GOST2001-GOST89-GOST89", "TLS_GOSTR341001_WITH_28147_CNT_IMIT");
    ("CAMELLIA256-SHA", "TLS_RSA_WITH_CAMELLIA_256_CBC_SHA");
    ("DH-DSS-CAMELLIA256-SHA", "TLS_DH_DSS_WITH_CAMELLIA_256_CBC_SHA");
    ("DH-RSA-CAMELLIA256-SHA", "TLS_DH_RSA_WITH_CAMELLIA_256_CBC_SHA");
    ("DHE-DSS-CAMELLIA256-SHA", "TLS_DHE_DSS_WITH_CAMELLIA_256_CBC_SHA");
    ("DHE-RSA-CAMELLIA256-SHA", "TLS_DHE_RSA_WITH_CAMELLIA_256_CBC_SHA");
    ("ADH-CAMELLIA256-SHA", "TLS_DH_anon_WITH_CAMELLIA_256_CBC_SHA");
    ("PSK-RC4-SHA", "TLS_PSK_WITH_RC4_128_SHA");
    ("PSK-3DES-EDE-CBC-SHA", "TLS_PSK_WITH_3DES_EDE_CBC_SHA");
    ("PSK-AES128-CBC-SHA", "TLS_PSK_WITH_AES_128_CBC_SHA");
    ("PSK-AES256-CBC-SHA", "TLS_PSK_WITH_AES_256_CBC_SHA");
    ("RSA-PSK-RC4-SHA", "TLS_RSA_PSK_WITH_RC4_128_SHA");
    ("RSA-PSK-3DES-EDE-CBC-SHA", "TLS_RSA_PSK_WITH_3DES_EDE_CBC_SHA");
    ("RSA-PSK-AES128-CBC-SHA", "TLS_RSA_PSK_WITH_AES_128_CBC_SHA");
    ("RSA-PSK-AES256-CBC-SHA", "TLS_RSA_PSK_WITH_AES_256_CBC_SHA");
    ("SEED-SHA", "TLS_RSA_WITH_SEED_CBC_SHA");
    ("DH-DSS-SEED-SHA", "TLS_DH_DSS_WITH_SEED_CBC_SHA");
    ("DH-RSA-SEED-SHA", "TLS_DH_RSA_WITH_SEED_CBC_SHA");
    ("DHE-DSS-SEED-SHA", "TLS_DHE_DSS_WITH_SEED_CBC_SHA");
    ("DHE-RSA-SEED-SHA", "TLS_DHE_RSA_WITH_SEED_CBC_SHA");
    ("ADH-SEED-SHA", "TLS_DH_anon_WITH_SEED_CBC_SHA");
    ("AES128-GCM-SHA256", "TLS_RSA_WITH_AES_128_GCM_SHA256");
    ("AES256-GCM-SHA384", "TLS_RSA_WITH_AES_256_GCM_SHA384");
    ("DHE-RSA-AES128-GCM-SHA256", "TLS_DHE_RSA_WITH_AES_128_GCM_SHA256");
    ("DHE-RSA-AES256-GCM-SHA384", "TLS_DHE_RSA_WITH_AES_256_GCM_SHA384");
    ("DH-RSA-AES128-GCM-SHA256", "TLS_DH_RSA_WITH_AES_128_GCM_SHA256");
    ("DH-RSA-AES256-GCM-SHA384", "TLS_DH_RSA_WITH_AES_256_GCM_SHA384");
    ("DHE-DSS-AES128-GCM-SHA256", "TLS_DHE_DSS_WITH_AES_128_GCM_SHA256");
    ("DHE-DSS-AES256-GCM-SHA384", "TLS_DHE_DSS_WITH_AES_256_GCM_SHA384");
    ("DH-DSS-AES128-GCM-SHA256", "TLS_DH_DSS_WITH_AES_128_GCM_SHA256");
    ("DH-DSS-AES256-GCM-SHA384", "TLS_DH_DSS_WITH_AES_256_GCM_SHA384");
    ("ADH-AES128-GCM-SHA256", "TLS_DH_anon_WITH_AES_128_GCM_SHA256");
    ("ADH-AES256-GCM-SHA384", "TLS_DH_anon_WITH_AES_256_GCM_SHA384");
    ("CAMELLIA128-SHA256", "TLS_RSA_WITH_CAMELLIA_128_CBC_SHA256");
    ("DH-DSS-CAMELLIA128-SHA256", "TLS_DH_DSS_WITH_CAMELLIA_128_CBC_SHA256");
    ("DH-RSA-CAMELLIA128-SHA256", "TLS_DH_RSA_WITH_CAMELLIA_128_CBC_SHA256");
    ("DHE-DSS-CAMELLIA128-SHA256", "TLS_DHE_DSS_WITH_CAMELLIA_128_CBC_SHA256");
    ("DHE-RSA-CAMELLIA128-SHA256", "TLS_DHE_RSA_WITH_CAMELLIA_128_CBC_SHA256");
    ("ADH-CAMELLIA128-SHA256", "TLS_DH_anon_WITH_CAMELLIA_128_CBC_SHA256");
    ("CAMELLIA256-SHA256", "TLS_RSA_WITH_CAMELLIA_256_CBC_SHA256");
    ("DH-DSS-CAMELLIA256-SHA256", "TLS_DH_DSS_WITH_CAMELLIA_256_CBC_SHA256");
    ("DH-RSA-CAMELLIA256-SHA256", "TLS_DH_RSA_WITH_CAMELLIA_256_CBC_SHA256");
    ("DHE-DSS-CAMELLIA256-SHA256", "TLS_DHE_DSS_WITH_CAMELLIA_256_CBC_SHA256");
    ("DHE-RSA-CAMELLIA256-SHA256", "TLS_DHE_RSA_WITH_CAMELLIA_256_CBC_SHA256");
    ("ADH-CAMELLIA256-SHA256", "TLS_DH_anon_WITH_CAMELLIA_256_CBC_SHA256");
    ("TLS_FALLBACK_SCSV", "TLS_FALLBACK_SCSV");
    ("ECDH-ECDSA-NULL-SHA", "TLS_ECDH_ECDSA_WITH_NULL_SHA");
    ("ECDH-ECDSA-RC4-SHA", "TLS_ECDH_ECDSA_WITH_RC4_128_SHA");
    ("ECDH-ECDSA-DES-CBC3-SHA", "TLS_ECDH_ECDSA_WITH_3DES_EDE_CBC_SHA");
    ("ECDH-ECDSA-AES128-SHA", "TLS_ECDH_ECDSA_WITH_AES_128_CBC_SHA");
    ("ECDH-ECDSA-AES256-SHA", "TLS_ECDH_ECDSA_WITH_AES_256_CBC_SHA");
    ("ECDHE-ECDSA-NULL-SHA", "TLS_ECDHE_ECDSA_WITH_NULL_SHA");
    ("ECDHE-ECDSA-RC4-SHA", "TLS_ECDHE_ECDSA_WITH_RC4_128_SHA");
    ("ECDHE-ECDSA-DES-CBC3-SHA", "TLS_ECDHE_ECDSA_WITH_3DES_EDE_CBC_SHA");
    ("ECDHE-ECDSA-AES128-SHA", "TLS_ECDHE_ECDSA_WITH_AES_128_CBC_SHA");
    ("ECDHE-ECDSA-AES256-SHA", "TLS_ECDHE_ECDSA_WITH_AES_256_CBC_SHA");
    ("ECDH-RSA-NULL-SHA", "TLS_ECDH_RSA_WITH_NULL_SHA");
    ("ECDH-RSA-RC4-SHA", "TLS_ECDH_RSA_WITH_RC4_128_SHA");
    ("ECDH-RSA-DES-CBC3-SHA", "TLS_ECDH_RSA_WITH_3DES_EDE_CBC_SHA");
    ("ECDH-RSA-AES128-SHA", "TLS_ECDH_RSA_WITH_AES_128_CBC_SHA");
    ("ECDH-RSA-AES256-SHA", "TLS_ECDH_RSA_WITH_AES_256_CBC_SHA");
    ("ECDHE-RSA-NULL-SHA", "TLS_ECDHE_RSA_WITH_NULL_SHA");
    ("ECDHE-RSA-RC4-SHA", "TLS_ECDHE_RSA_WITH_RC4_128_SHA");
    ("ECDHE-RSA-DES-CBC3-SHA", "TLS_ECDHE_RSA_WITH_3DES_EDE_CBC_SHA");
    ("ECDHE-RSA-AES128-SHA", "TLS_ECDHE_RSA_WITH_AES_128_CBC_SHA");
    ("ECDHE-RSA-AES256-SHA", "TLS_ECDHE_RSA_WITH_AES_256_CBC_SHA");
    ("AECDH-NULL-SHA", "TLS_ECDH_anon_WITH_NULL_SHA");
    ("AECDH-RC4-SHA", "TLS_ECDH_anon_WITH_RC4_128_SHA");
    ("AECDH-DES-CBC3-SHA", "TLS_ECDH_anon_WITH_3DES_EDE_CBC_SHA");
    ("AECDH-AES128-SHA", "TLS_ECDH_anon_WITH_AES_128_CBC_SHA");
    ("AECDH-AES256-SHA", "TLS_ECDH_anon_WITH_AES_256_CBC_SHA");
    ("SRP-3DES-EDE-CBC-SHA", "TLS_SRP_SHA_WITH_3DES_EDE_CBC_SHA");
    ("SRP-RSA-3DES-EDE-CBC-SHA", "TLS_SRP_SHA_RSA_WITH_3DES_EDE_CBC_SHA");
    ("SRP-DSS-3DES-EDE-CBC-SHA", "TLS_SRP_SHA_DSS_WITH_3DES_EDE_CBC_SHA");
    ("SRP-AES-128-CBC-SHA", "TLS_SRP_SHA_WITH_AES_128_CBC_SHA");
    ("SRP-RSA-AES-128-CBC-SHA", "TLS_SRP_SHA_RSA_WITH_AES_128_CBC_SHA");
    ("SRP-DSS-AES-128-CBC-SHA", "TLS_SRP_SHA_DSS_WITH_AES_128_CBC_SHA");
    ("SRP-AES-256-CBC-SHA", "TLS_SRP_SHA_WITH_AES_256_CBC_SHA");
    ("SRP-RSA-AES-256-CBC-SHA", "TLS_SRP_SHA_RSA_WITH_AES_256_CBC_SHA");
    ("SRP-DSS-AES-256-CBC-SHA", "TLS_SRP_SHA_DSS_WITH_AES_256_CBC_SHA");
    ("ECDHE-ECDSA-AES128-SHA256", "TLS_ECDHE_ECDSA_WITH_AES_128_CBC_SHA256");
    ("ECDHE-ECDSA-AES256-SHA384", "TLS_ECDHE_ECDSA_WITH_AES_256_CBC_SHA384");
    ("ECDH-ECDSA-AES128-SHA256", "TLS_ECDH_ECDSA_WITH_AES_128_CBC_SHA256");
    ("ECDH-ECDSA-AES256-SHA384", "TLS_ECDH_ECDSA_WITH_AES_256_CBC_SHA384");
    ("ECDHE-RSA-AES128-SHA256", "TLS_ECDHE_RSA_WITH_AES_128_CBC_SHA256");
    ("ECDHE-RSA-AES256-SHA384", "TLS_ECDHE_RSA_WITH_AES_256_CBC_SHA384");
    ("ECDH-RSA-AES128-SHA256", "TLS_ECDH_RSA_WITH_AES_128_CBC_SHA256");
    ("ECDH-RSA-AES256-SHA384", "TLS_ECDH_RSA_WITH_AES_256_CBC_SHA384");
    ("ECDHE-ECDSA-AES128-GCM-SHA256", "TLS_ECDHE_ECDSA_WITH_AES_128_GCM_SHA256");
    ("ECDHE-ECDSA-AES256-GCM-SHA384", "TLS_ECDHE_ECDSA_WITH_AES_256_GCM_SHA384");
    ("ECDH-ECDSA-AES128-GCM-SHA256", "TLS_ECDH_ECDSA_WITH_AES_128_GCM_SHA256");
    ("ECDH-ECDSA-AES256-GCM-SHA384", "TLS_ECDH_ECDSA_WITH_AES_256_GCM_SHA384");
    ("ECDHE-RSA-AES128-GCM-SHA256", "TLS_ECDHE_RSA_WITH_AES_128_GCM_SHA256");
    ("ECDHE-RSA-AES256-GCM-SHA384", "TLS_ECDHE_RSA_WITH_AES_256_GCM_SHA384");
    ("ECDH-RSA-AES128-GCM-SHA256", "TLS_ECDH_RSA_WITH_AES_128_GCM_SHA256");
    ("ECDH-RSA-AES256-GCM-SHA384", "TLS_ECDH_RSA_WITH_AES_256_GCM_SHA384");
    ("ECDHE-ECDSA-CAMELLIA128-SHA256", "TLS_ECDHE_ECDSA_WITH_CAMELLIA_128_CBC_SHA256");
    ("ECDHE-ECDSA-CAMELLIA256-SHA384", "TLS_ECDHE_ECDSA_WITH_CAMELLIA_256_CBC_SHA384");
    ("ECDH-ECDSA-CAMELLIA128-SHA256", "TLS_ECDH_ECDSA_WITH_CAMELLIA_128_CBC_SHA256");
    ("ECDH-ECDSA-CAMELLIA256-SHA384", "TLS_ECDH_ECDSA_WITH_CAMELLIA_256_CBC_SHA384");
    ("ECDHE-RSA-CAMELLIA128-SHA256", "TLS_ECDHE_RSA_WITH_CAMELLIA_128_CBC_SHA256");
    ("ECDHE-RSA-CAMELLIA256-SHA384", "TLS_ECDHE_RSA_WITH_CAMELLIA_256_CBC_SHA384");
    ("ECDH-RSA-CAMELLIA128-SHA256", "TLS_ECDH_RSA_WITH_CAMELLIA_128_CBC_SHA256");
    ("ECDH-RSA-CAMELLIA256-SHA384", "TLS_ECDH_RSA_WITH_CAMELLIA_256_CBC_SHA384");
    ("ECDHE-RSA-CHACHA20-POLY1305", "TLS_ECDHE_RSA_WITH_CHACHA20_POLY1305_SHA256");
    ("ECDHE-ECDSA-CHACHA20-POLY1305", "TLS_ECDHE_ECDSA_WITH_CHACHA20_POLY1305_SHA256");
    ("DHE-RSA-CHACHA20-POLY1305", "TLS_DHE_RSA_WITH_CHACHA20_POLY1305_SHA256");
    ("ECDHE-RSA-CHACHA20-POLY1305-OLD", "OLD_TLS_ECDHE_RSA_WITH_CHACHA20_POLY1305_SHA256");
    ("ECDHE-ECDSA-CHACHA20-POLY1305-OLD", "OLD_TLS_ECDHE_ECDSA_WITH_CHACHA20_POLY1305_SHA256");
    ("DHE-RSA-CHACHA20-POLY1305-OLD", "OLD_TLS_DHE_RSA_WITH_CHACHA20_POLY1305_SHA256");
    ("DHE-RSA-DES-CBC3-SHA", "TLS_DHE_RSA_WITH_3DES_EDE_CBC_SHA");
    ("DHE-DSS-DES-CBC3-SHA", "TLS_DHE_DSS_WITH_3DES_EDE_CBC_SHA");
    ("AES128-CCM", "TLS_RSA_WITH_AES_128_CCM");
    ("AES256-CCM", "TLS_RSA_WITH_AES_256_CCM");
    ("DHE-RSA-AES128-CCM", "TLS_DHE_RSA_WITH_AES_128_CCM");
    ("DHE-RSA-AES256-CCM", "TLS_DHE_RSA_WITH_AES_256_CCM");
    ("AES128-CCM8", "TLS_RSA_WITH_AES_128_CCM_8");
    ("AES256-CCM8", "TLS_RSA_WITH_AES_256_CCM_8");
    ("DHE-RSA-AES128-CCM8", "TLS_DHE_RSA_WITH_AES_128_CCM_8");
    ("DHE-RSA-AES256-CCM8", "TLS_DHE_RSA_WITH_AES_256_CCM_8");
    ("ECDHE-ECDSA-AES128-CCM", "TLS_ECDHE_ECDSA_WITH_AES_128_CCM");
    ("ECDHE-ECDSA-AES256-CCM", "TLS_ECDHE_ECDSA_WITH_AES_256_CCM");
    ("ECDHE-ECDSA-AES128-CCM8", "TLS_ECDHE_ECDSA_WITH_AES_128_CCM_8");
    ("ECDHE-ECDSA-AES256-CCM8", "TLS_ECDHE_ECDSA_WITH_AES_256_CCM_8");
    ("ARIA128-GCM-SHA256", "TLS_RSA_WITH_ARIA_128_GCM_SHA256");
    ("ARIA256-GCM-SHA384", "TLS_RSA_WITH_ARIA_256_GCM_SHA384");
    ("DHE-DSS-ARIA128-GCM-SHA256", "TLS_DHE_DSS_WITH_ARIA_128_GCM_SHA256");
    ("DHE-DSS-ARIA256-GCM-SHA384", "TLS_DHE_DSS_WITH_ARIA_256_GCM_SHA384");
    ("DHE-PSK-3DES-EDE-CBC-SHA", "TLS_DHE_PSK_WITH_3DES_EDE_CBC_SHA");
    ("DHE-PSK-AES128-CBC-SHA", "TLS_DHE_PSK_WITH_AES_128_CBC_SHA");
    ("DHE-PSK-AES128-CBC-SHA256", "TLS_DHE_PSK_WITH_AES_128_CBC_SHA256");
    ("DHE-PSK-AES128-CCM", "TLS_DHE_PSK_WITH_AES_128_CCM");
    ("DHE-PSK-AES128-CCM8", "TLS_PSK_DHE_WITH_AES_128_CCM_8");
    ("DHE-PSK-AES128-GCM-SHA256", "TLS_DHE_PSK_WITH_AES_128_GCM_SHA256");
    ("DHE-PSK-AES256-CBC-SHA", "TLS_DHE_PSK_WITH_AES_256_CBC_SHA");
    ("DHE-PSK-AES256-CBC-SHA384", "TLS_DHE_PSK_WITH_AES_256_CBC_SHA384");
    ("DHE-PSK-AES256-CCM", "TLS_DHE_PSK_WITH_AES_256_CCM");
    ("DHE-PSK-AES256-CCM8", "TLS_PSK_DHE_WITH_AES_256_CCM_8");
    ("DHE-PSK-AES256-GCM-SHA384", "TLS_DHE_PSK_WITH_AES_256_GCM_SHA384");
    ("DHE-PSK-ARIA128-GCM-SHA256", "TLS_DHE_PSK_WITH_ARIA_128_GCM_SHA256");
    ("DHE-PSK-ARIA256-GCM-SHA384", "TLS_DHE_PSK_WITH_ARIA_256_GCM_SHA384");
    ("DHE-PSK-CAMELLIA128-SHA256", "TLS_DHE_PSK_WITH_CAMELLIA_128_CBC_SHA256");
    ("DHE-PSK-CAMELLIA256-SHA384", "TLS_DHE_PSK_WITH_CAMELLIA_256_CBC_SHA384");
    ("DHE-PSK-CHACHA20-POLY1305", "TLS_DHE_PSK_WITH_CHACHA20_POLY1305_SHA256");
    ("DHE-PSK-NULL-SHA", "TLS_DHE_PSK_WITH_NULL_SHA");
    ("DHE-PSK-NULL-SHA256", "TLS_DHE_PSK_WITH_NULL_SHA256");
    ("DHE-PSK-NULL-SHA384", "TLS_DHE_PSK_WITH_NULL_SHA384");
    ("DHE-PSK-RC4-SHA", "TLS_DHE_PSK_WITH_RC4_128_SHA");
    ("DHE-RSA-ARIA128-GCM-SHA256", "TLS_DHE_RSA_WITH_ARIA_128_GCM_SHA256");
    ("DHE-RSA-ARIA256-GCM-SHA384", "TLS_DHE_RSA_WITH_ARIA_256_GCM_SHA384");
    ("ECDHE-ARIA128-GCM-SHA256", "TLS_ECDHE_RSA_WITH_ARIA_128_GCM_SHA256");
    ("ECDHE-ARIA256-GCM-SHA384", "TLS_ECDHE_RSA_WITH_ARIA_256_GCM_SHA384");
    ("ECDHE-ECDSA-ARIA128-GCM-SHA256", "TLS_ECDHE_ECDSA_WITH_ARIA_128_GCM_SHA256");
    ("ECDHE-ECDSA-ARIA256-GCM-SHA384", "TLS_ECDHE_ECDSA_WITH_ARIA_256_GCM_SHA384");
    ("ECDHE-PSK-3DES-EDE-CBC-SHA", "TLS_ECDHE_PSK_WITH_3DES_EDE_CBC_SHA");
    ("ECDHE-PSK-AES128-CBC-SHA", "TLS_ECDHE_PSK_WITH_AES_128_CBC_SHA");
    ("ECDHE-PSK-AES128-CBC-SHA256", "TLS_ECDHE_PSK_WITH_AES_128_CBC_SHA256");
    ("ECDHE-PSK-AES256-CBC-SHA", "TLS_ECDHE_PSK_WITH_AES_256_CBC_SHA");
    ("ECDHE-PSK-AES256-CBC-SHA384", "TLS_ECDHE_PSK_WITH_AES_256_CBC_SHA384");
    ("ECDHE-PSK-CAMELLIA128-SHA256", "TLS_ECDHE_PSK_WITH_CAMELLIA_128_CBC_SHA256");
    ("ECDHE-PSK-CAMELLIA256-SHA384", "TLS_ECDHE_PSK_WITH_CAMELLIA_256_CBC_SHA384");
    ("ECDHE-PSK-CHACHA20-POLY1305", "TLS_ECDHE_PSK_WITH_CHACHA20_POLY1305_SHA256");
    ("ECDHE-PSK-NULL-SHA", "TLS_ECDHE_PSK_WITH_NULL_SHA");
    ("ECDHE-PSK-NULL-SHA256", "TLS_ECDHE_PSK_WITH_NULL_SHA256");
    ("ECDHE-PSK-NULL-SHA384", "TLS_ECDHE_PSK_WITH_NULL_SHA384");
    ("ECDHE-PSK-RC4-SHA", "TLS_ECDHE_PSK_WITH_RC4_128_SHA");
    ("GOST2001-NULL-GOST94", "TLS_GOSTR341001_WITH_NULL_GOSTR3411");
    ("GOST94-NULL-GOST94", "TLS_GOSTR341094_WITH_NULL_GOSTR3411");
    ("PSK-AES128-CBC-SHA256", "TLS_PSK_WITH_AES_128_CBC_SHA256");
    ("PSK-AES128-CCM", "TLS_PSK_WITH_AES_128_CCM");
    ("PSK-AES128-CCM8", "TLS_PSK_WITH_AES_128_CCM_8");
    ("PSK-AES128-GCM-SHA256", "TLS_PSK_WITH_AES_128_GCM_SHA256");
    ("PSK-AES256-CBC-SHA384", "TLS_PSK_WITH_AES_256_CBC_SHA384");
    ("PSK-AES256-CCM", "TLS_PSK_WITH_AES_256_CCM");
    ("PSK-AES256-CCM8", "TLS_PSK_WITH_AES_256_CCM_8");
    ("PSK-AES256-GCM-SHA384", "TLS_PSK_WITH_AES_256_GCM_SHA384");
    ("PSK-ARIA128-GCM-SHA256", "TLS_PSK_WITH_ARIA_128_GCM_SHA256");
    ("PSK-ARIA256-GCM-SHA384", "TLS_PSK_WITH_ARIA_256_GCM_SHA384");
    ("PSK-CAMELLIA128-SHA256", "TLS_PSK_WITH_CAMELLIA_128_CBC_SHA256");
    ("PSK-CAMELLIA256-SHA384", "TLS_PSK_WITH_CAMELLIA_256_CBC_SHA384");
    ("PSK-CHACHA20-POLY1305", "TLS_PSK_WITH_CHACHA20_POLY1305_SHA256");
    ("PSK-NULL-SHA", "TLS_PSK_WITH_NULL_SHA");
    ("PSK-NULL-SHA256", "TLS_PSK_WITH_NULL_SHA256");
    ("PSK-NULL-SHA384", "TLS_PSK_WITH_NULL_SHA384");
    ("RSA-PSK-AES128-CBC-SHA256", "TLS_RSA_PSK_WITH_AES_128_CBC_SHA256");
    ("RSA-PSK-AES128-GCM-SHA256", "TLS_RSA_PSK_WITH_AES_128_GCM_SHA256");
    ("RSA-PSK-AES256-CBC-SHA384", "TLS_RSA_PSK_WITH_AES_256_CBC_SHA384");
    ("RSA-PSK-AES256-GCM-SHA384", "TLS_RSA_PSK_WITH_AES_256_GCM_SHA384");
    ("RSA-PSK-ARIA128-GCM-SHA256", "TLS_RSA_PSK_WITH_ARIA_128_GCM_SHA256");
    ("RSA-PSK-ARIA256-GCM-SHA384", "TLS_RSA_PSK_WITH_ARIA_256_GCM_SHA384");
    ("RSA-PSK-CAMELLIA128-SHA256", "TLS_RSA_PSK_WITH_CAMELLIA_128_CBC_SHA256");
    ("RSA-PSK-CAMELLIA256-SHA384", "TLS_RSA_PSK_WITH_CAMELLIA_256_CBC_SHA384");
    ("RSA-PSK-CHACHA20-POLY1305", "TLS_RSA_PSK_WITH_CHACHA20_POLY1305_SHA256");
    ("RSA-PSK-NULL-SHA", "TLS_RSA_PSK_WITH_NULL_SHA");
    ("RSA-PSK-NULL-SHA256", "TLS_RSA_PSK_WITH_NULL_SHA256");
    ("RSA-PSK-NULL-SHA384", "TLS_RSA_PSK_WITH_NULL_SHA384") ].

Definition _RFC_NAME_TO_KEY_SIZE_items : list (string * Z) :=
  [ ("TLS_RSA_WITH_NULL_MD5", 0);
    ("TLS_RSA_WITH_NULL_SHA", 0);
    ("TLS_RSA_WITH_AES_128_CBC_SHA", 128);
    ("TLS_DHE_DSS_WITH_AES_128_CBC_SHA", 128);
    ("TLS_DHE_RSA_WITH_AES_128_CBC_SHA", 128);
    ("TLS_DH_anon_WITH_AES_128_CBC_SHA", 128);
    ("TLS_RSA_WITH_AES_256_CBC_SHA", 256);
    ("TLS_DHE_DSS_WITH_AES_256_CBC_SHA", 256);
    ("TLS_DHE_RSA_WITH_AES_256_CBC_SHA", 256);
    ("TLS_DH_anon_WITH_AES_256_CBC_SHA", 256);
    ("TLS_RSA_WITH_NULL_SHA256", 0);
    ("TLS_RSA_WITH_AES_128_CBC_SHA256", 128);
    ("TLS_RSA_WITH_AES_256_CBC_SHA256", 256);
    ("TLS_DHE_DSS_WITH_AES_128_CBC_SHA256", 128);
    ("TLS_RSA_WITH_CAMELLIA_128_CBC_SHA", 128);
    ("TLS_DHE_DSS_WITH_CAMELLIA_128_CBC_SHA", 128);
    ("TLS_DHE_RSA_WITH_CAMELLIA_128_CBC_SHA", 128);
    ("TLS_DH_anon_WITH_CAMELLIA_128_CBC_SHA", 128);
    ("TLS_DHE_RSA_WITH_AES_128_CBC_SHA256", 128);
    ("TLS_DHE_DSS_WITH_AES_256_CBC_SHA256", 256);
    ("TLS_DHE_RSA_WITH_AES_256_CBC_SHA256", 256);
    ("TLS_DH_anon_WITH_AES_128_CBC_SHA256", 128);
    ("TLS_DH_anon_WITH_AES_256_CBC_SHA256", 256);
    ("TLS_RSA_WITH_CAMELLIA_256_CBC_SHA", 256);
    ("TLS_DHE_DSS_WITH_CAMELLIA_256_CBC_SHA", 256);
    ("TLS_DHE_RSA_WITH_CAMELLIA_256_CBC_SHA", 256);
    ("TLS_DH_anon_WITH_CAMELLIA_256_CBC_SHA", 256);
    ("TLS_PSK_WITH_AES_128_CBC_SHA", 128);
    ("TLS_PSK_WITH_AES_256_CBC_SHA", 256);
    ("TLS_RSA_PSK_WITH_AES_128_CBC_SHA", 128);
    ("TLS_RSA_PSK_WITH_AES_256_CBC_SHA", 256);
    ("TLS_RSA_WITH_SEED_CBC_SHA", 128);
    ("TLS_DHE_DSS_WITH_SEED_CBC_SHA", 128);
    ("TLS_DHE_RSA_WITH_SEED_CBC_SHA", 128);
    ("TLS_DH_anon_WITH_SEED_CBC_SHA", 128);
    ("TLS_RSA_WITH_AES_128_GCM_SHA256", 128);
    ("TLS_RSA_WITH_AES_256_GCM_SHA384", 256);
    ("TLS_DHE_RSA_WITH_AES_128_GCM_SHA256", 128);
    ("TLS_DHE_RSA_WITH_AES_256_GCM_SHA384", 256);
    ("TLS_DHE_DSS_WITH_AES_128_GCM_SHA256", 128);
    ("TLS_DHE_DSS_WITH_AES_256_GCM_SHA384", 256);
    ("TLS_DH_anon_WITH_AES_128_GCM_SHA256", 128);
    ("TLS_DH_anon_WITH_AES_256_GCM_SHA384", 256);
    ("TLS_RSA_WITH_CAMELLIA_128_CBC_SHA256", 128);
    ("TLS_DHE_DSS_WITH_CAMELLIA_128_CBC_SHA256", 128);
    ("TLS_DHE_RSA_WITH_CAMELLIA_128_CBC_SHA256", 128);
    ("TLS_DH_anon_WITH_CAMELLIA_128_CBC_SHA256", 128);
    ("TLS_RSA_WITH_CAMELLIA_256_CBC_SHA256", 256);
    ("TLS_DHE_DSS_WITH_CAMELLIA_256_CBC_SHA256", 256);
    ("TLS_DHE_RSA_WITH_CAMELLIA_256_CBC_SHA256", 256);
    ("TLS_DH_anon_WITH_CAMELLIA_256_CBC_SHA256", 256);
    ("TLS_ECDHE_ECDSA_WITH_NULL_SHA", 0);
    ("TLS_ECDHE_ECDSA_WITH_AES_128_CBC_SHA", 128);
    ("TLS_ECDHE_ECDSA_WITH_AES_256_CBC_SHA", 256);
    ("TLS_ECDHE_RSA_WITH_NULL_SHA", 0);
    ("TLS_ECDHE_RSA_WITH_AES_128_CBC_SHA", 128);
    ("TLS_ECDHE_RSA_WITH_AES_256_CBC_SHA", 256);
    ("TLS_ECDH_anon_WITH_NULL_SHA", 0);
    ("TLS_ECDH_anon_WITH_AES_128_CBC_SHA", 128);
    ("TLS_ECDH_anon_WITH_AES_256_CBC_SHA", 256);
    ("TLS_SRP_SHA_WITH_AES_128_CBC_SHA", 128);
    ("TLS_SRP_SHA_RSA_WITH_AES_128_CBC_SHA", 128);
    ("TLS_SRP_SHA_DSS_WITH_AES_128_CBC_SHA", 128);
    ("TLS_SRP_SHA_WITH_AES_256_CBC_SHA", 256);
    ("TLS_SRP_SHA_RSA_WITH_AES_256_CBC_SHA", 256);
    ("TLS_SRP_SHA_DSS_WITH_AES_256_CBC_SHA", 256);
    ("TLS_ECDHE_ECDSA_WITH_AES_128_CBC_SHA256", 128);
    ("TLS_ECDHE_ECDSA_WITH_AES_256_CBC_SHA384", 256);
    ("TLS_ECDHE_RSA_WITH_AES_128_CBC_SHA256", 128);
    ("TLS_ECDHE_RSA_WITH_AES_256_CBC_SHA384", 256);
    ("TLS_ECDHE_ECDSA_WITH_AES_128_GCM_SHA256", 128);
    ("TLS_ECDHE_ECDSA_WITH_AES_256_GCM_SHA384", 256);
    ("TLS_ECDHE_RSA_WITH_AES_128_GCM_SHA256", 128);
    ("TLS_ECDHE_RSA_WITH_AES_256_GCM_SHA384", 256);
    ("TLS_ECDHE_ECDSA_WITH_CAMELLIA_128_CBC_SHA256", 128);
    ("TLS_ECDHE_ECDSA_WITH_CAMELLIA_256_CBC_SHA384", 256);
    ("TLS_ECDHE_RSA_WITH_CAMELLIA_128_CBC_SHA256", 128);
    ("TLS_ECDHE_RSA_WITH_CAMELLIA_256_CBC_SHA384", 256);
    ("TLS_ECDHE_RSA_WITH_CHACHA20_POLY1305_SHA256", 256);
    ("TLS_ECDHE_ECDSA_WITH_CHACHA20_POLY1305_SHA256", 256);
    ("TLS_DHE_RSA_WITH_CHACHA20_POLY1305_SHA256", 256);
    ("RSA_WITH_AES_128_CCM", 128);
    ("RSA_WITH_AES_256_CCM", 256);
    ("DHE_RSA_WITH_AES_128_CCM", 128);
    ("TLS_DHE_RSA_WITH_AES_256_CCM", 256);
    ("RSA_WITH_AES_128_CCM_8", 128);
    ("RSA_WITH_AES_256_CCM_8", 256);
    ("DHE_RSA_WITH_AES_128_CCM_8", 128);
    ("DHE_RSA_WITH_AES_256_CCM_8", 256);
    ("ECDHE_ECDSA_WITH_AES_128_CCM", 128);
    ("ECDHE_ECDSA_WITH_AES_256_CCM", 256);
    ("ECDHE_ECDSA_WITH_AES_128_CCM_8", 128);
    ("ECDHE_ECDSA_WITH_AES_256_CCM_8", 256);
    ("TLS_RSA_WITH_RC4_128_SHA", 128);
    ("TLS_RSA_WITH_IDEA_CBC_SHA", 128);
    ("TLS_RSA_EXPORT_WITH_DES40_CBC_SHA", 40);
    ("TLS_RSA_WITH_DES_CBC_SHA", 56);
    ("TLS_RSA_WITH_3DES_EDE_CBC_SHA", 168);
    ("TLS_DH_DSS_WITH_DES_CBC_SHA", 56);
    ("TLS_DH_DSS_WITH_3DES_EDE_CBC_SHA", 168);
    ("TLS_DH_RSA_WITH_DES_CBC_SHA", 56);
    ("TLS_DH_RSA_WITH_3DES_EDE_CBC_SHA", 168);
    ("TLS_DHE_DSS_EXPORT_WITH_DES40_CBC_SHA", 40);
    ("TLS_DHE_DSS_WITH_DES_CBC_SHA", 56);
    ("TLS_DHE_DSS_WITH_3DES_EDE_CBC_SHA", 168);
    ("TLS_DHE_RSA_EXPORT_WITH_DES40_CBC_SHA", 40);
    ("TLS_DHE_RSA_WITH_DES_CBC_SHA", 56);
    ("TLS_DHE_RSA_WITH_3DES_EDE_CBC_SHA", 168);
    ("TLS_DH_anon_EXPORT_WITH_RC4_40_MD5", 40);
    ("TLS_DH_anon_WITH_RC4_128_MD5", 128);
    ("TLS_DH_anon_EXPORT_WITH_DES40_CBC_SHA", 40);
    ("TLS_DH_anon_WITH_DES_CBC_SHA", 56);
    ("TLS_DH_anon_WITH_3DES_EDE_CBC_SHA", 168);
    ("TLS_DH_DSS_WITH_AES_128_CBC_SHA", 128);
    ("TLS_DH_RSA_WITH_AES_128_CBC_SHA", 128);
    ("TLS_DH_DSS_WITH_AES_256_CBC_SHA", 256);
    ("TLS_DH_RSA_WITH_AES_256_CBC_SHA", 256);
    ("TLS_DH_DSS_WITH_AES_128_CBC_SHA256", 128);
    ("TLS_DH_RSA_WITH_AES_128_CBC_SHA256", 128);
    ("TLS_DH_DSS_WITH_CAMELLIA_128_CBC_SHA", 128);
    ("TLS_DH_RSA_WITH_CAMELLIA_128_CBC_SHA", 128);
    ("TLS_DH_DSS_WITH_AES_256_CBC_SHA256", 256);
    ("TLS_DH_RSA_WITH_AES_256_CBC_SHA256", 256);
    ("TLS_DH_DSS_WITH_CAMELLIA_256_CBC_SHA", 256);
    ("TLS_DH_RSA_WITH_CAMELLIA_256_CBC_SHA", 256);
    ("TLS_PSK_WITH_RC4_128_SHA", 128);
    ("TLS_PSK_WITH_3DES_EDE_CBC_SHA", 168);
    ("TLS_DH_DSS_WITH_SEED_CBC_SHA", 128);
    ("TLS_DH_RSA_WITH_SEED_CBC_SHA", 128);
    ("TLS_DH_RSA_WITH_AES_128_GCM_SHA256", 128);
    ("TLS_DH_RSA_WITH_AES_256_GCM_SHA384", 256);
    ("TLS_DH_DSS_WITH_AES_128_GCM_SHA256", 128);
    ("TLS_DH_DSS_WITH_AES_256_GCM_SHA384", 256);
    ("TLS_ECDH_ECDSA_WITH_NULL_SHA", 0);
    ("TLS_ECDH_ECDSA_WITH_RC4_128_SHA", 128);
    ("TLS_ECDH_ECDSA_WITH_3DES_EDE_CBC_SHA", 168);
    ("TLS_ECDH_ECDSA_WITH_AES_128_CBC_SHA", 128);
    ("TLS_ECDH_ECDSA_WITH_AES_256_CBC_SHA", 256);
    ("TLS_ECDHE_ECDSA_WITH_RC4_128_SHA", 128);
    ("TLS_ECDHE_ECDSA_WITH_3DES_EDE_CBC_SHA", 168);
    ("TLS_ECDH_RSA_WITH_NULL_SHA", 0);
    ("TLS_ECDH_RSA_WITH_RC4_128_SHA", 128);
    ("TLS_ECDH_RSA_WITH_3DES_EDE_CBC_SHA", 168);
    ("TLS_ECDH_RSA_WITH_AES_128_CBC_SHA", 128);
    ("TLS_ECDH_RSA_WITH_AES_256_CBC_SHA", 256);
    ("TLS_ECDHE_RSA_WITH_RC4_128_SHA", 128);
    ("TLS_ECDHE_RSA_WITH_3DES_EDE_CBC_SHA", 168);
    ("TLS_ECDH_anon_WITH_RC4_128_SHA", 128);
    ("TLS_ECDH_anon_WITH_3DES_EDE_CBC_SHA", 168);
    ("TLS_SRP_SHA_WITH_3DES_EDE_CBC_SHA", 168);
    ("TLS_SRP_SHA_RSA_WITH_3DES_EDE_CBC_SHA", 168);
    ("TLS_SRP_SHA_DSS_WITH_3DES_EDE_CBC_SHA", 168);
    ("TLS_ECDH_ECDSA_WITH_AES_128_CBC_SHA256", 128);
    ("TLS_ECDH_ECDSA_WITH_AES_256_CBC_SHA384", 256);
    ("TLS_ECDH_RSA_WITH_AES_128_CBC_SHA256", 128);
    ("TLS_ECDH_RSA_WITH_AES_256_CBC_SHA384", 256);
    ("TLS_ECDH_ECDSA_WITH_AES_128_GCM_SHA256", 128);
    ("TLS_ECDH_ECDSA_WITH_AES_256_GCM_SHA384", 256);
    ("TLS_ECDH_RSA_WITH_AES_128_GCM_SHA256", 128);
    ("TLS_ECDH_RSA_WITH_AES_256_GCM_SHA384", 256);
    ("TLS_RSA_EXPORT_WITH_RC4_40_MD5", 40);
    ("TLS_RSA_WITH_RC4_128_MD5", 128);
    ("TLS_RSA_EXPORT_WITH_RC2_CBC_40_MD5", 40);
    ("TLS_DH_DSS_EXPORT_WITH_DES40_CBC_SHA", 40);
    ("TLS_DH_RSA_EXPORT_WITH_DES40_CBC_SHA", 40);
    ("TLS_KRB5_WITH_RC4_128_SHA", 128);
    ("TLS_KRB5_WITH_RC4_128_MD5", 128);
    ("TLS_KRB5_EXPORT_WITH_DES_CBC_40_SHA", 40);
    ("TLS_KRB5_EXPORT_WITH_RC2_CBC_40_SHA", 40);
    ("TLS_KRB5_EXPORT_WITH_RC4_40_SHA", 40);
    ("TLS_KRB5_EXPORT_WITH_DES_CBC_40_MD5", 40);
    ("TLS_KRB5_EXPORT_WITH_RC2_CBC_40_MD5", 40);
    ("TLS_KRB5_EXPORT_WITH_RC4_40_MD5", 40);
    ("TLS_RSA_EXPORT1024_WITH_RC4_56_SHA", 56);
    ("TLS_RSA_EXPORT1024_WITH_RC4_56_MD5", 56);
    ("TLS_RSA_EXPORT1024_WITH_RC2_CBC_56_MD5", 56);
    ("TLS_DHE_DSS_EXPORT1024_WITH_RC4_56_SHA", 56);
    ("TLS_DHE_DSS_WITH_RC4_128_SHA", 128);
    ("TLS_RSA_PSK_WITH_RC4_128_SHA", 128);
    ("TLS_DH_DSS_WITH_CAMELLIA_128_CBC_SHA256", 128);
    ("TLS_DH_RSA_WITH_CAMELLIA_128_CBC_SHA256", 128);
    ("TLS_DH_DSS_WITH_CAMELLIA_256_CBC_SHA256", 256);
    ("TLS_DH_RSA_WITH_CAMELLIA_256_CBC_SHA256", 256);
    ("TLS_ECDH_ECDSA_WITH_CAMELLIA_128_CBC_SHA256", 128);
    ("TLS_ECDH_ECDSA_WITH_CAMELLIA_256_CBC_SHA384", 256);
    ("TLS_ECDH_RSA_WITH_CAMELLIA_128_CBC_SHA256", 128);
    ("TLS_ECDH_RSA_WITH_CAMELLIA_256_CBC_SHA384", 256);
    ("OLD_TLS_ECDHE_RSA_WITH_CHACHA20_POLY1305_SHA256", 256);
    ("OLD_TLS_ECDHE_ECDSA_WITH_CHACHA20_POLY1305_SHA256", 256);
    ("OLD_TLS_DHE_RSA_WITH_CHACHA20_POLY1305_SHA256", 256);
    ("TLS_KRB5_WITH_DES_CBC_SHA", 56);
    ("TLS_KRB5_WITH_3DES_EDE_CBC_SHA", 168);
    ("TLS_KRB5_WITH_IDEA_CBC_SHA", 128);
    ("TLS_KRB5_WITH_DES_CBC_MD5", 56);
    ("TLS_KRB5_WITH_3DES_EDE_CBC_MD5", 168);
    ("TLS_KRB5_WITH_IDEA_CBC_MD5", 128);
    ("TLS_RSA_EXPORT1024_WITH_DES_CBC_SHA", 56);
    ("TLS_DHE_DSS_EXPORT1024_WITH_DES_CBC_SHA", 56);
    ("TLS_GOSTR341094_WITH_28147_CNT_IMIT", 256);
    ("TLS_GOSTR341001_WITH_28147_CNT_IMIT", 256);
    ("TLS_RSA_PSK_WITH_3DES_EDE_CBC_SHA", 168);
    ("TLS_AES_256_GCM_SHA384", 256);
    ("TLS_CHACHA20_POLY1305_SHA256", 256);
    ("TLS_AES_128_GCM_SHA256", 128);
    ("TLS_ECDHE_ECDSA_WITH_ARIA_256_GCM_SHA384", 256);
    ("TLS_ECDHE_RSA_WITH_ARIA_256_GCM_SHA384", 256);
    ("TLS_DHE_DSS_WITH_ARIA_256_GCM_SHA384", 256);
    ("TLS_DHE_RSA_WITH_ARIA_256_GCM_SHA384", 256);
    ("TLS_ECDHE_ECDSA_WITH_ARIA_128_GCM_SHA256", 128);
    ("TLS_ECDHE_RSA_WITH_ARIA_128_GCM_SHA256", 128);
    ("TLS_DHE_DSS_WITH_ARIA_128_GCM_SHA256", 128);
    ("TLS_DHE_RSA_WITH_ARIA_128_GCM_SHA256", 256);
    ("TLS_RSA_WITH_ARIA_256_GCM_SHA384", 256);
    ("TLS_RSA_WITH_ARIA_128_GCM_SHA256", 128);
    ("TLS_RSA_WITH_AES_256_CCM", 256);
    ("TLS_ECDHE_ECDSA_WITH_AES_128_CCM", 128);
    ("TLS_DHE_RSA_WITH_AES_128_CCM", 128);
    ("TLS_RSA_WITH_AES_128_CCM", 128);
    ("TLS_RSA_WITH_AES_256_CCM_8", 128);
    ("TLS_ECDHE_ECDSA_WITH_AES_256_CCM", 256);
    ("TLS_ECDHE_ECDSA_WITH_AES_256_CCM_8", 256);
    ("TLS_DHE_RSA_WITH_AES_128_CCM_8", 128);
    ("TLS_DHE_RSA_WITH_AES_256_CCM_8", 256);
    ("TLS_RSA_WITH_AES_128_CCM_8", 128);
    ("TLS_ECDHE_ECDSA_WITH_AES_128_CCM_8", 128);
    ("TLS_AES_128_CCM_8_SHA256", 128);
    ("TLS_AES_128_CCM_SHA256", 128);
    ("SSL_CK_RC4_128_WITH_MD5", 128);
    ("SSL_CK_RC4_128_EXPORT40_WITH_MD5", 40);
    ("SSL_CK_RC2_128_CBC_WITH_MD5", 128);
    ("SSL_CK_RC2_128_CBC_EXPORT40_WITH_MD5", 40);
    ("SSL_CK_IDEA_128_CBC_WITH_MD5", 128);
    ("SSL_CK_DES_64_CBC_WITH_MD5", 56);
    ("SSL_CK_DES_192_EDE3_CBC_WITH_MD5", 168);
    ("SSL_CK_RC4_64_WITH_MD5", 64) ].

Definition _SSLV2_OPENSSL_TO_RFC_NAMES_MAPPING : gmap string string :=
  dict_literal _SSLV2_OPENSSL_TO_RFC_NAMES_items.

Definition _TLS_OPENSSL_TO_RFC_NAMES_MAPPING : gmap string string :=
  dict_literal _TLS_OPENSSL_TO_RFC_NAMES_items.

(** No entry for [TLS_1_3]. *)
Definition _OPENSSL_TO_RFC_NAMES_MAPPING
  : gmap TlsVersionEnum (gmap string string) :=
  <[TLS_1_2 := _TLS_OPENSSL_TO_RFC_NAMES_MAPPING]>
  (<[TLS_1_1 := _TLS_OPENSSL_TO_RFC_NAMES_MAPPING]>
  (<[TLS_1_0 := _TLS_OPENSSL_TO_RFC_NAMES_MAPPING]>
  (<[SSL_3_0 := _TLS_OPENSSL_TO_RFC_NAMES_MAPPING]>
  (<[SSL_2_0 := _SSLV2_OPENSSL_TO_RFC_NAMES_MAPPING]> ∅)))).

Definition _RFC_NAME_TO_KEY_SIZE_MAPPING : gmap string Z :=
  dict_literal _RFC_NAME_TO_KEY_SIZE_items.

(** TLS 1.3 cipher suites implemented in OpenSSL 1.1.1 *)
Definition _TLS_1_3_CIPHER_SUITES : list string :=
  [ "TLS_AES_128_GCM_SHA256";
    "TLS_AES_128_CCM_SHA256";
    "TLS_AES_256_GCM_SHA384";
    "TLS_AES_128_CCM_8_SHA256";
    "TLS_CHACHA20_POLY1305_SHA256" ].

(** [Dict[TlsVersionEnum, Set[CipherSuite]]] *)
Abbreviation Catalog := (gmap TlsVersionEnum (gset CipherSuite)).

(** ** Translation of one OpenSSL name *)

(** The record built in the bodies of the two inner loops of
    [_parse_all_cipher_suites]: the RFC name is looked up first, the key
    size while the record is constructed. *)
Definition translate (tls_version : TlsVersionEnum)
           (cipher_suite_openssl_name : string) : result CipherSuite :=
  cipher_suite_rfc_name ←
    (table ← getitem_version _OPENSSL_TO_RFC_NAMES_MAPPING tls_version;
     getitem_str table cipher_suite_openssl_name);
  key_size ← getitem_str _RFC_NAME_TO_KEY_SIZE_MAPPING cipher_suite_rfc_name;
  mret {| name := cipher_suite_rfc_name;
          openssl_name := cipher_suite_openssl_name;
          is_anonymous :=
            if str_in "anon" cipher_suite_rfc_name then true else false;
          key_size := key_size |}.

(** The statements of an inner loop body, as they are executed: the target
    set [tls_version_to_cipher_suites[tls_version]] is fetched before the
    arguments of [add] are evaluated. *)
Definition add_cipher_suite (tls_version : TlsVersionEnum)
           (cipher_suite_openssl_name : string)
           (tls_version_to_cipher_suites : Catalog) : result Catalog :=
  cipher_suite_rfc_name ←
    (table ← getitem_version _OPENSSL_TO_RFC_NAMES_MAPPING tls_version;
     getitem_str table cipher_suite_openssl_name);
  suites ← getitem_version tls_version_to_cipher_suites tls_version;
  key_size ← getitem_str _RFC_NAME_TO_KEY_SIZE_MAPPING cipher_suite_rfc_name;
  mret (<[tls_version :=
            suites ∪ {[ {| name := cipher_suite_rfc_name;
                           openssl_name := cipher_suite_openssl_name;
                           is_anonymous :=
                             if str_in "anon" cipher_suite_rfc_name
                             then true else false;
                           key_size := key_size |} ]}]>
          tls_version_to_cipher_suites).

(** The set comprehension over [_TLS_1_3_CIPHER_SUITES]. *)
Fixpoint tls_1_3_comprehension (names : list string)
  : result (gset CipherSuite) :=
  match names with
  | [] => Ok ∅
  | cipher_suite_name :: names' =>
      key_size ← getitem_str _RFC_NAME_TO_KEY_SIZE_MAPPING cipher_suite_name;
      rest ← tls_1_3_comprehension names';
      mret ({[ {| (* For TLS 1.3 OpenSSL started using the official names *)
                  name := cipher_suite_name;
                  openssl_name := cipher_suite_name;
                  is_anonymous := false;
                  key_size := key_size |} ]} ∪ rest)
  end.

(** ** The OpenSSL clients *)

(** [LegacySslClient] (module [nassl.legacy_ssl_client]) and [SslClient]
    (module [nassl.ssl_client]). *)
Inductive SslClientClass : Set :=
  | LegacySslClient
  | SslClient.

#[global] Instance SslClientClass_eq_dec : EqDecision SslClientClass.
Proof. solve_decision. Defined.

(** One enumeration: a client of class [call_client] is created for
    [call_version], given [call_cipher_list] through [set_cipher_list] and
    asked for [get_cipher_list]. *)
Record EngineCall : Set := mkEngineCall
  { call_client : SslClientClass;
    call_version : TlsVersionEnum;
    call_cipher_list : string }.

#[global] Instance EngineCall_eq_dec : EqDecision EngineCall.
Proof. solve_decision. Defined.

(** What [get_cipher_list] returns for a client of the given class and
    protocol version after [set_cipher_list] with the given string. *)
Abbreviation GetCipherList :=
  (SslClientClass -> TlsVersionEnum -> string -> list string).

(** Computations that use the clients: the log of enumerations is threaded
    through, and survives a raised exception. *)
Record M (A : Type) : Type := mkM
  { run : list EngineCall -> list EngineCall * result A }.
Arguments mkM {A} _.
Arguments run {A} _ _.

#[global] Instance M_ret : MRet M := fun A a => mkM (fun log => (log, Ok a)).
#[global] Instance M_bind : MBind M := fun A B f m =>
  mkM (fun log =>
         match run m log with
         | (log', Ok a) => run (f a) log'
         | (log', Raise e) => (log', Raise e)
         end).

(** A computation that does not touch the clients. *)
Definition lift {A} (r : result A) : M A := mkM (fun log => (log, r)).

(** A [for] statement whose body uses the clients. *)
Fixpoint for_each_M {X S} (l : list X) (body : X -> S -> M S) (s : S) : M S :=
  match l with
  | [] => mret s
  | x :: l' => s' ← body x s; for_each_M l' body s'
  end.

(** The cipher string given to every client. *)
Definition cipher_string : string := "ALL:COMPLEMENTOFALL:-PSK:-SRP".

Section Builder.

(** The clients of the run. *)
Variable get_cipher_list : GetCipherList.

(** [ssl_client = cls(ssl_version=OpenSslVersionEnum(tls_version.value));
    ssl_client.set_cipher_list(cipher_list); ssl_client.get_cipher_list()].
    Creating and configuring a client is taken to succeed. *)
Definition enumerate (cls : SslClientClass) (tls_version : TlsVersionEnum)
           (cipher_list : string) : M (list string) :=
  mkM (fun log =>
         ((log ++ [mkEngineCall cls tls_version cipher_list])%list,
          Ok (get_cipher_list cls tls_version cipher_list))).

Definition _parse_all_cipher_suites_with_legacy_openssl
           (tls_version : TlsVersionEnum) : M (gset string) :=
  (* Disable SRP and PSK cipher suites as they need a special setup in the
     client and are never used *)
  l ← enumerate LegacySslClient tls_version "ALL:COMPLEMENTOFALL:-PSK:-SRP";
  mret (list_to_set l).

(** The body of the loop over the four oldest versions.  As in the source,
    the TLS 1.2 and TLS 1.3 statements are part of this body. *)
Definition loop_body (tls_version : TlsVersionEnum)
           (tls_version_to_cipher_suites : Catalog) : M Catalog :=
  openssl_cipher_strings ←
    _parse_all_cipher_suites_with_legacy_openssl tls_version;
  let tls_version_to_cipher_suites :=
    <[tls_version := ∅]> tls_version_to_cipher_suites in
  tls_version_to_cipher_suites ←
    lift (for_each (elements openssl_cipher_strings)
                   (add_cipher_suite tls_version)
                   tls_version_to_cipher_suites);
  (* For TLS 1.2, we have to use both the legacy and modern OpenSSL to
     cover all cipher suites *)
  cipher_suites_from_legacy_openssl ←
    _parse_all_cipher_suites_with_legacy_openssl TLS_1_2;
  modern ← enumerate SslClient TLS_1_2 "ALL:COMPLEMENTOFALL:-PSK:-SRP";
  let cipher_suites_from_modern_openssl : gset string := list_to_set modern in
  (* Combine the two sets of cipher suites *)
  let openssl_cipher_strings :=
    cipher_suites_from_legacy_openssl ∪ cipher_suites_from_modern_openssl in
  let tls_version_to_cipher_suites :=
    <[TLS_1_2 := ∅]> tls_version_to_cipher_suites in
  tls_version_to_cipher_suites ←
    lift (for_each (elements openssl_cipher_strings)
                   (fun cipher_suite_openssl_name d =>
                      (* Ignore TLS 1.3 cipher suites *)
                      if decide (cipher_suite_openssl_name
                                   ∈ _TLS_1_3_CIPHER_SUITES)
                      then Ok d
                      else add_cipher_suite TLS_1_2 cipher_suite_openssl_name d)
                   tls_version_to_cipher_suites);
  (* TLS 1.3 - the list is just hardcoded *)
  tls_1_3 ← lift (tls_1_3_comprehension _TLS_1_3_CIPHER_SUITES);
  mret (<[TLS_1_3 := tls_1_3]> tls_version_to_cipher_suites).

Definition _parse_all_cipher_suites : M Catalog :=
  for_each_M [SSL_2_0; SSL_3_0; TLS_1_0; TLS_1_1] loop_body ∅.

(** The native names enumerated for a version: one legacy enumeration for
    the four oldest versions, both clients for TLS 1.2, none for TLS 1.3. *)
Definition enumerated (v : TlsVersionEnum) : gset string :=
  match v with
  | TLS_1_3 => ∅
  | TLS_1_2 =>
      list_to_set (get_cipher_list LegacySslClient TLS_1_2 cipher_string) ∪
      list_to_set (get_cipher_list SslClient TLS_1_2 cipher_string)
  | _ => list_to_set (get_cipher_list LegacySslClient v cipher_string)
  end.

(** The names handed to the translation, in the order of iteration. *)
Definition to_translate (v : TlsVersionEnum) : list string :=
  match v with
  | TLS_1_2 =>
      filter (fun n => n ∉ _TLS_1_3_CIPHER_SUITES) (elements (enumerated v))
  | _ => elements (enumerated v)
  end.

End Builder.

(** [class CipherSuitesRepository]: the class attribute is bound once, when
    the class statement is executed. *)
Record CipherSuitesRepository : Type := mkCipherSuitesRepository
  { _ALL_CIPHER_SUITES : Catalog }.

Definition CipherSuitesRepository_class
           (get_cipher_list : GetCipherList)
  : M CipherSuitesRepository :=
  (* Pre-parse all the available cipher suites *)
  all ← _parse_all_cipher_suites get_cipher_list;
  mret (mkCipherSuitesRepository all).

Definition get_all_cipher_suites (cls : CipherSuitesRepository)
           (tls_version : TlsVersionEnum) : M (gset CipherSuite) :=
  lift (getitem_version (_ALL_CIPHER_SUITES cls) tls_version).

(** ** Vocabulary of the statements *)

(** [needle] occurs in [s]. *)
Definition substring_of (needle s : string) : Prop :=
  exists pre post, s = pre ++ needle ++ post.

(** The RFC name the tables give to an OpenSSL name for a version. *)
Definition native_to_rfc (v : TlsVersionEnum) (n : string) : option string :=
  table ← _OPENSSL_TO_RFC_NAMES_MAPPING !! v; table !! n.

(** The key sizes that occur in the catalogue. *)
Definition key_sizes : list Z := [0; 40; 56; 64; 128; 168; 256].

(** The records obtained from the names of [l] that translate. *)
Definition translated (v : TlsVersionEnum) (l : list string)
  : gset CipherSuite :=
  list_to_set (omap (fun n => result_to_option (translate v n)) l).

(** The five records of TLS 1.3. *)
Definition tls_1_3_suites : gset CipherSuite :=
  list_to_set
    [ mkCipherSuite "TLS_AES_128_GCM_SHA256" "TLS_AES_128_GCM_SHA256" false 128;
      mkCipherSuite "TLS_AES_128_CCM_SHA256" "TLS_AES_128_CCM_SHA256" false 128;
      mkCipherSuite "TLS_AES_256_GCM_SHA384" "TLS_AES_256_GCM_SHA384" false 256;
      mkCipherSuite "TLS_AES_128_CCM_8_SHA256" "TLS_AES_128_CCM_8_SHA256"
                    false 128;
      mkCipherSuite "TLS_CHACHA20_POLY1305_SHA256"
                    "TLS_CHACHA20_POLY1305_SHA256" false 256 ].

(** The set the builder stores for a version when every name translates. *)
Definition entry
           (get_cipher_list : GetCipherList)
           (v : TlsVersionEnum) : gset CipherSuite :=
  match v with
  | TLS_1_3 => tls_1_3_suites
  | _ => translated v (to_translate get_cipher_list v)
  end.

(** The dictionary after one successful iteration for version [v]. *)
Definition iteration_result
           (get_cipher_list : GetCipherList)
           (d : Catalog) (v : TlsVersionEnum) : Catalog :=
  <[TLS_1_3 := tls_1_3_suites]>
    (<[TLS_1_2 := entry get_cipher_list TLS_1_2]>
       (<[v := entry get_cipher_list v]> d)).

(** The versions the loop of the builder ranges over. *)
Definition loop_versions : list TlsVersionEnum :=
  [SSL_2_0; SSL_3_0; TLS_1_0; TLS_1_1].

(** The two OpenSSL spellings of the ephemeral Diffie-Hellman 3DES suites:
    the legacy library says EDH, the modern one DHE. *)
Definition des3_spellings : list (string * string) :=
  [ ("EDH-RSA-DES-CBC3-SHA", "DHE-RSA-DES-CBC3-SHA");
    ("DHE-RSA-DES-CBC3-SHA", "EDH-RSA-DES-CBC3-SHA");
    ("EDH-DSS-DES-CBC3-SHA", "DHE-DSS-DES-CBC3-SHA");
    ("DHE-DSS-DES-CBC3-SHA", "EDH-DSS-DES-CBC3-SHA") ].

(** OpenSSL names of the TLS table that are not cipher suites the clients
    list without an engine: the signalling value and the GOST suites
    without encryption. *)
Definition never_listed : list string :=
  [ "TLS_FALLBACK_SCSV"; "GOST2001-NULL-GOST94"; "GOST94-NULL-GOST94" ].

(** Checks on table entries, evaluated over whole tables. *)
Definition check_key_size (_ : string) (ks : Z) : bool :=
  bool_decide (ks ∈ key_sizes).

Definition check_not_tls_1_3 (_ rfc : string) : bool :=
  bool_decide (rfc ∉ _TLS_1_3_CIPHER_SUITES).

Definition check_sslv2 (n rfc : string) : bool :=
  negb (str_in "anon" rfc) &&
  match _RFC_NAME_TO_KEY_SIZE_MAPPING !! rfc with
  | Some ks =>
      bool_decide (ks ∈ [0; 40; 56; 64; 128; 168]) &&
      bool_decide (ks = 0 <-> n = "NULL-MD5")
  | None => false
  end.

Definition check_spelling (items : list (string * string)) (n rfc : string)
  : bool :=
  forallb (fun kv => implb (bool_decide (kv.2 = rfc))
                           (bool_decide (kv.1 = n) ||
                            bool_decide ((n, kv.1) ∈ des3_spellings)))
          items.

(** Example clients.  The legacy library lists the EDH spelling, the modern
    one the DHE spelling and a TLS 1.3 suite. *)
Definition example_engine (cls : SslClientClass) (v : TlsVersionEnum)
           (cipher_list : string) : list string :=
  match cls, v with
  | LegacySslClient, SSL_2_0 => ["RC4-MD5"; "NULL-MD5"; "DES-CBC3-MD5"]
  | LegacySslClient, TLS_1_2 =>
      ["EDH-RSA-DES-CBC3-SHA"; "AES128-SHA"; "ADH-AES128-SHA"]
  | SslClient, TLS_1_2 =>
      ["DHE-RSA-DES-CBC3-SHA"; "AES128-SHA"; "TLS_AES_128_GCM_SHA256";
       "ECDHE-RSA-AES256-GCM-SHA384"]
  | _, _ => ["RC4-MD5"; "ADH-AES128-SHA"; "AES128-SHA"; "NULL-SHA"]
  end.

(** A client that lists a suite the tables do not know. *)
Definition stale_engine (cls : SslClientClass) (v : TlsVersionEnum)
           (cipher_list : string) : list string :=
  match v with
  | TLS_1_1 => ["AES128-SHA"; "BRAND-NEW-CIPHER"]
  | _ => ["RC4-MD5"]
  end.

(** How often a client of class [cls] enumerated version [v] in a log. *)
Definition count_calls (cls : SslClientClass) (v : TlsVersionEnum)
           (log : list EngineCall) : nat :=
  length (filter (fun c => call_client c = cls /\ call_version c = v) log).

(** The enumerations of one complete run of the builder, in order. *)
Definition calls_of_iteration (v : TlsVersionEnum) : list EngineCall :=
  [ mkEngineCall LegacySslClient v cipher_string;
    mkEngineCall LegacySslClient TLS_1_2 cipher_string;
    mkEngineCall SslClient TLS_1_2 cipher_string ].

Definition calls_of_build : list EngineCall :=
  (calls_of_iteration SSL_2_0 ++ calls_of_iteration SSL_3_0 ++
   calls_of_iteration TLS_1_0 ++ calls_of_iteration TLS_1_1)%list.

(** ** Further vocabulary and example clients *)

(** Checks on table entries, evaluated over whole tables. *)
Definition check_null_key_size (rfc : string) (ks : Z) : bool :=
  Bool.eqb (bool_decide (ks = 0)) (str_in "NULL" rfc).

Definition check_sslv2_overlap (n rfc : string) : bool :=
  match _TLS_OPENSSL_TO_RFC_NAMES_MAPPING !! n with
  | Some rfc' => implb (bool_decide (rfc' = rfc)) (bool_decide (n = "NULL-MD5"))
  | None => true
  end.

(** The names a version's entry is built from: what was enumerated, without
    the TLS 1.3 names in the case of TLS 1.2. *)
Definition names_of_entry (get_cipher_list : GetCipherList)
           (v : TlsVersionEnum) : gset string :=
  match v with
  | TLS_1_2 =>
      enumerated get_cipher_list v ∖ list_to_set _TLS_1_3_CIPHER_SUITES
  | _ => enumerated get_cipher_list v
  end.

(** The example clients with every list reversed and repeated. *)
Definition shuffled_engine (cls : SslClientClass) (v : TlsVersionEnum)
           (cipher_list : string) : list string :=
  (reverse (example_engine cls v cipher_list) ++
   example_engine cls v cipher_list)%list.

(** Clients that list one suite: the example clients' lists cut after
    their first name. *)
Definition smaller_engine (cls : SslClientClass) (v : TlsVersionEnum)
           (cipher_list : string) : list string :=
  take 1 (example_engine cls v cipher_list).

(** Clients that list nothing. *)
Definition silent_engine (cls : SslClientClass) (v : TlsVersionEnum)
           (cipher_list : string) : list string := [].

(** A legacy client that lists a TLS 1.3 name for TLS 1.1. *)
Definition misfiled_engine (cls : SslClientClass) (v : TlsVersionEnum)
           (cipher_list : string) : list string :=
  match cls, v with
  | LegacySslClient, TLS_1_1 => ["AES128-SHA"; "TLS_AES_256_GCM_SHA384"]
  | _, _ => ["AES128-SHA"]
  end.

(** A legacy client that lists, for SSL 2.0, a name of the TLS table only. *)
Definition stale_sslv2_engine (cls : SslClientClass) (v : TlsVersionEnum)
           (cipher_list : string) : list string :=
  match v with
  | SSL_2_0 => ["RC4-MD5"; "AES128-SHA"]
  | _ => ["RC4-MD5"]
  end.

(** Clients that list NULL-MD5 and RC4-MD5 for every version. *)
Definition null_md5_engine (cls : SslClientClass) (v : TlsVersionEnum)
           (cipher_list : string) : list string :=
  ["NULL-MD5"; "RC4-MD5"].

(** The PSK names of the TLS table whose RFC name has a key size. *)
Definition psk_with_key_size : list string :=
  [ "PSK-RC4-SHA"; "PSK-3DES-EDE-CBC-SHA";
    "PSK-AES128-CBC-SHA"; "PSK-AES256-CBC-SHA";
    "RSA-PSK-RC4-SHA"; "RSA-PSK-3DES-EDE-CBC-SHA";
    "RSA-PSK-AES128-CBC-SHA"; "RSA-PSK-AES256-CBC-SHA" ].

(** The OpenSSL names whose RFC name is not a key of the key-size table:
    the three names of [never_listed] and the PSK names other than the
    eight of [psk_with_key_size]. *)
Definition without_key_size (n : string) : bool :=
  bool_decide (n ∈ never_listed) ||
  (str_in "PSK" n && negb (bool_decide (n ∈ psk_with_key_size))).

Definition check_key_size_exact (n rfc : string) : bool :=
  Bool.eqb (bool_decide (is_Some (_RFC_NAME_TO_KEY_SIZE_MAPPING !! rfc)))
           (negb (without_key_size n)).

(** Clients of which the modern one lists, for TLS 1.2, all five TLS 1.3
    names among others. *)
Definition tls_1_3_listing_engine (cls : SslClientClass) (v : TlsVersionEnum)
           (cipher_list : string) : list string :=
  match cls, v with
  | LegacySslClient, TLS_1_2 => ["AES128-SHA"; "EDH-RSA-DES-CBC3-SHA"]
  | SslClient, TLS_1_2 =>
      (_TLS_1_3_CIPHER_SUITES ++
       ["ECDHE-RSA-AES256-GCM-SHA384"; "AES128-SHA"])%list
  | _, _ => ["RC4-MD5"]
  end.

(** * Properties *)

(** ** Python primitives *)

Section DictLiteral.
Context {V : Type}.
Implicit Types (items : list (string * V)) (m : gmap string V).

Lemma foldl_insert_lookup items m k v :
  foldl (fun m kv => <[kv.1 := kv.2]> m) m items !! k = Some v ->
  m !! k = Some v \/ (k, v) ∈ items.
Proof.
  revert m. induction items as [|[k' v'] items IH]; intros m; simpl.
  - auto.
  - intros H. destruct (IH _ H) as [Hm|Hin].
    + destruct (decide (k' = k)) as [->|Hne].
      * rewrite lookup_insert_eq in Hm. injection Hm as ->.
        right. left.
      * rewrite lookup_insert_ne in Hm by done. auto.
    + right. right. done.
Qed.

Lemma dict_literal_lookup_elem items k v :
  dict_literal items !! k = Some v -> (k, v) ∈ items.
Proof.
  intros H. apply foldl_insert_lookup in H as [H|H]; [|done].
  rewrite lookup_empty in H. discriminate.
Qed.

End DictLiteral.

Lemma prefix_spec (p s : string) :
  String.prefix p s = true <-> exists post, s = p ++ post.
Proof.
  revert s. induction p as [|a p IH]; intros s.
  - split; [eauto|by destruct s].
  - destruct s as [|b s]; simpl.
    + split; [done|]. intros [post H]. discriminate.
    + destruct (Ascii.ascii_dec a b) as [->|Hne].
      * rewrite IH. split; intros [post H]; exists post.
        -- by rewrite H.
        -- by injection H.
      * split; [done|]. intros [post H]. injection H as H1 H2. done.
Qed.

Lemma str_in_spec (needle s : string) :
  str_in needle s = true <-> substring_of needle s.
Proof.
  unfold substring_of. induction s as [|a s IH]; cbn [str_in].
  - rewrite orb_false_r, prefix_spec. split.
    + intros [post H]. exists "", post. done.
    + intros [pre [post H]]. destruct pre; simpl in H; [eauto|discriminate].
  - rewrite orb_true_iff, prefix_spec, IH. split.
    + intros [[post H]|[pre [post H]]].
      * exists "", post. done.
      * exists (String a pre), post. simpl. by rewrite H.
    + intros [pre [post H]]. destruct pre as [|b pre]; simpl in H.
      * left. eauto.
      * right. exists pre, post. by injection H.
Qed.

Lemma string_app_assoc (a b c : string) : (a ++ b) ++ c = a ++ (b ++ c).
Proof.
  induction a as [|x a IH]; [done|].
  change (String x ((a ++ b) ++ c) = String x (a ++ (b ++ c))).
  by rewrite IH.
Qed.

Lemma substring_of_trans (a b c : string) :
  substring_of a b -> substring_of b c -> substring_of a c.
Proof.
  intros [p1 [q1 ->]] [p2 [q2 ->]].
  exists (p2 ++ p1), (q1 ++ q2).
  by rewrite !string_app_assoc.
Qed.

Lemma getitem_str_Ok {V} (d : gmap string V) k v :
  getitem_str d k = Ok v <-> d !! k = Some v.
Proof. unfold getitem_str. destruct (d !! k); split; congruence. Qed.

Lemma getitem_version_Ok {V} (d : gmap TlsVersionEnum V) k v :
  getitem_version d k = Ok v <-> d !! k = Some v.
Proof. unfold getitem_version. destruct (d !! k); split; congruence. Qed.

Lemma is_Ok_not_Raise {A} (r : result A) e : is_Ok r -> r <> Raise e.
Proof. intros [a ->]. discriminate. Qed.

Lemma is_Ok_or_Raise {A} (r : result A) : is_Ok r \/ exists e, r = Raise e.
Proof. destruct r; [left|right]; eexists; done. Qed.

(** ** The static tables *)

Lemma sslv2_lookup_elem n rfc :
  _SSLV2_OPENSSL_TO_RFC_NAMES_MAPPING !! n = Some rfc ->
  (n, rfc) ∈ _SSLV2_OPENSSL_TO_RFC_NAMES_items.
Proof.
  unfold _SSLV2_OPENSSL_TO_RFC_NAMES_MAPPING. intros H.
  exact (dict_literal_lookup_elem _SSLV2_OPENSSL_TO_RFC_NAMES_items _ _ H).
Qed.

Lemma tls_lookup_elem n rfc :
  _TLS_OPENSSL_TO_RFC_NAMES_MAPPING !! n = Some rfc ->
  (n, rfc) ∈ _TLS_OPENSSL_TO_RFC_NAMES_items.
Proof.
  unfold _TLS_OPENSSL_TO_RFC_NAMES_MAPPING. intros H.
  exact (dict_literal_lookup_elem _TLS_OPENSSL_TO_RFC_NAMES_items _ _ H).
Qed.

Lemma key_size_elem rfc ks :
  _RFC_NAME_TO_KEY_SIZE_MAPPING !! rfc = Some ks ->
  (rfc, ks) ∈ _RFC_NAME_TO_KEY_SIZE_items.
Proof.
  unfold _RFC_NAME_TO_KEY_SIZE_MAPPING. intros H.
  exact (dict_literal_lookup_elem _RFC_NAME_TO_KEY_SIZE_items _ _ H).
Qed.

(** From here on the tables are evaluated as a whole or used through the
    three lemmas above; they are never unfolded around an unknown key. *)
#[global] Opaque _SSLV2_OPENSSL_TO_RFC_NAMES_items
  _TLS_OPENSSL_TO_RFC_NAMES_items _RFC_NAME_TO_KEY_SIZE_items
  _SSLV2_OPENSSL_TO_RFC_NAMES_MAPPING _TLS_OPENSSL_TO_RFC_NAMES_MAPPING
  _RFC_NAME_TO_KEY_SIZE_MAPPING.

Lemma mapping_lookup (v : TlsVersionEnum) :
  _OPENSSL_TO_RFC_NAMES_MAPPING !! v =
  match v with
  | SSL_2_0 => Some _SSLV2_OPENSSL_TO_RFC_NAMES_MAPPING
  | TLS_1_3 => None
  | _ => Some _TLS_OPENSSL_TO_RFC_NAMES_MAPPING
  end.
Proof.
  unfold _OPENSSL_TO_RFC_NAMES_MAPPING.
  destruct v;
    repeat first [ rewrite lookup_insert_eq
                 | rewrite lookup_insert_ne by done ];
    try reflexivity.
Qed.

(** ** Translation *)

Lemma translate_Ok v n x :
  translate v n = Ok x <->
  exists rfc ks,
    native_to_rfc v n = Some rfc /\
    _RFC_NAME_TO_KEY_SIZE_MAPPING !! rfc = Some ks /\
    x = mkCipherSuite rfc n (str_in "anon" rfc) ks.
Proof.
  unfold translate, native_to_rfc, getitem_version, getitem_str.
  destruct (_OPENSSL_TO_RFC_NAMES_MAPPING !! v) as [table|];
    cbn [mbind result_bind option_bind mret result_ret].
  - destruct (table !! n) as [rfc|]; cbn [mbind result_bind].
    + destruct (_RFC_NAME_TO_KEY_SIZE_MAPPING !! rfc) as [ks|] eqn:Hks;
        cbn [mbind result_bind].
      * assert ((if str_in "anon" rfc then true else false) = str_in "anon" rfc)
          as -> by (destruct (str_in "anon" rfc); reflexivity).
        split.
        -- intros [= <-]. exists rfc, ks. auto.
        -- intros (? & ? & [= <-] & Hk & ->). rewrite Hks in Hk.
           injection Hk as <-. reflexivity.
      * split; [discriminate 1|].
        intros (? & ? & [= <-] & Hk & _). rewrite Hks in Hk. discriminate Hk.
    + split; [discriminate 1|]. intros (? & ? & [=] & _).
  - split; [discriminate 1|]. intros (? & ? & [=] & _).
Qed.

Lemma translate_Raise v n :
  (exists e, translate v n = Raise e) <->
  native_to_rfc v n = None \/
  exists rfc, native_to_rfc v n = Some rfc /\
              _RFC_NAME_TO_KEY_SIZE_MAPPING !! rfc = None.
Proof.
  split.
  - intros [e He].
    destruct (native_to_rfc v n) as [rfc|] eqn:Hrfc; [|left; reflexivity].
    right. exists rfc. split; [reflexivity|].
    destruct (_RFC_NAME_TO_KEY_SIZE_MAPPING !! rfc) as [ks|] eqn:Hks;
      [|reflexivity].
    assert (translate v n =
            Ok (mkCipherSuite rfc n (str_in "anon" rfc) ks)) as H
      by (apply translate_Ok; eauto).
    rewrite H in He. discriminate He.
  - intros H.
    destruct (is_Ok_or_Raise (translate v n)) as [[x Hx]|]; [|assumption].
    apply translate_Ok in Hx as (rfc & ks & Hrfc & Hks & _).
    destruct H as [H|(rfc' & H1 & H2)].
    + rewrite H in Hrfc. discriminate Hrfc.
    + rewrite H1 in Hrfc. injection Hrfc as ->. rewrite H2 in Hks.
      discriminate Hks.
Qed.

Lemma translate_openssl_name v n x : translate v n = Ok x -> openssl_name x = n.
Proof. intros (? & ? & _ & _ & ->)%translate_Ok. reflexivity. Qed.

Lemma elem_of_translated v l x :
  x ∈ translated v l <-> exists n, n ∈ l /\ translate v n = Ok x.
Proof.
  unfold translated. rewrite elem_of_list_to_set, list_elem_of_omap.
  split; intros (n & Hn & H); exists n; (split; [exact Hn|]).
  - destruct (translate v n); simpl in H; [|discriminate H].
    injection H as ->. reflexivity.
  - rewrite H. reflexivity.
Qed.

(** ** The inner loops *)

Lemma add_cipher_suite_translate v n (d : Catalog) s :
  d !! v = Some s ->
  add_cipher_suite v n d =
  match translate v n with
  | Ok x => Ok (<[v := s ∪ {[x]}]> d)
  | Raise e => Raise e
  end.
Proof.
  intros Hd. unfold add_cipher_suite, translate.
  destruct (table ← getitem_version _OPENSSL_TO_RFC_NAMES_MAPPING v;
            getitem_str table n) as [rfc|e];
    cbn [mbind result_bind]; [|reflexivity].
  unfold getitem_version at 1. rewrite Hd. cbn [mbind result_bind].
  destruct (getitem_str _RFC_NAME_TO_KEY_SIZE_MAPPING rfc) as [ks|e];
    reflexivity.
Qed.

Lemma translated_nil v : translated v [] = ∅.
Proof. reflexivity. Qed.

Lemma translated_cons_Ok v n l x :
  translate v n = Ok x -> translated v (n :: l) = {[x]} ∪ translated v l.
Proof.
  intros H. unfold translated. cbn [omap list_omap]. rewrite H. reflexivity.
Qed.

Lemma for_each_add_cipher_suite v l :
  forall (d : Catalog) s, d !! v = Some s ->
  match for_each l (add_cipher_suite v) d with
  | Ok d' =>
      Forall (fun n => is_Ok (translate v n)) l /\
      d' = <[v := s ∪ translated v l]> d
  | Raise e => exists n, n ∈ l /\ translate v n = Raise e
  end.
Proof.
  induction l as [|n l IH]; intros d s Hd; cbn [for_each].
  - split; [constructor|].
    rewrite translated_nil, (right_id_L ∅ (∪)). symmetry.
    by apply insert_id.
  - rewrite (add_cipher_suite_translate v n d s Hd).
    destruct (translate v n) as [x|e] eqn:Hn; cbn [mbind result_bind].
    + specialize (IH (<[v := s ∪ {[x]}]> d) (s ∪ {[x]})
                     (lookup_insert_eq _ _ _)).
      destruct (for_each l (add_cipher_suite v) (<[v := s ∪ {[x]}]> d))
        as [d'|e].
      * destruct IH as [Hall ->]. split.
        -- constructor; [by exists x|exact Hall].
        -- rewrite insert_insert_eq, (translated_cons_Ok v n l x Hn).
           by rewrite (assoc_L (∪)).
      * destruct IH as (m & Hm & He). exists m. split; [by right|exact He].
    + exists n. split; [by left|exact Hn].
Qed.

Lemma for_each_skip {X S} (P : X -> Prop) `{!forall x, Decision (P x)}
      (body : X -> S -> result S) (l : list X) :
  forall s,
    for_each l (fun x s => if decide (P x) then Ok s else body x s) s =
    for_each (filter (fun x => ~ P x) l) body s.
Proof.
  induction l as [|x l IH]; intros s; [reflexivity|].
  cbn [for_each]. rewrite filter_cons.
  destruct (decide (P x)) as [HP|HP].
  - rewrite decide_False by tauto. cbn [mbind result_bind]. apply IH.
  - rewrite decide_True by exact HP. cbn [for_each].
    destruct (body x s); cbn [mbind result_bind]; [apply IH|reflexivity].
Qed.

Lemma tls_1_3_key_sizes :
  Forall2 (fun n ks => getitem_str _RFC_NAME_TO_KEY_SIZE_MAPPING n = Ok ks)
          _TLS_1_3_CIPHER_SUITES [128; 128; 256; 128; 256].
Proof. repeat constructor; vm_compute; reflexivity. Qed.

Lemma tls_1_3_comprehension_eq :
  tls_1_3_comprehension _TLS_1_3_CIPHER_SUITES = Ok tls_1_3_suites.
Proof.
  pose proof tls_1_3_key_sizes as H. unfold _TLS_1_3_CIPHER_SUITES in *.
  repeat match goal with
         | H : Forall2 _ (_ :: _) _ |- _ =>
             apply Forall2_cons_1 in H; destruct H as [? H]
         end.
  cbn [tls_1_3_comprehension].
  repeat match goal with
         | H : getitem_str _ _ = Ok _ |- _ => rewrite H; clear H
         end.
  reflexivity.
Qed.

(** ** One iteration of the outer loop *)

Section Iteration.
Variable get_cipher_list : GetCipherList.

Lemma loop_body_run v (d : Catalog) log :
  v ∈ loop_versions ->
  run (loop_body get_cipher_list v d) log =
  match for_each (to_translate get_cipher_list v) (add_cipher_suite v)
                 (<[v := ∅]> d) with
  | Raise e =>
      ((log ++ [mkEngineCall LegacySslClient v cipher_string])%list, Raise e)
  | Ok d1 =>
      match for_each (to_translate get_cipher_list TLS_1_2)
                     (add_cipher_suite TLS_1_2) (<[TLS_1_2 := ∅]> d1) with
      | Raise e => ((log ++ calls_of_iteration v)%list, Raise e)
      | Ok d2 =>
          ((log ++ calls_of_iteration v)%list,
           Ok (<[TLS_1_3 := tls_1_3_suites]> d2))
      end
  end.
Proof.
  intros Hv.
  assert (to_translate get_cipher_list v =
          elements (list_to_set (C := gset string)
                      (get_cipher_list LegacySslClient v cipher_string))) as ->.
  { unfold loop_versions in Hv. rewrite !elem_of_cons in Hv.
    destruct Hv as [->|[->|[->|[->|Hv]]]]; try reflexivity.
    by apply elem_of_nil in Hv. }
  unfold loop_body, _parse_all_cipher_suites_with_legacy_openssl, enumerate,
    lift.
  cbn [run mbind M_bind mret M_ret].
  fold cipher_string.
  destruct (for_each _ (add_cipher_suite v) _) as [d1|e]; [|reflexivity].
  rewrite for_each_skip.
  change (for_each _ (add_cipher_suite TLS_1_2) (<[TLS_1_2:=∅]> d1))
    with (for_each (to_translate get_cipher_list TLS_1_2)
                   (add_cipher_suite TLS_1_2) (<[TLS_1_2:=∅]> d1)).
  rewrite tls_1_3_comprehension_eq.
  unfold calls_of_iteration.
  destruct (for_each _ (add_cipher_suite TLS_1_2) _) as [d2|e];
    rewrite <- !app_assoc; reflexivity.
Qed.
End Iteration.

Lemma run_bind {A B} (m : M A) (f : A -> M B) log :
  run (m ≫= f) log =
  match run m log with
  | (log', Ok a) => run (f a) log'
  | (log', Raise e) => (log', Raise e)
  end.
Proof. reflexivity. Qed.

Section Build.
Variable get_cipher_list : GetCipherList.

Lemma entry_loop_version v :
  v ∈ loop_versions ->
  entry get_cipher_list v = translated v (to_translate get_cipher_list v).
Proof.
  unfold loop_versions. rewrite !elem_of_cons.
  intros [->|[->|[->|[->|Hv]]]]; try reflexivity.
  by apply elem_of_nil in Hv.
Qed.

(** One iteration either stores the three entries, after exactly the three
    enumerations of the iteration, or raises what a translation raised. *)
Lemma loop_body_spec v (d : Catalog) log :
  v ∈ loop_versions ->
  match run (loop_body get_cipher_list v d) log with
  | (log', Ok d') =>
      log' = (log ++ calls_of_iteration v)%list /\
      d' = iteration_result get_cipher_list d v /\
      Forall (fun n => is_Ok (translate v n))
             (to_translate get_cipher_list v) /\
      Forall (fun n => is_Ok (translate TLS_1_2 n))
             (to_translate get_cipher_list TLS_1_2)
  | (log', Raise e) =>
      (exists k, log' = (log ++ take k (calls_of_iteration v))%list) /\
      exists v' n,
        (v' = v \/ v' = TLS_1_2) /\ n ∈ to_translate get_cipher_list v' /\
        translate v' n = Raise e
  end.
Proof.
  intros Hv. rewrite (loop_body_run _ v d log Hv).
  pose proof (for_each_add_cipher_suite
                v (to_translate get_cipher_list v) (<[v := ∅]> d) ∅
                (lookup_insert_eq _ _ _)) as H1.
  destruct (for_each (to_translate get_cipher_list v) (add_cipher_suite v)
                     (<[v:=∅]> d))
    as [d1|e].
  - destruct H1 as [Hall1 ->].
    pose proof (for_each_add_cipher_suite
                  TLS_1_2 (to_translate get_cipher_list TLS_1_2)
                  (<[TLS_1_2 := ∅]>
                     (<[v := ∅ ∪ translated v (to_translate get_cipher_list v)]>
                        (<[v := ∅]> d)))
                  ∅ (lookup_insert_eq _ _ _)) as H2.
    destruct (for_each (to_translate get_cipher_list TLS_1_2)
                       (add_cipher_suite TLS_1_2) _)
      as [d2|e].
    + destruct H2 as [Hall2 ->]. repeat split; try assumption.
      unfold iteration_result.
      rewrite !insert_insert_eq, !(left_id_L ∅ (∪)).
      rewrite (entry_loop_version v Hv). reflexivity.
    + split; [exists 3%nat; reflexivity|].
      destruct H2 as (n & Hn & He). exists TLS_1_2, n. auto.
  - split; [exists 1%nat; reflexivity|].
    destruct H1 as (n & Hn & He). exists v, n. auto.
Qed.

(** The loop over a list of versions. *)
Lemma for_each_M_loop_body_spec vs :
  (forall v, v ∈ vs -> v ∈ loop_versions) ->
  forall (d : Catalog) log,
  match run (for_each_M vs (loop_body get_cipher_list) d) log with
  | (log', Ok d') =>
      log' = (log ++ concat (calls_of_iteration <$> vs))%list /\
      d' = foldl (iteration_result get_cipher_list) d vs /\
      (forall v n,
          v ∈ vs -> n ∈ to_translate get_cipher_list v ->
          is_Ok (translate v n)) /\
      (vs <> [] ->
       forall n,
         n ∈ to_translate get_cipher_list TLS_1_2 ->
         is_Ok (translate TLS_1_2 n))
  | (log', Raise e) =>
      (exists k,
          log' = (log ++ take k (concat (calls_of_iteration <$> vs)))%list) /\
      exists v n,
        (v ∈ vs \/ v = TLS_1_2) /\ n ∈ to_translate get_cipher_list v /\
        translate v n = Raise e
  end.
Proof.
  induction vs as [|v vs IH]; intros Hvs d log.
  - cbn. rewrite app_nil_r. repeat split; [|congruence].
    intros v n Hv. by apply elem_of_nil in Hv.
  - cbn [for_each_M]. rewrite run_bind.
    pose proof (loop_body_spec v d log (Hvs v (list_elem_of_here _ _))) as Hb.
    destruct (run (loop_body get_cipher_list v d) log) as [log1 [d1|e]].
    + destruct Hb as (-> & -> & Hall1 & Hall2).
      specialize (IH (fun w Hw => Hvs w (list_elem_of_further _ _ _ Hw))
                     (iteration_result get_cipher_list d v)
                     (log ++ calls_of_iteration v)%list).
      destruct (run (for_each_M vs (loop_body get_cipher_list) _) _)
        as [log2 [d2|e]].
      * destruct IH as (-> & -> & Hall & _).
        rewrite fmap_cons, concat_cons, <- app_assoc.
        repeat split.
        -- intros w n [->|Hw]%elem_of_cons Hn.
           ++ rewrite Forall_forall in Hall1. auto.
           ++ eauto.
        -- intros _ n Hn. rewrite Forall_forall in Hall2. auto.
      * destruct IH as ([k ->] & w & n & Hw & Hn & He). split.
        -- exists (3 + k)%nat. rewrite <- app_assoc. reflexivity.
        -- exists w, n. repeat split; try assumption.
           destruct Hw as [Hw| ->]; [left; by right|by right].
    + destruct Hb as ([k ->] & w & n & Hw & Hn & He). split.
      * exists (min 3 k). rewrite fmap_cons, concat_cons.
        unfold calls_of_iteration.
        destruct k as [|[|[|k]]]; try reflexivity.
        cbn [Nat.min take app]. rewrite take_nil. reflexivity.
      * exists w, n. repeat split; try assumption.
        destruct Hw as [->| ->]; [left; by left|by right].
Qed.

Lemma to_translate_TLS_1_3 : to_translate get_cipher_list TLS_1_3 = [].
Proof. unfold to_translate, enumerated. apply elements_empty. Qed.

Lemma foldl_iteration_result_lookup v :
  foldl (iteration_result get_cipher_list) ∅ loop_versions !! v =
  Some (entry get_cipher_list v).
Proof.
  unfold loop_versions, iteration_result. cbn [foldl].
  destruct v;
    repeat first [ rewrite lookup_insert_eq
                 | rewrite lookup_insert_ne by discriminate ];
    reflexivity.
Qed.

(** The builder: what it returns, what it logs, and when it raises. *)
Lemma parse_all_spec log :
  match run (_parse_all_cipher_suites get_cipher_list) log with
  | (log', Ok d) =>
      log' = (log ++ calls_of_build)%list /\
      (forall v, d !! v = Some (entry get_cipher_list v)) /\
      (forall v n,
          n ∈ to_translate get_cipher_list v -> is_Ok (translate v n))
  | (log', Raise e) =>
      (exists k, log' = (log ++ take k calls_of_build)%list) /\
      exists v n, n ∈ to_translate get_cipher_list v /\ translate v n = Raise e
  end.
Proof.
  unfold _parse_all_cipher_suites.
  pose proof (for_each_M_loop_body_spec loop_versions (fun v H => H) ∅ log)
    as H.
  change [SSL_2_0; SSL_3_0; TLS_1_0; TLS_1_1] with loop_versions.
  destruct (run (for_each_M loop_versions (loop_body get_cipher_list) ∅) log)
    as [log' [d|e]].
  - destruct H as (-> & -> & Hall & H12). repeat split.
    + apply foldl_iteration_result_lookup.
    + intros v n Hn.
      destruct v;
        [ apply Hall; [|exact Hn] .. | apply H12; [discriminate|exact Hn] | ];
        [ unfold loop_versions;
          repeat first [ apply list_elem_of_here
                       | apply list_elem_of_further ] .. | ].
      rewrite to_translate_TLS_1_3 in Hn. by apply elem_of_nil in Hn.
  - destruct H as (Hk & v & n & _ & Hn & He). split; [exact Hk|eauto].
Qed.

Lemma parse_all_Ok_intro log :
  (forall v n, n ∈ to_translate get_cipher_list v -> is_Ok (translate v n)) ->
  exists d,
    run (_parse_all_cipher_suites get_cipher_list) log =
    ((log ++ calls_of_build)%list, Ok d) /\
    forall v, d !! v = Some (entry get_cipher_list v).
Proof.
  intros Hall. pose proof (parse_all_spec log) as H.
  destruct (run (_parse_all_cipher_suites get_cipher_list) log)
    as [log' [d|e]].
  - destruct H as (-> & Hd & _). eauto.
  - destruct H as (_ & v & n & Hn & He).
    destruct (is_Ok_not_Raise _ e (Hall v n Hn) He).
Qed.

Lemma parse_all_Ok_inv log log' d :
  run (_parse_all_cipher_suites get_cipher_list) log = (log', Ok d) ->
  log' = (log ++ calls_of_build)%list /\
  (forall v, d !! v = Some (entry get_cipher_list v)) /\
  (forall v n, n ∈ to_translate get_cipher_list v -> is_Ok (translate v n)).
Proof. intros H. pose proof (parse_all_spec log) as Hs. by rewrite H in Hs. Qed.

Lemma parse_all_Raise_inv log log' e :
  run (_parse_all_cipher_suites get_cipher_list) log = (log', Raise e) ->
  (exists k, log' = (log ++ take k calls_of_build)%list) /\
  exists v n, n ∈ to_translate get_cipher_list v /\ translate v n = Raise e.
Proof. intros H. pose proof (parse_all_spec log) as Hs. by rewrite H in Hs. Qed.

(** Membership in the stored sets. *)
Lemma elem_of_entry v x :
  x ∈ entry get_cipher_list v <->
  (v = TLS_1_3 /\ x ∈ tls_1_3_suites) \/
  (v <> TLS_1_3 /\
   exists n, n ∈ to_translate get_cipher_list v /\ translate v n = Ok x).
Proof.
  destruct (decide (v = TLS_1_3)) as [->|Hv].
  - cbn [entry]. split.
    + intros H. left. split; [reflexivity|exact H].
    + intros [[_ H]|[Hne _]]; [exact H|destruct (Hne eq_refl)].
  - assert (entry get_cipher_list v =
            translated v (to_translate get_cipher_list v)) as ->
      by (destruct v; try reflexivity; destruct (Hv eq_refl)).
    rewrite elem_of_translated. split.
    + intros H. right. split; [exact Hv|exact H].
    + intros [[Heq _]|[_ H]]; [destruct (Hv Heq)|exact H].
Qed.

Lemma elem_of_to_translate v n :
  n ∈ to_translate get_cipher_list v <->
  n ∈ enumerated get_cipher_list v /\
  (v = TLS_1_2 -> n ∉ _TLS_1_3_CIPHER_SUITES).
Proof.
  destruct v; unfold to_translate;
    rewrite ?list_elem_of_filter, elem_of_elements;
    try (split; [ intros H; split; [exact H|discriminate]
                | intros [H _]; exact H ]).
  split; intros [H1 H2]; split; auto.
Qed.
End Build.

(** ** Facts read off the tables *)

Lemma forallb_items {V} (f : string -> V -> bool) (items : list (string * V)) :
  forallb (fun kv => f kv.1 kv.2) items = true ->
  forall k v, (k, v) ∈ items -> f k v = true.
Proof.
  intros H k v Hin. rewrite forallb_forall in H.
  apply (H (k, v)). apply list_elem_of_In. exact Hin.
Qed.

Lemma key_size_table_range rfc ks :
  _RFC_NAME_TO_KEY_SIZE_MAPPING !! rfc = Some ks -> ks ∈ key_sizes.
Proof.
  intros H%key_size_elem.
  assert (forallb (fun kv => check_key_size kv.1 kv.2)
                  _RFC_NAME_TO_KEY_SIZE_items = true) as Hall
    by (vm_compute; reflexivity).
  apply (forallb_items _ _ Hall) in H.
  unfold check_key_size in H. apply bool_decide_eq_true in H. exact H.
Qed.

Lemma tls_table_not_tls_1_3 n rfc :
  _TLS_OPENSSL_TO_RFC_NAMES_MAPPING !! n = Some rfc ->
  rfc ∉ _TLS_1_3_CIPHER_SUITES.
Proof.
  intros H%tls_lookup_elem.
  assert (forallb (fun kv => check_not_tls_1_3 kv.1 kv.2)
                  _TLS_OPENSSL_TO_RFC_NAMES_items = true) as Hall
    by (vm_compute; reflexivity).
  apply (forallb_items _ _ Hall) in H.
  unfold check_not_tls_1_3 in H. apply bool_decide_eq_true in H. exact H.
Qed.

Lemma sslv2_table_check n rfc :
  _SSLV2_OPENSSL_TO_RFC_NAMES_MAPPING !! n = Some rfc ->
  check_sslv2 n rfc = true.
Proof.
  intros H%sslv2_lookup_elem.
  assert (forallb (fun kv => check_sslv2 kv.1 kv.2)
                  _SSLV2_OPENSSL_TO_RFC_NAMES_items = true) as Hall
    by (vm_compute; reflexivity).
  exact (forallb_items _ _ Hall _ _ H).
Qed.

Lemma sslv2_table_has_key_size n rfc :
  _SSLV2_OPENSSL_TO_RFC_NAMES_MAPPING !! n = Some rfc ->
  is_Some (_RFC_NAME_TO_KEY_SIZE_MAPPING !! rfc).
Proof.
  intros H%sslv2_table_check. unfold check_sslv2 in H.
  apply andb_true_iff in H as [_ H].
  destruct (_RFC_NAME_TO_KEY_SIZE_MAPPING !! rfc) as [ks|];
    [exists ks; reflexivity|discriminate H].
Qed.

Lemma check_spelling_spec items n rfc :
  check_spelling items n rfc = true ->
  forall n', (n', rfc) ∈ items -> n' = n \/ (n, n') ∈ des3_spellings.
Proof.
  unfold check_spelling. intros H n' Hin.
  rewrite forallb_forall in H.
  specialize (H (n', rfc)). cbn [fst snd] in H.
  rewrite bool_decide_eq_true_2 in H by reflexivity.
  apply list_elem_of_In in Hin. specialize (H Hin).
  cbn [implb] in H. apply orb_true_iff in H as [H|H];
    apply bool_decide_eq_true in H; auto.
Qed.

Lemma tls_table_spellings n1 n2 rfc :
  _TLS_OPENSSL_TO_RFC_NAMES_MAPPING !! n1 = Some rfc ->
  _TLS_OPENSSL_TO_RFC_NAMES_MAPPING !! n2 = Some rfc ->
  n2 = n1 \/ (n1, n2) ∈ des3_spellings.
Proof.
  intros H1%tls_lookup_elem H2%tls_lookup_elem.
  assert (forallb (fun kv =>
                     check_spelling _TLS_OPENSSL_TO_RFC_NAMES_items kv.1 kv.2)
                  _TLS_OPENSSL_TO_RFC_NAMES_items = true) as Hall
    by (vm_compute; reflexivity).
  apply (forallb_items _ _ Hall) in H1.
  exact (check_spelling_spec _ _ _ H1 _ H2).
Qed.

Lemma sslv2_table_injective n1 n2 rfc :
  _SSLV2_OPENSSL_TO_RFC_NAMES_MAPPING !! n1 = Some rfc ->
  _SSLV2_OPENSSL_TO_RFC_NAMES_MAPPING !! n2 = Some rfc ->
  n2 = n1.
Proof.
  intros H1 H2.
  pose proof (sslv2_lookup_elem _ _ H1) as H1'.
  pose proof (sslv2_lookup_elem _ _ H2) as H2'.
  assert (forallb (fun kv =>
                     check_spelling _SSLV2_OPENSSL_TO_RFC_NAMES_items kv.1 kv.2)
                  _SSLV2_OPENSSL_TO_RFC_NAMES_items = true) as Hall
    by (vm_compute; reflexivity).
  apply (forallb_items _ _ Hall) in H1'.
  destruct (check_spelling_spec _ _ _ H1' _ H2') as [->|Hsp]; [reflexivity|].
  assert (forallb (fun kv =>
                     match _SSLV2_OPENSSL_TO_RFC_NAMES_MAPPING !! kv.1 with
                     | Some _ => false
                     | None => true
                     end) des3_spellings = true) as Hno
    by (vm_compute; reflexivity).
  rewrite forallb_forall in Hno. apply list_elem_of_In in Hsp.
  specialize (Hno _ Hsp). cbn [fst] in Hno. rewrite H1 in Hno. discriminate Hno.
Qed.

(** ** The example clients *)

Lemma example_engine_translates v n :
  n ∈ to_translate example_engine v -> is_Ok (translate v n).
Proof.
  intros [H H13]%elem_of_to_translate.
  destruct v; unfold enumerated, example_engine in H;
    rewrite ?elem_of_union, ?elem_of_list_to_set in H;
    repeat (rewrite elem_of_cons in H); rewrite ?elem_of_nil in H;
    try specialize (H13 eq_refl).
  all: repeat match goal with
              | H : _ \/ _ |- _ => destruct H as [H|H]
              | H : False |- _ => destruct H
              | H : _ ∈ ∅ |- _ => apply not_elem_of_empty in H; destruct H
              end.
  all: try (subst n; eexists; vm_compute; reflexivity).
  subst n. exfalso. apply H13. unfold _TLS_1_3_CIPHER_SUITES. left.
Qed.

Lemma example_engine_run log :
  exists d,
    run (_parse_all_cipher_suites example_engine) log =
    ((log ++ calls_of_build)%list, Ok d) /\
    forall v, d !! v = Some (entry example_engine v).
Proof. apply parse_all_Ok_intro, example_engine_translates. Qed.

(** ** TLS 1.3 *)

Lemma elem_of_tls_1_3_suites S :
  S ∈ tls_1_3_suites <->
  name S ∈ _TLS_1_3_CIPHER_SUITES /\
  openssl_name S = name S /\
  is_anonymous S = false /\
  _RFC_NAME_TO_KEY_SIZE_MAPPING !! name S = Some (key_size S).
Proof.
  pose proof tls_1_3_key_sizes as Hks.
  unfold tls_1_3_suites, _TLS_1_3_CIPHER_SUITES in *.
  repeat match goal with
         | H : Forall2 _ (_ :: _) _ |- _ =>
             apply Forall2_cons_1 in H;
             let H' := fresh "Hk" in
             destruct H as [H'%getitem_str_Ok H]
         end.
  clear Hks.
  rewrite elem_of_list_to_set. repeat rewrite elem_of_cons.
  rewrite !elem_of_nil. split.
  - intros Hin.
    repeat match goal with
           | H : _ \/ _ |- _ => destruct H as [H|H]
           | H : False |- _ => destruct H
           end;
      subst S; cbn [name openssl_name is_anonymous key_size];
      (split; [tauto|]); auto.
  - destruct S as [nm on an ks]. cbn [name openssl_name is_anonymous key_size].
    intros (Hn & -> & -> & Hsize).
    repeat match goal with
           | H : _ \/ _ |- _ => destruct H as [H|H]
           | H : False |- _ => destruct H
           end;
      subst nm;
      match goal with
      | H1 : ?t = Some ?a, H2 : ?t = Some ?b |- _ =>
          rewrite H1 in H2; injection H2 as <-
      end; tauto.
Qed.

(** C1.  When the builder returns a catalogue, its TLS 1.3 entry is the set of
    exactly those records whose name is one of the five names of
    [_TLS_1_3_CIPHER_SUITES], whose OpenSSL name equals that name, which are
    not anonymous and whose key size is the one of the key-size table (128
    for TLS_AES_128_GCM_SHA256, 256 for TLS_CHACHA20_POLY1305_SHA256); the
    set has five elements, and none of the enumerations logged by the run
    is for TLS 1.3. *)
Theorem tls_1_3_entry_is_hardcoded
        (get_cipher_list : GetCipherList)
        (log log' : list EngineCall) (d : Catalog) :
  run (_parse_all_cipher_suites get_cipher_list) log = (log', Ok d) ->
  exists s,
    d !! TLS_1_3 = Some s /\
    (forall S, S ∈ s <->
               name S ∈ [ "TLS_AES_128_GCM_SHA256"; "TLS_AES_128_CCM_SHA256";
                          "TLS_AES_256_GCM_SHA384"; "TLS_AES_128_CCM_8_SHA256";
                          "TLS_CHACHA20_POLY1305_SHA256" ] /\
               openssl_name S = name S /\
               is_anonymous S = false /\
               _RFC_NAME_TO_KEY_SIZE_MAPPING !! name S = Some (key_size S)) /\
    size s = 5%nat /\
    _RFC_NAME_TO_KEY_SIZE_MAPPING !! "TLS_AES_128_GCM_SHA256" = Some 128 /\
    _RFC_NAME_TO_KEY_SIZE_MAPPING !! "TLS_CHACHA20_POLY1305_SHA256"
      = Some 256 /\
    Forall (fun c => call_version c <> TLS_1_3) (drop (length log) log').
Proof.
  intros (-> & Hd & _)%parse_all_Ok_inv.
  exists tls_1_3_suites. split; [exact (Hd TLS_1_3)|].
  split; [exact elem_of_tls_1_3_suites|].
  split.
  { unfold tls_1_3_suites. rewrite size_list_to_set; [reflexivity|].
    repeat (apply NoDup_cons_2;
            [ intros H;
              repeat (apply elem_of_cons in H as [H|H]; [discriminate H|]);
              apply elem_of_nil in H; exact H |]).
    apply NoDup_nil_2. }
  split; [vm_compute; reflexivity|].
  split; [vm_compute; reflexivity|].
  rewrite drop_app_length. unfold calls_of_build, calls_of_iteration.
  repeat (apply Forall_cons_2; [discriminate|]). apply Forall_nil_2.
Qed.

Lemma tls_1_3_entry_is_hardcoded_witness :
  exists log' d s,
    run (_parse_all_cipher_suites example_engine) [] = (log', Ok d) /\
    d !! TLS_1_3 = Some s /\
    mkCipherSuite "TLS_CHACHA20_POLY1305_SHA256" "TLS_CHACHA20_POLY1305_SHA256"
                  false 256 ∈ s /\
    size s = 5%nat.
Proof.
  destruct (example_engine_run []) as (d & Hrun & _).
  destruct (tls_1_3_entry_is_hardcoded example_engine [] _ d Hrun)
    as (s & Hs & Hin & Hsize & _).
  exists ([] ++ calls_of_build)%list, d, s.
  split; [exact Hrun|]. split; [exact Hs|]. split; [|exact Hsize].
  apply Hin. cbn [name openssl_name is_anonymous key_size].
  split; [repeat first [apply list_elem_of_here | apply list_elem_of_further]|].
  split; [reflexivity|]. split; [reflexivity|]. vm_compute. reflexivity.
Defined.

(** ** TLS 1.2 *)

Lemma translate_TLS_lookup v n S :
  v <> SSL_2_0 ->
  translate v n = Ok S ->
  _TLS_OPENSSL_TO_RFC_NAMES_MAPPING !! n = Some (name S).
Proof.
  intros Hv (rfc & ks & Hrfc & _ & ->)%translate_Ok.
  cbn [name]. unfold native_to_rfc in Hrfc. rewrite mapping_lookup in Hrfc.
  destruct v; cbn [mbind option_bind] in Hrfc;
    [destruct (Hv eq_refl)|exact Hrfc..|discriminate Hrfc].
Qed.

Lemma translate_SSL_2_0_lookup n S :
  translate SSL_2_0 n = Ok S ->
  _SSLV2_OPENSSL_TO_RFC_NAMES_MAPPING !! n = Some (name S).
Proof.
  intros (rfc & ks & Hrfc & _ & ->)%translate_Ok.
  cbn [name]. unfold native_to_rfc in Hrfc. rewrite mapping_lookup in Hrfc.
  exact Hrfc.
Qed.

Lemma tls_1_3_names_do_not_translate v n :
  n ∈ _TLS_1_3_CIPHER_SUITES -> exists e, translate v n = Raise e.
Proof.
  intros Hn. apply translate_Raise. left.
  unfold _TLS_1_3_CIPHER_SUITES in Hn.
  repeat (apply elem_of_cons in Hn as [->|Hn];
          [destruct v; vm_compute; reflexivity|]).
  apply elem_of_nil in Hn. destruct Hn.
Qed.

(** C2.  The TLS 1.3 names that the clients list for TLS 1.2 are discarded,
    not translated: although none of them has a translation, the builder
    returns a catalogue exactly when every name the legacy client lists for
    SSL 2.0, SSL 3.0, TLS 1.0 and TLS 1.1 translates and every name that
    the legacy or the modern client lists for TLS 1.2 and that is not in
    [_TLS_1_3_CIPHER_SUITES] translates.  The TLS 1.2 entry of the returned
    catalogue then holds exactly the translations of the names that are in
    the union of what the legacy and the modern client list for TLS 1.2
    under the cipher string "ALL:COMPLEMENTOFALL:-PSK:-SRP" and that are
    not in [_TLS_1_3_CIPHER_SUITES]; no record of the entry has one of the
    five TLS 1.3 names as its name; and both clients were asked with that
    cipher string. *)
Theorem tls_1_2_entry_is_union_without_tls_1_3
        (get_cipher_list : GetCipherList) (log : list EngineCall) :
  ((exists log' d,
       run (_parse_all_cipher_suites get_cipher_list) log = (log', Ok d)) <->
   (forall v n,
       v ∈ [SSL_2_0; SSL_3_0; TLS_1_0; TLS_1_1] ->
       n ∈ get_cipher_list LegacySslClient v "ALL:COMPLEMENTOFALL:-PSK:-SRP" ->
       is_Ok (translate v n)) /\
   (forall n,
       n ∈ (list_to_set
              (get_cipher_list LegacySslClient TLS_1_2
                               "ALL:COMPLEMENTOFALL:-PSK:-SRP") ∪
            list_to_set
              (get_cipher_list SslClient TLS_1_2
                               "ALL:COMPLEMENTOFALL:-PSK:-SRP")
            : gset string) ->
       n ∉ _TLS_1_3_CIPHER_SUITES ->
       is_Ok (translate TLS_1_2 n))) /\
  (forall n,
      n ∈ _TLS_1_3_CIPHER_SUITES -> exists e, translate TLS_1_2 n = Raise e) /\
  (forall log' d,
      run (_parse_all_cipher_suites get_cipher_list) log = (log', Ok d) ->
      exists s,
        d !! TLS_1_2 = Some s /\
        (forall S,
            S ∈ s <->
            (exists n,
                n ∈ (list_to_set
                       (get_cipher_list LegacySslClient TLS_1_2
                                        "ALL:COMPLEMENTOFALL:-PSK:-SRP") ∪
                     list_to_set
                       (get_cipher_list SslClient TLS_1_2
                                        "ALL:COMPLEMENTOFALL:-PSK:-SRP")
                     : gset string) /\
                (n ∉ _TLS_1_3_CIPHER_SUITES) /\
                translate TLS_1_2 n = Ok S)) /\
        (forall S, S ∈ s -> name S ∉ _TLS_1_3_CIPHER_SUITES) /\
        mkEngineCall LegacySslClient TLS_1_2 "ALL:COMPLEMENTOFALL:-PSK:-SRP"
          ∈ drop (length log) log' /\
        mkEngineCall SslClient TLS_1_2 "ALL:COMPLEMENTOFALL:-PSK:-SRP"
          ∈ drop (length log) log').
Proof.
  split; [|split; [exact (tls_1_3_names_do_not_translate TLS_1_2)|]].
  - split.
    + intros (log' & d & (_ & _ & Hall)%parse_all_Ok_inv). split.
      * intros v n Hv Hn. apply Hall, elem_of_to_translate. split.
        -- repeat (apply elem_of_cons in Hv as [->|Hv];
                   [apply elem_of_list_to_set; exact Hn|]).
           apply elem_of_nil in Hv. destruct Hv.
        -- intros ->.
           repeat (apply elem_of_cons in Hv as [Hv|Hv]; [discriminate Hv|]).
           apply elem_of_nil in Hv. destruct Hv.
      * intros n Hn H13. apply Hall, elem_of_to_translate.
        split; [exact Hn|intros _; exact H13].
    + intros [Hold H12].
      destruct (parse_all_Ok_intro get_cipher_list log) as (d & Hrun & _).
      * intros v n [Hn H13]%elem_of_to_translate.
        destruct v; cbn [enumerated] in Hn;
          [ apply Hold;
            [ repeat first [ apply list_elem_of_here
                           | apply list_elem_of_further ]
            | apply elem_of_list_to_set in Hn; exact Hn ] ..
          | exact (H12 n Hn (H13 eq_refl))
          | apply not_elem_of_empty in Hn; destruct Hn ].
      * exists (log ++ calls_of_build)%list, d. exact Hrun.
  - intros log' d (-> & Hd & _)%parse_all_Ok_inv.
    exists (entry get_cipher_list TLS_1_2). split; [exact (Hd TLS_1_2)|].
    assert (forall S,
               S ∈ entry get_cipher_list TLS_1_2 <->
               (exists n,
                   n ∈ enumerated get_cipher_list TLS_1_2 /\
                   (n ∉ _TLS_1_3_CIPHER_SUITES) /\
                   translate TLS_1_2 n = Ok S)) as Hmem.
    { intros S. rewrite elem_of_entry. split.
      - intros [[Hv _]|[_ (n & [Hn H13]%elem_of_to_translate & Ht)]];
          [discriminate Hv|].
        exists n. auto.
      - intros (n & Hn & H13 & Ht). right. split; [discriminate|].
        exists n. split; [|exact Ht]. apply elem_of_to_translate. auto. }
    split; [exact Hmem|]. split.
    + intros S (n & _ & _ & Ht)%Hmem.
      apply (tls_table_not_tls_1_3 n).
      apply (translate_TLS_lookup TLS_1_2); [discriminate|exact Ht].
    + rewrite drop_app_length. unfold calls_of_build, calls_of_iteration.
      split.
      * apply list_elem_of_further, list_elem_of_here.
      * apply list_elem_of_further, list_elem_of_further, list_elem_of_here.
Qed.

Lemma tls_1_2_entry_is_union_without_tls_1_3_witness :
  "TLS_AES_256_GCM_SHA384"
    ∈ tls_1_3_listing_engine SslClient TLS_1_2 "ALL:COMPLEMENTOFALL:-PSK:-SRP" /\
  (exists e, translate TLS_1_2 "TLS_AES_256_GCM_SHA384" = Raise e) /\
  exists log' d s,
    run (_parse_all_cipher_suites tls_1_3_listing_engine) [] = (log', Ok d) /\
    d !! TLS_1_2 = Some s /\
    mkCipherSuite "TLS_ECDHE_RSA_WITH_AES_256_GCM_SHA384"
                  "ECDHE-RSA-AES256-GCM-SHA384" false 256 ∈ s /\
    mkCipherSuite "TLS_DHE_RSA_WITH_3DES_EDE_CBC_SHA"
                  "EDH-RSA-DES-CBC3-SHA" false 168 ∈ s /\
    forall S, S ∈ s -> name S <> "TLS_AES_256_GCM_SHA384".
Proof.
  destruct (tls_1_2_entry_is_union_without_tls_1_3 tls_1_3_listing_engine [])
    as (Hreturns & Hraise & Hentry).
  assert ("TLS_AES_256_GCM_SHA384" ∈ _TLS_1_3_CIPHER_SUITES) as H13
    by (unfold _TLS_1_3_CIPHER_SUITES;
        repeat first [apply list_elem_of_here | apply list_elem_of_further]).
  split; [|split; [exact (Hraise _ H13)|]].
  { cbn [tls_1_3_listing_engine]. apply elem_of_app. left. exact H13. }
  destruct (proj2 Hreturns) as (log' & d & Hrun).
  { split.
    - intros v n Hv Hn.
      assert (n = "RC4-MD5") as ->.
      { repeat (apply elem_of_cons in Hv as [->|Hv];
                [cbn [tls_1_3_listing_engine] in Hn;
                 apply list_elem_of_singleton in Hn; exact Hn|]).
        apply elem_of_nil in Hv. destruct Hv. }
      repeat (apply elem_of_cons in Hv as [->|Hv];
              [eexists; vm_compute; reflexivity|]).
      apply elem_of_nil in Hv. destruct Hv.
    - intros n Hn Hnot. cbn [tls_1_3_listing_engine] in Hn.
      rewrite elem_of_union, !elem_of_list_to_set, elem_of_app in Hn.
      destruct Hn as [Hn|[Hn|Hn]]; [|destruct (Hnot Hn)|];
        repeat (apply elem_of_cons in Hn as [->|Hn];
                [eexists; vm_compute; reflexivity|]);
        apply elem_of_nil in Hn; destruct Hn. }
  destruct (Hentry log' d Hrun) as (s & Hs & Hin & Hnot & _).
  exists log', d, s.
  split; [exact Hrun|]. split; [exact Hs|].
  split; [|split].
  - apply Hin. exists "ECDHE-RSA-AES256-GCM-SHA384". split; [|split].
    + apply elem_of_union_r, elem_of_list_to_set.
      cbn [tls_1_3_listing_engine]. apply elem_of_app. right.
      apply list_elem_of_here.
    + intros H. repeat (apply elem_of_cons in H as [H|H]; [discriminate H|]).
      apply elem_of_nil in H. exact H.
    + vm_compute. reflexivity.
  - apply Hin. exists "EDH-RSA-DES-CBC3-SHA". split; [|split].
    + apply elem_of_union_l, elem_of_list_to_set.
      cbn [tls_1_3_listing_engine].
      apply list_elem_of_further, list_elem_of_here.
    + intros H. repeat (apply elem_of_cons in H as [H|H]; [discriminate H|]).
      apply elem_of_nil in H. exact H.
    + vm_compute. reflexivity.
  - intros S HS Hname. apply (Hnot S HS). rewrite Hname. exact H13.
Defined.

(** ** SSL 2.0 *)

Lemma native_to_rfc_SSL_2_0 n :
  native_to_rfc SSL_2_0 n = _SSLV2_OPENSSL_TO_RFC_NAMES_MAPPING !! n.
Proof. unfold native_to_rfc. rewrite mapping_lookup. reflexivity. Qed.

(** C3, as the code has it.  Every key of the SSL 2.0 table translates to a
    record that is not anonymous and whose key size is one of 0, 40, 56, 64,
    128 and 168 (never 256); the key size is 0 exactly for NULL-MD5, which
    the table maps to TLS_RSA_WITH_NULL_MD5. *)
Theorem sslv2_suites_not_anonymous_key_sizes (n : string) :
  n ∈ dom _SSLV2_OPENSSL_TO_RFC_NAMES_MAPPING ->
  exists S,
    translate SSL_2_0 n = Ok S /\
    is_anonymous S = false /\
    key_size S ∈ [0; 40; 56; 64; 128; 168] /\
    key_size S <> 256 /\
    (key_size S = 0 <-> n = "NULL-MD5").
Proof.
  intros [rfc Hrfc]%elem_of_dom.
  pose proof (sslv2_table_check n rfc Hrfc) as Hc. unfold check_sslv2 in Hc.
  apply andb_true_iff in Hc as [Hanon Hc].
  apply negb_true_iff in Hanon.
  destruct (_RFC_NAME_TO_KEY_SIZE_MAPPING !! rfc) as [ks|] eqn:Hks;
    [|discriminate Hc].
  apply andb_true_iff in Hc as [Hin Hnull].
  apply bool_decide_eq_true in Hin. apply bool_decide_eq_true in Hnull.
  exists (mkCipherSuite rfc n (str_in "anon" rfc) ks).
  split.
  { apply translate_Ok. exists rfc, ks.
    rewrite native_to_rfc_SSL_2_0. auto. }
  cbn [is_anonymous key_size]. split; [exact Hanon|].
  split; [exact Hin|]. split; [|exact Hnull].
  intros ->. clear -Hin.
  repeat (apply elem_of_cons in Hin as [Hin|Hin]; [discriminate Hin|]).
  apply elem_of_nil in Hin. exact Hin.
Qed.

Lemma sslv2_suites_not_anonymous_key_sizes_witness :
  "DES-CBC3-MD5" ∈ dom _SSLV2_OPENSSL_TO_RFC_NAMES_MAPPING /\
  exists S,
    translate SSL_2_0 "DES-CBC3-MD5" = Ok S /\
    is_anonymous S = false /\
    key_size S ∈ [0; 40; 56; 64; 128; 168] /\
    key_size S <> 256 /\
    (key_size S = 0 <-> "DES-CBC3-MD5" = "NULL-MD5").
Proof.
  assert ("DES-CBC3-MD5" ∈ dom _SSLV2_OPENSSL_TO_RFC_NAMES_MAPPING) as H.
  { apply elem_of_dom. exists "SSL_CK_DES_192_EDE3_CBC_WITH_MD5".
    vm_compute. reflexivity. }
  split; [exact H|].
  exact (sslv2_suites_not_anonymous_key_sizes "DES-CBC3-MD5" H).
Defined.

(** C3 as stated fails: NULL-MD5 is a key of the SSL 2.0 table and its
    record has key size 0. *)
Lemma sslv2_null_md5_key_size_0 :
  ~ (forall n,
        n ∈ dom _SSLV2_OPENSSL_TO_RFC_NAMES_MAPPING ->
        exists S,
          translate SSL_2_0 n = Ok S /\
          is_anonymous S = false /\
          key_size S ∈ [40; 56; 64; 128; 168]).
Proof.
  intros Hclaim.
  assert ("NULL-MD5" ∈ dom _SSLV2_OPENSSL_TO_RFC_NAMES_MAPPING) as H.
  { apply elem_of_dom. exists "TLS_RSA_WITH_NULL_MD5".
    vm_compute. reflexivity. }
  destruct (Hclaim _ H) as (S & Ht & _ & Hin).
  assert (translate SSL_2_0 "NULL-MD5" =
          Ok (mkCipherSuite "TLS_RSA_WITH_NULL_MD5" "NULL-MD5" false 0)) as Hv
    by (vm_compute; reflexivity).
  rewrite Hv in Ht. injection Ht as <-. cbn [key_size] in Hin.
  repeat (apply elem_of_cons in Hin as [Hin|Hin]; [discriminate Hin|]).
  apply elem_of_nil in Hin. exact Hin.
Qed.

(** ** Coverage of the key-size table *)

Lemma table_key_size_exact v n rfc :
  native_to_rfc v n = Some rfc ->
  check_key_size_exact n rfc = true.
Proof.
  intros Hrfc. unfold native_to_rfc in Hrfc. rewrite mapping_lookup in Hrfc.
  assert (forallb (fun kv => check_key_size_exact kv.1 kv.2)
                  _SSLV2_OPENSSL_TO_RFC_NAMES_items = true) as Hall2
    by (vm_compute; reflexivity).
  assert (forallb (fun kv => check_key_size_exact kv.1 kv.2)
                  _TLS_OPENSSL_TO_RFC_NAMES_items = true) as Hall
    by (vm_compute; reflexivity).
  destruct v; cbn [mbind option_bind] in Hrfc;
    [ exact (forallb_items _ _ Hall2 _ _ (sslv2_lookup_elem _ _ Hrfc))
    | exact (forallb_items _ _ Hall _ _ (tls_lookup_elem _ _ Hrfc)) ..
    | discriminate Hrfc ].
Qed.

Lemma without_key_size_spec n :
  without_key_size n = false <->
  (n ∉ never_listed) /\ (substring_of "PSK" n -> n ∈ psk_with_key_size).
Proof.
  unfold without_key_size. rewrite orb_false_iff, andb_false_iff.
  rewrite bool_decide_eq_false, negb_false_iff, bool_decide_eq_true.
  rewrite <- str_in_spec. split.
  - intros [Hn [Hpsk|Hin]]; split; try exact Hn.
    + intros H. rewrite H in Hpsk. discriminate Hpsk.
    + intros _. exact Hin.
  - intros [Hn Hpsk]. split; [exact Hn|].
    destruct (str_in "PSK" n); [right; apply Hpsk; reflexivity|left; reflexivity].
Qed.

(** C5, as the code has it.  A name of a version's table has a key size for
    its RFC name, and translates, exactly when it is none of
    TLS_FALLBACK_SCSV, GOST2001-NULL-GOST94 and GOST94-NULL-GOST94 and,
    if PSK occurs in it, is one of the eight PSK names PSK-RC4-SHA,
    PSK-3DES-EDE-CBC-SHA, PSK-AES128-CBC-SHA, PSK-AES256-CBC-SHA and the
    same four with RSA-PSK.  The names so excluded are 63 entries of the
    TLS table and no entry of the SSL 2.0 table; for them the translation
    raises. *)
Theorem key_size_known_for_listed_names (v : TlsVersionEnum) (n rfc : string) :
  native_to_rfc v n = Some rfc ->
  ((exists ks, _RFC_NAME_TO_KEY_SIZE_MAPPING !! rfc = Some ks) <->
   (n ∉ never_listed) /\ (substring_of "PSK" n -> n ∈ psk_with_key_size)) /\
  (is_Ok (translate v n) <->
   (n ∉ never_listed) /\ (substring_of "PSK" n -> n ∈ psk_with_key_size)) /\
  (v = SSL_2_0 ->
   (n ∉ never_listed) /\ (substring_of "PSK" n -> n ∈ psk_with_key_size)) /\
  length (filter (fun kv => without_key_size kv.1 = true)
                 _TLS_OPENSSL_TO_RFC_NAMES_items) = 63%nat.
Proof.
  intros Hrfc.
  pose proof (table_key_size_exact v n rfc Hrfc) as Hc.
  unfold check_key_size_exact in Hc. apply Bool.eqb_prop in Hc.
  assert ((exists ks, _RFC_NAME_TO_KEY_SIZE_MAPPING !! rfc = Some ks) <->
          (n ∉ never_listed) /\ (substring_of "PSK" n -> n ∈ psk_with_key_size))
    as Hks.
  { rewrite <- without_key_size_spec.
    destruct (without_key_size n); cbn [negb] in Hc.
    - apply bool_decide_eq_false in Hc. split.
      + intros [ks Hk]. destruct Hc. exists ks. exact Hk.
      + discriminate 1.
    - apply bool_decide_eq_true in Hc. split; [reflexivity|].
      intros _. exact Hc. }
  assert (is_Ok (translate v n) <->
          exists ks, _RFC_NAME_TO_KEY_SIZE_MAPPING !! rfc = Some ks) as Hok.
  { split.
    - intros [S (rfc' & ks & Hrfc' & Hk & _)%translate_Ok].
      rewrite Hrfc in Hrfc'. injection Hrfc' as <-. exists ks. exact Hk.
    - intros [ks Hk]. exists (mkCipherSuite rfc n (str_in "anon" rfc) ks).
      apply translate_Ok. exists rfc, ks. auto. }
  split; [exact Hks|]. split; [rewrite Hok; exact Hks|].
  split; [|vm_compute; reflexivity].
  intros ->. apply Hks.
  rewrite native_to_rfc_SSL_2_0 in Hrfc.
  exact (sslv2_table_has_key_size _ _ Hrfc).
Qed.

Lemma key_size_known_for_listed_names_witness :
  native_to_rfc TLS_1_0 "PSK-RC4-SHA" = Some "TLS_PSK_WITH_RC4_128_SHA" /\
  (exists ks,
      _RFC_NAME_TO_KEY_SIZE_MAPPING !! "TLS_PSK_WITH_RC4_128_SHA" = Some ks) /\
  is_Ok (translate TLS_1_0 "PSK-RC4-SHA").
Proof.
  assert (native_to_rfc TLS_1_0 "PSK-RC4-SHA" =
          Some "TLS_PSK_WITH_RC4_128_SHA") as H
    by (vm_compute; reflexivity).
  split; [exact H|].
  destruct (key_size_known_for_listed_names TLS_1_0 "PSK-RC4-SHA" _ H)
    as (Hks & Hok & _).
  assert (("PSK-RC4-SHA" ∉ never_listed) /\
          (substring_of "PSK" "PSK-RC4-SHA" ->
           "PSK-RC4-SHA" ∈ psk_with_key_size)) as Hn.
  { split.
    - unfold never_listed. intros Hin.
      repeat (apply elem_of_cons in Hin as [Hin|Hin]; [discriminate Hin|]).
      apply elem_of_nil in Hin. exact Hin.
    - intros _. unfold psk_with_key_size. apply list_elem_of_here. }
  split; [apply Hks; exact Hn|apply Hok; exact Hn].
Defined.

(** C5 as stated fails: TLS_FALLBACK_SCSV is a value of the TLS table and
    not a key of the key-size table, so its translation raises. *)
Lemma fallback_scsv_has_no_key_size :
  ~ (forall v n rfc,
        native_to_rfc v n = Some rfc ->
        is_Some (_RFC_NAME_TO_KEY_SIZE_MAPPING !! rfc) /\
        is_Ok (translate v n)).
Proof.
  intros Hclaim.
  assert (native_to_rfc TLS_1_2 "TLS_FALLBACK_SCSV" = Some "TLS_FALLBACK_SCSV")
    as H by (vm_compute; reflexivity).
  destruct (Hclaim _ _ _ H) as [[ks Hks] _].
  assert (_RFC_NAME_TO_KEY_SIZE_MAPPING !! "TLS_FALLBACK_SCSV" = None) as Hnone
    by (vm_compute; reflexivity).
  rewrite Hnone in Hks. discriminate Hks.
Qed.

(** ** The catalogue and the repository *)

Section Catalogue.
Variable get_cipher_list : GetCipherList.

Lemma catalog_elem log log' (d : Catalog) v s S :
  run (_parse_all_cipher_suites get_cipher_list) log = (log', Ok d) ->
  d !! v = Some s ->
  S ∈ s ->
  (v = TLS_1_3 /\ S ∈ tls_1_3_suites) \/
  (v <> TLS_1_3 /\
   exists n, n ∈ to_translate get_cipher_list v /\ translate v n = Ok S).
Proof.
  intros (_ & Hd & _)%parse_all_Ok_inv Hs HS.
  rewrite Hd in Hs. injection Hs as <-.
  apply elem_of_entry in HS. exact HS.
Qed.

Lemma catalog_elem_intro log log' (d : Catalog) v n S :
  run (_parse_all_cipher_suites get_cipher_list) log = (log', Ok d) ->
  v <> TLS_1_3 ->
  n ∈ enumerated get_cipher_list v ->
  (v = TLS_1_2 -> n ∉ _TLS_1_3_CIPHER_SUITES) ->
  translate v n = Ok S ->
  exists s, d !! v = Some s /\ S ∈ s.
Proof.
  intros (_ & Hd & _)%parse_all_Ok_inv Hv Hn H13 Ht.
  exists (entry get_cipher_list v). split; [apply Hd|].
  apply elem_of_entry. right. split; [exact Hv|].
  exists n. split; [|exact Ht]. apply elem_of_to_translate. auto.
Qed.

Lemma class_run_inv log log' cls :
  run (CipherSuitesRepository_class get_cipher_list) log = (log', Ok cls) ->
  run (_parse_all_cipher_suites get_cipher_list) log =
  (log', Ok (_ALL_CIPHER_SUITES cls)).
Proof.
  unfold CipherSuitesRepository_class. rewrite run_bind.
  destruct (run (_parse_all_cipher_suites get_cipher_list) log)
    as [log1 [d|e]]; cbn [run mret M_ret]; intros H.
  - injection H as <- <-. reflexivity.
  - discriminate H.
Qed.

Lemma class_run_intro log log' d :
  run (_parse_all_cipher_suites get_cipher_list) log = (log', Ok d) ->
  run (CipherSuitesRepository_class get_cipher_list) log =
  (log', Ok (mkCipherSuitesRepository d)).
Proof.
  intros H. unfold CipherSuitesRepository_class. rewrite run_bind, H.
  reflexivity.
Qed.
End Catalogue.

Lemma get_all_cipher_suites_run cls v log :
  run (get_all_cipher_suites cls v) log =
  (log, getitem_version (_ALL_CIPHER_SUITES cls) v).
Proof. reflexivity. Qed.

(** C10.  Every record the accessor returns for a version, from a repository
    whose class statement completed, has a key size among 0, 40, 56, 64,
    128, 168 and 256; so has every value of the key-size table. *)
Theorem key_size_bits_in_range
        (get_cipher_list : GetCipherList)
        (log0 log1 log2 log3 : list EngineCall) (cls : CipherSuitesRepository)
        (v : TlsVersionEnum) (s : gset CipherSuite) (S : CipherSuite) :
  run (CipherSuitesRepository_class get_cipher_list) log0 = (log1, Ok cls) ->
  run (get_all_cipher_suites cls v) log2 = (log3, Ok s) ->
  S ∈ s ->
  key_size S ∈ [0; 40; 56; 64; 128; 168; 256] /\
  (forall rfc ks,
      _RFC_NAME_TO_KEY_SIZE_MAPPING !! rfc = Some ks ->
      ks ∈ [0; 40; 56; 64; 128; 168; 256]).
Proof.
  intros Hcls%class_run_inv Hget HS.
  split; [|exact key_size_table_range].
  rewrite get_all_cipher_suites_run in Hget.
  injection Hget as _ Hget. apply getitem_version_Ok in Hget.
  destruct (catalog_elem _ _ _ _ _ _ _ Hcls Hget HS)
    as [[_ H13]|[_ (n & _ & Ht)]].
  - apply elem_of_tls_1_3_suites in H13 as (_ & _ & _ & Hks).
    exact (key_size_table_range _ _ Hks).
  - apply translate_Ok in Ht as (rfc & ks & _ & Hks & ->).
    exact (key_size_table_range _ _ Hks).
Qed.

Lemma key_size_bits_in_range_witness :
  exists log1 cls s,
    run (CipherSuitesRepository_class example_engine) [] = (log1, Ok cls) /\
    run (get_all_cipher_suites cls SSL_2_0) log1 = (log1, Ok s) /\
    mkCipherSuite "SSL_CK_DES_192_EDE3_CBC_WITH_MD5" "DES-CBC3-MD5"
                  false 168 ∈ s /\
    (168 : Z) ∈ [0; 40; 56; 64; 128; 168; 256].
Proof.
  destruct (example_engine_run []) as (d & Hrun & _).
  destruct (catalog_elem_intro example_engine [] _ d SSL_2_0 "DES-CBC3-MD5"
              (mkCipherSuite "SSL_CK_DES_192_EDE3_CBC_WITH_MD5" "DES-CBC3-MD5"
                             false 168) Hrun)
    as (s & Hs & HS).
  { discriminate. }
  { apply elem_of_list_to_set. cbn [example_engine].
    repeat first [apply list_elem_of_here | apply list_elem_of_further]. }
  { discriminate 1. }
  { vm_compute. reflexivity. }
  pose proof (class_run_intro example_engine [] _ d Hrun) as Hcls.
  assert (run (get_all_cipher_suites (mkCipherSuitesRepository d) SSL_2_0)
              ([] ++ calls_of_build) =
          (([] ++ calls_of_build)%list, Ok s)) as Hget.
  { rewrite get_all_cipher_suites_run. f_equal.
    apply getitem_version_Ok. exact Hs. }
  exists ([] ++ calls_of_build)%list, (mkCipherSuitesRepository d), s.
  split; [exact Hcls|]. split; [exact Hget|]. split; [exact HS|].
  exact (proj1 (key_size_bits_in_range example_engine _ _ _ _ _ _ _ _
                                       Hcls Hget HS)).
Defined.

(** ** Anonymous suites *)

Lemma tls_1_3_names_not_anon n :
  n ∈ _TLS_1_3_CIPHER_SUITES -> str_in "anon" n = false.
Proof.
  unfold _TLS_1_3_CIPHER_SUITES. intros H.
  repeat (apply elem_of_cons in H as [->|H]; [vm_compute; reflexivity|]).
  apply elem_of_nil in H. destruct H.
Qed.

Lemma DH_anon_contains_anon : substring_of "anon" "DH_anon".
Proof. exists "DH_", "". reflexivity. Qed.

(** C6.  In a catalogue the builder returned, a record of any version is
    flagged anonymous exactly when "anon" occurs in its name: it is flagged
    when "DH_anon" occurs in the name, it is not flagged when the name is
    TLS_RSA_WITH_AES_128_CBC_SHA, and no TLS 1.3 record is flagged. *)
Theorem is_anonymous_iff_anon_in_name
        (get_cipher_list : GetCipherList)
        (log log' : list EngineCall) (d : Catalog)
        (v : TlsVersionEnum) (s : gset CipherSuite) (S : CipherSuite) :
  run (_parse_all_cipher_suites get_cipher_list) log = (log', Ok d) ->
  d !! v = Some s ->
  S ∈ s ->
  (is_anonymous S = true <-> substring_of "anon" (name S)) /\
  (substring_of "DH_anon" (name S) -> is_anonymous S = true) /\
  (name S = "TLS_RSA_WITH_AES_128_CBC_SHA" -> is_anonymous S = false) /\
  (v = TLS_1_3 -> is_anonymous S = false).
Proof.
  intros Hrun Hs HS.
  assert (is_anonymous S = str_in "anon" (name S) /\
          (v = TLS_1_3 -> is_anonymous S = false)) as [Hflag H13].
  { destruct (catalog_elem _ _ _ _ _ _ _ Hrun Hs HS)
      as [[_ HS13]|[Hv (n & _ & Ht)]].
    - apply elem_of_tls_1_3_suites in HS13 as (Hn & _ & Hanon & _).
      rewrite Hanon, (tls_1_3_names_not_anon _ Hn). auto.
    - apply translate_Ok in Ht as (rfc & ks & _ & _ & ->).
      cbn [is_anonymous name]. split; [reflexivity|].
      intros Heq. destruct (Hv Heq). }
  assert (is_anonymous S = true <-> substring_of "anon" (name S)) as Hiff
    by (rewrite Hflag; apply str_in_spec).
  split; [exact Hiff|]. split; [|split; [|exact H13]].
  - intros Hdh. apply Hiff.
    exact (substring_of_trans _ _ _ DH_anon_contains_anon Hdh).
  - intros Hname. rewrite Hflag, Hname. vm_compute. reflexivity.
Qed.

Lemma is_anonymous_iff_anon_in_name_witness :
  exists log' d s,
    run (_parse_all_cipher_suites example_engine) [] = (log', Ok d) /\
    d !! TLS_1_0 = Some s /\
    mkCipherSuite "TLS_DH_anon_WITH_AES_128_CBC_SHA" "ADH-AES128-SHA"
                  true 128 ∈ s /\
    (true = true <-> substring_of "anon" "TLS_DH_anon_WITH_AES_128_CBC_SHA").
Proof.
  destruct (example_engine_run []) as (d & Hrun & _).
  destruct (catalog_elem_intro example_engine [] _ d TLS_1_0 "ADH-AES128-SHA"
              (mkCipherSuite "TLS_DH_anon_WITH_AES_128_CBC_SHA" "ADH-AES128-SHA"
                             true 128) Hrun)
    as (s & Hs & HS).
  { discriminate. }
  { apply elem_of_list_to_set. cbn [example_engine].
    repeat first [apply list_elem_of_here | apply list_elem_of_further]. }
  { discriminate 1. }
  { vm_compute. reflexivity. }
  exists ([] ++ calls_of_build)%list, d, s.
  split; [exact Hrun|]. split; [exact Hs|]. split; [exact HS|].
  exact (proj1 (is_anonymous_iff_anon_in_name example_engine _ _ _ _ _ _
                                              Hrun Hs HS)).
Defined.

(** ** Mapping errors *)

(** C7.  A translation raises exactly when the version's table has no RFC
    name for the OpenSSL name, or the key-size table has no entry for that
    RFC name.  The builder raises exactly when one of the names it hands to
    the translation raises; then the class statement of the repository
    raises too, so no repository exists to serve a lookup.  When the
    builder returns, every name handed to the translation is represented in
    its version's entry by the record it translates to: none was dropped or
    given a default, so an entry is empty only when no name was handed to
    the translation for its version; and the one version without a table,
    TLS 1.3, has a non-empty entry.  The names handed to the translation
    are all the enumerated ones, except the TLS 1.3 names among those of
    TLS 1.2. *)
Theorem mapping_error_aborts_build
        (get_cipher_list : GetCipherList)
        (log : list EngineCall) :
  (forall v n,
      (exists e, translate v n = Raise e) <->
      (native_to_rfc v n = None \/
       exists rfc, native_to_rfc v n = Some rfc /\
                   _RFC_NAME_TO_KEY_SIZE_MAPPING !! rfc = None)) /\
  ((exists log' e,
       run (_parse_all_cipher_suites get_cipher_list) log = (log', Raise e)) <->
   (exists v n e,
       n ∈ to_translate get_cipher_list v /\ translate v n = Raise e)) /\
  (forall log' e,
      run (_parse_all_cipher_suites get_cipher_list) log = (log', Raise e) ->
      run (CipherSuitesRepository_class get_cipher_list) log =
      (log', Raise e)) /\
  (forall log' d,
      run (_parse_all_cipher_suites get_cipher_list) log = (log', Ok d) ->
      forall v n,
        n ∈ to_translate get_cipher_list v ->
        exists s S,
          d !! v = Some s /\ S ∈ s /\ openssl_name S = n /\
          translate v n = Ok S) /\
  (forall log' d v,
      run (_parse_all_cipher_suites get_cipher_list) log = (log', Ok d) ->
      (d !! v = Some ∅ -> to_translate get_cipher_list v = []) /\
      (_OPENSSL_TO_RFC_NAMES_MAPPING !! v = None ->
       exists s S, d !! v = Some s /\ S ∈ s)) /\
  (forall v n,
      n ∈ to_translate get_cipher_list v <->
      n ∈ enumerated get_cipher_list v /\
      (v = TLS_1_2 -> n ∉ _TLS_1_3_CIPHER_SUITES)).
Proof.
  assert (forall log' d,
             run (_parse_all_cipher_suites get_cipher_list) log =
             (log', Ok d) ->
             forall v n,
               n ∈ to_translate get_cipher_list v ->
               exists s S,
                 d !! v = Some s /\ S ∈ s /\ openssl_name S = n /\
                 translate v n = Ok S) as Hkept.
  { intros log' d H v n Hn.
    pose proof (parse_all_Ok_inv _ _ _ _ H) as (_ & Hd & Hall).
    destruct (Hall v n Hn) as [S HS].
    exists (entry get_cipher_list v), S. split; [apply Hd|].
    split; [|split; [exact (translate_openssl_name _ _ _ HS)|exact HS]].
    apply elem_of_entry. right. split.
    - intros ->. rewrite to_translate_TLS_1_3 in Hn.
      apply elem_of_nil in Hn. exact Hn.
    - exists n. auto. }
  split; [exact translate_Raise|]. split; [|split; [|split; [|split]]].
  - split.
    + intros (log' & e & (_ & v & n & Hn & He)%parse_all_Raise_inv).
      exists v, n, e. auto.
    + intros (v & n & e & Hn & He).
      pose proof (parse_all_spec get_cipher_list log) as Hs.
      destruct (run (_parse_all_cipher_suites get_cipher_list) log)
        as [log' [d|e']].
      * destruct Hs as (_ & _ & Hall).
        destruct (is_Ok_not_Raise _ e (Hall v n Hn) He).
      * exists log', e'. reflexivity.
  - intros log' e H. unfold CipherSuitesRepository_class.
    rewrite run_bind, H. reflexivity.
  - exact Hkept.
  - intros log' d v H. split.
    + intros Hempty.
      destruct (to_translate get_cipher_list v) as [|n l] eqn:Hl;
        [reflexivity|].
      destruct (Hkept log' d H v n) as (s & S & Hs & HS & _).
      { rewrite Hl. apply list_elem_of_here. }
      rewrite Hempty in Hs. injection Hs as <-.
      apply not_elem_of_empty in HS. destruct HS.
    + intros Hnone. rewrite mapping_lookup in Hnone.
      destruct v; try discriminate Hnone.
      apply parse_all_Ok_inv in H as (_ & Hd & _).
      exists tls_1_3_suites,
        (mkCipherSuite "TLS_AES_128_GCM_SHA256" "TLS_AES_128_GCM_SHA256"
                       false 128).
      split; [exact (Hd TLS_1_3)|].
      unfold tls_1_3_suites. apply elem_of_list_to_set, list_elem_of_here.
  - apply elem_of_to_translate.
Qed.

Lemma mapping_error_aborts_build_witness :
  (exists log' e,
      run (_parse_all_cipher_suites stale_engine) [] = (log', Raise e)) /\
  (exists e, translate TLS_1_1 "BRAND-NEW-CIPHER" = Raise e) /\
  native_to_rfc TLS_1_1 "BRAND-NEW-CIPHER" = None.
Proof.
  destruct (mapping_error_aborts_build stale_engine []) as (_ & Hbuild & _).
  assert (translate TLS_1_1 "BRAND-NEW-CIPHER" =
          Raise (KeyError (KeyStr "BRAND-NEW-CIPHER"))) as He
    by (vm_compute; reflexivity).
  split; [|split].
  - apply Hbuild.
    exists TLS_1_1, "BRAND-NEW-CIPHER", (KeyError (KeyStr "BRAND-NEW-CIPHER")).
    split; [|exact He].
    apply elem_of_to_translate. split; [|discriminate 1].
    apply elem_of_list_to_set. cbn [stale_engine].
    apply list_elem_of_further, list_elem_of_here.
  - eexists. exact He.
  - vm_compute. reflexivity.
Defined.

(** ** Names within one entry *)

Lemma tls_1_3_suites_eq S1 S2 :
  S1 ∈ tls_1_3_suites -> S2 ∈ tls_1_3_suites ->
  name S1 = name S2 -> S1 = S2.
Proof.
  intros (_ & Ho1 & Ha1 & Hk1)%elem_of_tls_1_3_suites
         (_ & Ho2 & Ha2 & Hk2)%elem_of_tls_1_3_suites Hname.
  destruct S1 as [n1 o1 a1 k1], S2 as [n2 o2 a2 k2].
  cbn [name openssl_name is_anonymous key_size] in *.
  subst o1 o2 a1 a2 n2. rewrite Hk1 in Hk2. injection Hk2 as <-. reflexivity.
Qed.

(** C4, as the code has it.  In a catalogue the builder returned, two
    different records of one version's entry have different OpenSSL names;
    they have the same name only in an entry of SSL 3.0 to TLS 1.2, and
    only when their OpenSSL names are the EDH and the DHE spelling of the
    same ephemeral Diffie-Hellman 3DES suite. *)
Theorem distinct_records_differ_in_openssl_name
        (get_cipher_list : GetCipherList)
        (log log' : list EngineCall) (d : Catalog)
        (v : TlsVersionEnum) (s : gset CipherSuite) (S1 S2 : CipherSuite) :
  run (_parse_all_cipher_suites get_cipher_list) log = (log', Ok d) ->
  d !! v = Some s ->
  S1 ∈ s -> S2 ∈ s -> S1 <> S2 ->
  openssl_name S1 <> openssl_name S2 /\
  (name S1 = name S2 ->
   v ∈ [SSL_3_0; TLS_1_0; TLS_1_1; TLS_1_2] /\
   (openssl_name S1, openssl_name S2) ∈ des3_spellings).
Proof.
  intros Hrun Hs H1 H2 Hne.
  destruct (catalog_elem _ _ _ _ _ _ _ Hrun Hs H1)
    as [[-> H1']|[Hv (n1 & _ & Ht1)]].
  - destruct (catalog_elem _ _ _ _ _ _ _ Hrun Hs H2)
      as [[_ H2']|[Hv _]]; [|destruct (Hv eq_refl)].
    split.
    + intros Ho. apply Hne, (tls_1_3_suites_eq _ _ H1' H2').
      apply elem_of_tls_1_3_suites in H1' as (_ & <- & _).
      apply elem_of_tls_1_3_suites in H2' as (_ & <- & _). exact Ho.
    + intros Hname. destruct (Hne (tls_1_3_suites_eq _ _ H1' H2' Hname)).
  - destruct (catalog_elem _ _ _ _ _ _ _ Hrun Hs H2)
      as [[Heq _]|[_ (n2 & _ & Ht2)]]; [destruct (Hv Heq)|].
    rewrite (translate_openssl_name _ _ _ Ht1),
            (translate_openssl_name _ _ _ Ht2).
    assert (n1 <> n2) as Hn.
    { intros ->. rewrite Ht1 in Ht2. injection Ht2 as Heq. exact (Hne Heq). }
    split; [exact Hn|]. intros Hname.
    destruct (decide (v = SSL_2_0)) as [->|Hv2].
    + apply translate_SSL_2_0_lookup in Ht1, Ht2. rewrite Hname in Ht1.
      destruct Hn. symmetry. exact (sslv2_table_injective _ _ _ Ht1 Ht2).
    + apply (translate_TLS_lookup _ _ _ Hv2) in Ht1, Ht2. rewrite Hname in Ht1.
      split.
      * destruct v; try (destruct (Hv eq_refl)); try (destruct (Hv2 eq_refl));
          repeat first [apply list_elem_of_here | apply list_elem_of_further].
      * destruct (tls_table_spellings _ _ _ Ht1 Ht2) as [Heq|Hsp];
          [destruct (Hn (eq_sym Heq))|exact Hsp].
Qed.

Lemma example_engine_des3 :
  exists d s,
    run (_parse_all_cipher_suites example_engine) [] =
    (([] ++ calls_of_build)%list, Ok d) /\
    d !! TLS_1_2 = Some s /\
    mkCipherSuite "TLS_DHE_RSA_WITH_3DES_EDE_CBC_SHA" "EDH-RSA-DES-CBC3-SHA"
                  false 168 ∈ s /\
    mkCipherSuite "TLS_DHE_RSA_WITH_3DES_EDE_CBC_SHA" "DHE-RSA-DES-CBC3-SHA"
                  false 168 ∈ s.
Proof.
  destruct (example_engine_run []) as (d & Hrun & Hd).
  exists d, (entry example_engine TLS_1_2).
  split; [exact Hrun|]. split; [apply Hd|].
  split; apply (elem_of_entry example_engine TLS_1_2); right;
    (split; [discriminate|]).
  - exists "EDH-RSA-DES-CBC3-SHA". split; [|vm_compute; reflexivity].
    apply (elem_of_to_translate example_engine TLS_1_2). split.
    + cbn [enumerated example_engine].
      apply elem_of_union_l, elem_of_list_to_set.
      apply list_elem_of_here.
    + intros _ H. repeat (apply elem_of_cons in H as [H|H]; [discriminate H|]).
      apply elem_of_nil in H. exact H.
  - exists "DHE-RSA-DES-CBC3-SHA". split; [|vm_compute; reflexivity].
    apply (elem_of_to_translate example_engine TLS_1_2). split.
    + cbn [enumerated example_engine].
      apply elem_of_union_r, elem_of_list_to_set.
      apply list_elem_of_here.
    + intros _ H. repeat (apply elem_of_cons in H as [H|H]; [discriminate H|]).
      apply elem_of_nil in H. exact H.
Qed.

Lemma distinct_records_differ_in_openssl_name_witness :
  exists log' d s S1 S2,
    run (_parse_all_cipher_suites example_engine) [] = (log', Ok d) /\
    d !! TLS_1_2 = Some s /\
    S1 ∈ s /\ S2 ∈ s /\ S1 <> S2 /\
    openssl_name S1 <> openssl_name S2 /\
    (name S1 = name S2 ->
     TLS_1_2 ∈ [SSL_3_0; TLS_1_0; TLS_1_1; TLS_1_2] /\
     (openssl_name S1, openssl_name S2) ∈ des3_spellings).
Proof.
  destruct example_engine_des3 as (d & s & Hrun & Hs & H1 & H2).
  eexists _, d, s, _, _.
  split; [exact Hrun|]. split; [exact Hs|].
  split; [exact H1|]. split; [exact H2|].
  assert (mkCipherSuite "TLS_DHE_RSA_WITH_3DES_EDE_CBC_SHA"
                        "EDH-RSA-DES-CBC3-SHA" false 168 <>
          mkCipherSuite "TLS_DHE_RSA_WITH_3DES_EDE_CBC_SHA"
                        "DHE-RSA-DES-CBC3-SHA" false 168) as Hne
    by discriminate.
  split; [exact Hne|].
  exact (distinct_records_differ_in_openssl_name example_engine _ _ _ _ _ _ _
                                                 Hrun Hs H1 H2 Hne).
Defined.

(** C4 as stated fails: when the legacy client lists EDH-RSA-DES-CBC3-SHA and
    the modern one DHE-RSA-DES-CBC3-SHA for TLS 1.2, the TLS 1.2 entry holds
    two different records named TLS_DHE_RSA_WITH_3DES_EDE_CBC_SHA. *)
Lemma two_records_share_a_name :
  ~ (forall (get_cipher_list : GetCipherList)
            (log log' : list EngineCall) (d : Catalog)
            (v : TlsVersionEnum) (s : gset CipherSuite) (S1 S2 : CipherSuite),
        run (_parse_all_cipher_suites get_cipher_list) log = (log', Ok d) ->
        d !! v = Some s ->
        S1 ∈ s -> S2 ∈ s -> S1 <> S2 ->
        name S1 <> name S2).
Proof.
  intros Hclaim.
  destruct example_engine_des3 as (d & s & Hrun & Hs & H1 & H2).
  apply (Hclaim example_engine _ _ _ _ _ _ _ Hrun Hs H1 H2).
  - discriminate.
  - reflexivity.
Qed.

(** ** Enumerations of a run *)

Section Log.
Variable get_cipher_list : GetCipherList.

(** The result of the loop and the enumerations it adds to the log do not
    depend on what was logged before. *)
Lemma for_each_M_loop_body_log vs :
  (forall v, v ∈ vs -> v ∈ loop_versions) ->
  forall (d : Catalog) (log : list EngineCall),
    run (for_each_M vs (loop_body get_cipher_list) d) log =
    ((log ++ (run (for_each_M vs (loop_body get_cipher_list) d) []).1)%list,
     (run (for_each_M vs (loop_body get_cipher_list) d) []).2).
Proof.
  induction vs as [|v vs IH]; intros Hvs d log.
  - cbn [for_each_M run mret M_ret fst snd]. rewrite app_nil_r. reflexivity.
  - cbn [for_each_M]. rewrite !run_bind.
    rewrite !(loop_body_run get_cipher_list v d _
                            (Hvs v (list_elem_of_here _ _))).
    destruct (for_each (to_translate get_cipher_list v) _ _) as [d1|e];
      [|reflexivity].
    destruct (for_each (to_translate get_cipher_list TLS_1_2) _ _)
      as [d2|e]; [|reflexivity].
    specialize (IH (fun w Hw => Hvs w (list_elem_of_further _ _ _ Hw))
                   (<[TLS_1_3:=tls_1_3_suites]> d2)).
    rewrite (IH (log ++ calls_of_iteration v)%list).
    rewrite (IH ([] ++ calls_of_iteration v)%list).
    cbn [fst snd]. rewrite <- !app_assoc. reflexivity.
Qed.

Lemma parse_all_log log :
  run (_parse_all_cipher_suites get_cipher_list) log =
  ((log ++ (run (_parse_all_cipher_suites get_cipher_list) []).1)%list,
   (run (_parse_all_cipher_suites get_cipher_list) []).2).
Proof.
  unfold _parse_all_cipher_suites.
  apply (for_each_M_loop_body_log loop_versions). auto.
Qed.
End Log.

Lemma count_calls_of_build :
  count_calls LegacySslClient SSL_2_0 calls_of_build = 1%nat /\
  count_calls LegacySslClient SSL_3_0 calls_of_build = 1%nat /\
  count_calls LegacySslClient TLS_1_0 calls_of_build = 1%nat /\
  count_calls LegacySslClient TLS_1_1 calls_of_build = 1%nat /\
  count_calls LegacySslClient TLS_1_2 calls_of_build = 4%nat /\
  count_calls SslClient TLS_1_2 calls_of_build = 4%nat.
Proof. repeat split; vm_compute; reflexivity. Qed.

(** C8, evaluated with the example clients.  The run completes and logs
    twelve enumerations: one legacy enumeration for each of SSL 2.0, SSL
    3.0, TLS 1.0 and TLS 1.1, but four legacy and four modern enumerations
    for TLS 1.2, one pair in every iteration of the loop. *)
Theorem tls_1_2_enumerated_in_every_iteration :
  exists d,
    run (_parse_all_cipher_suites example_engine) [] = (calls_of_build, Ok d) /\
    length calls_of_build = 12%nat /\
    count_calls LegacySslClient SSL_2_0 calls_of_build = 1%nat /\
    count_calls LegacySslClient SSL_3_0 calls_of_build = 1%nat /\
    count_calls LegacySslClient TLS_1_0 calls_of_build = 1%nat /\
    count_calls LegacySslClient TLS_1_1 calls_of_build = 1%nat /\
    count_calls LegacySslClient TLS_1_2 calls_of_build = 4%nat /\
    count_calls SslClient TLS_1_2 calls_of_build = 4%nat.
Proof.
  destruct (example_engine_run []) as (d & Hrun & _).
  exists d. split; [exact Hrun|]. split; [reflexivity|].
  exact count_calls_of_build.
Qed.

(** ** Idempotence and the cache *)

(** C9.  Once the class statement of the repository has completed, running
    the builder again returns the catalogue the repository holds; the
    result of the builder never depends on what was enumerated before; and
    the accessor returns, for each version, one set, the entry of the held
    catalogue, whatever the log, and leaves the log as it is: it enumerates
    nothing. *)
Theorem build_idempotent_and_lookups_cached
        (get_cipher_list : GetCipherList)
        (log0 log1 : list EngineCall) (cls : CipherSuitesRepository) :
  run (CipherSuitesRepository_class get_cipher_list) log0 = (log1, Ok cls) ->
  (exists log2,
      run (_parse_all_cipher_suites get_cipher_list) log1 =
      (log2, Ok (_ALL_CIPHER_SUITES cls))) /\
  (forall loga logb,
      (run (_parse_all_cipher_suites get_cipher_list) loga).2 =
      (run (_parse_all_cipher_suites get_cipher_list) logb).2) /\
  (forall v,
      exists s,
        _ALL_CIPHER_SUITES cls !! v = Some s /\
        forall log, run (get_all_cipher_suites cls v) log = (log, Ok s)).
Proof.
  intros Hcls%class_run_inv.
  assert (forall loga logb,
             (run (_parse_all_cipher_suites get_cipher_list) loga).2 =
             (run (_parse_all_cipher_suites get_cipher_list) logb).2) as Hirr.
  { intros loga logb.
    rewrite (parse_all_log get_cipher_list loga),
            (parse_all_log get_cipher_list logb). reflexivity. }
  split; [|split; [exact Hirr|]].
  - specialize (Hirr log1 log0). rewrite Hcls in Hirr. cbn [snd] in Hirr.
    destruct (run (_parse_all_cipher_suites get_cipher_list) log1)
      as [log2 r]. cbn [snd] in Hirr. subst r. exists log2. reflexivity.
  - intros v. apply parse_all_Ok_inv in Hcls as (_ & Hd & _).
    exists (entry get_cipher_list v). split; [apply Hd|].
    intros log. rewrite get_all_cipher_suites_run.
    unfold getitem_version. rewrite Hd. reflexivity.
Qed.

Lemma build_idempotent_and_lookups_cached_witness :
  exists log1 cls,
    run (CipherSuitesRepository_class example_engine) [] = (log1, Ok cls) /\
    (exists log2,
        run (_parse_all_cipher_suites example_engine) log1 =
        (log2, Ok (_ALL_CIPHER_SUITES cls))) /\
    (forall v,
        exists s,
          _ALL_CIPHER_SUITES cls !! v = Some s /\
          forall log, run (get_all_cipher_suites cls v) log = (log, Ok s)).
Proof.
  destruct (example_engine_run []) as (d & Hrun & _).
  pose proof (class_run_intro example_engine [] _ d Hrun) as Hcls.
  destruct (build_idempotent_and_lookups_cached example_engine _ _ _ Hcls)
    as (Hagain & _ & Hget).
  exists ([] ++ calls_of_build)%list, (mkCipherSuitesRepository d).
  split; [exact Hcls|]. split; [exact Hagain|exact Hget].
Defined.

(** * Further properties of the builder *)

(** ** The clients' lists are used as sets *)

Lemma for_each_M_ext {X S} (l : list X) (body1 body2 : X -> S -> M S) :
  (forall x s log, x ∈ l -> run (body1 x s) log = run (body2 x s) log) ->
  forall s log, run (for_each_M l body1 s) log = run (for_each_M l body2 s) log.
Proof.
  induction l as [|x l IH]; intros Hb s log; [reflexivity|].
  cbn [for_each_M]. rewrite !run_bind.
  rewrite (Hb x s log (list_elem_of_here _ _)).
  destruct (run (body2 x s) log) as [log1 [s1|e]]; [|reflexivity].
  apply IH. intros y s' log' Hy. apply Hb, list_elem_of_further, Hy.
Qed.

Lemma enumerated_ext (g1 g2 : GetCipherList) :
  (forall cls v n,
      n ∈ g1 cls v cipher_string <-> n ∈ g2 cls v cipher_string) ->
  forall v, enumerated g1 v = enumerated g2 v.
Proof.
  intros H v.
  assert (forall cls w,
             (list_to_set (g1 cls w cipher_string) : gset string) =
             list_to_set (g2 cls w cipher_string)) as Hset.
  { intros cls w. apply set_eq. intros n.
    rewrite !elem_of_list_to_set. apply H. }
  destruct v; cbn [enumerated]; rewrite ?Hset; reflexivity.
Qed.

Lemma to_translate_ext (g1 g2 : GetCipherList) :
  (forall v, enumerated g1 v = enumerated g2 v) ->
  forall v, to_translate g1 v = to_translate g2 v.
Proof. intros H v. unfold to_translate. rewrite H. reflexivity. Qed.

(** X1.  The builder uses what the clients list only as sets of names: two
    families of clients whose lists under the cipher string hold the same
    names, in whatever order and however often, are asked the same
    enumerations and either both give a catalogue, and then the same one,
    or both raise.  Which name a raised exception reports is not compared:
    it depends on the order in which a set of names is visited. *)
Theorem catalogue_depends_on_listed_sets
        (g1 g2 : GetCipherList) (log : list EngineCall) :
  (forall cls v n,
      n ∈ g1 cls v "ALL:COMPLEMENTOFALL:-PSK:-SRP" <->
      n ∈ g2 cls v "ALL:COMPLEMENTOFALL:-PSK:-SRP") ->
  (run (_parse_all_cipher_suites g1) log).1 =
  (run (_parse_all_cipher_suites g2) log).1 /\
  result_to_option (run (_parse_all_cipher_suites g1) log).2 =
  result_to_option (run (_parse_all_cipher_suites g2) log).2.
Proof.
  intros H.
  pose proof (to_translate_ext g1 g2 (enumerated_ext g1 g2 H)) as Ht.
  assert (run (_parse_all_cipher_suites g1) log =
          run (_parse_all_cipher_suites g2) log) as ->.
  { unfold _parse_all_cipher_suites.
    apply for_each_M_ext. intros v d log' Hv.
    rewrite (loop_body_run g1 v d log' Hv), (loop_body_run g2 v d log' Hv).
    rewrite !Ht. reflexivity. }
  split; reflexivity.
Qed.

Lemma catalogue_depends_on_listed_sets_witness :
  (forall cls v n,
      n ∈ example_engine cls v "ALL:COMPLEMENTOFALL:-PSK:-SRP" <->
      n ∈ shuffled_engine cls v "ALL:COMPLEMENTOFALL:-PSK:-SRP") /\
  (run (_parse_all_cipher_suites example_engine) []).1 =
  (run (_parse_all_cipher_suites shuffled_engine) []).1 /\
  result_to_option (run (_parse_all_cipher_suites example_engine) []).2 =
  result_to_option (run (_parse_all_cipher_suites shuffled_engine) []).2.
Proof.
  assert (forall cls v n,
             n ∈ example_engine cls v "ALL:COMPLEMENTOFALL:-PSK:-SRP" <->
             n ∈ shuffled_engine cls v "ALL:COMPLEMENTOFALL:-PSK:-SRP") as H.
  { intros cls v n. unfold shuffled_engine.
    rewrite elem_of_app, elem_of_reverse. tauto. }
  split; [exact H|].
  exact (catalogue_depends_on_listed_sets example_engine shuffled_engine [] H).
Defined.

(** ** Names that do not translate *)

Lemma failing_name_raises (g : GetCipherList) log v n :
  n ∈ to_translate g v ->
  (exists e, translate v n = Raise e) ->
  exists log' e, run (_parse_all_cipher_suites g) log = (log', Raise e).
Proof.
  intros Hn [e He]. pose proof (parse_all_spec g log) as Hs.
  destruct (run (_parse_all_cipher_suites g) log) as [log' [d|e']].
  - destruct Hs as (_ & _ & Hall).
    destruct (is_Ok_not_Raise _ e (Hall v n Hn) He).
  - exists log', e'. reflexivity.
Qed.

(** X2.  The TLS 1.3 names are ignored only in the TLS 1.2 loop.  Under
    every version they have no translation, and when the legacy client
    lists one of them for SSL 2.0, SSL 3.0, TLS 1.0 or TLS 1.1 the builder
    raises. *)
Theorem tls_1_3_name_for_older_version_raises
        (get_cipher_list : GetCipherList) (log : list EngineCall)
        (v : TlsVersionEnum) (n : string) :
  v ∈ [SSL_2_0; SSL_3_0; TLS_1_0; TLS_1_1] ->
  n ∈ _TLS_1_3_CIPHER_SUITES ->
  n ∈ get_cipher_list LegacySslClient v "ALL:COMPLEMENTOFALL:-PSK:-SRP" ->
  (forall v', exists e, translate v' n = Raise e) /\
  exists log' e,
    run (_parse_all_cipher_suites get_cipher_list) log = (log', Raise e).
Proof.
  intros Hv Hn Hlist.
  split; [intros v'; exact (tls_1_3_names_do_not_translate v' n Hn)|].
  apply (failing_name_raises get_cipher_list log v n);
    [|exact (tls_1_3_names_do_not_translate v n Hn)].
  apply elem_of_to_translate. split.
  - repeat (apply elem_of_cons in Hv as [->|Hv];
            [apply elem_of_list_to_set; exact Hlist|]).
    apply elem_of_nil in Hv. destruct Hv.
  - intros ->.
    repeat (apply elem_of_cons in Hv as [Hv|Hv]; [discriminate Hv|]).
    apply elem_of_nil in Hv. destruct Hv.
Qed.

Lemma tls_1_3_name_for_older_version_raises_witness :
  exists log' e,
    run (_parse_all_cipher_suites misfiled_engine) [] = (log', Raise e).
Proof.
  apply (tls_1_3_name_for_older_version_raises
           misfiled_engine [] TLS_1_1 "TLS_AES_256_GCM_SHA384").
  - repeat first [apply list_elem_of_here | apply list_elem_of_further].
  - unfold _TLS_1_3_CIPHER_SUITES.
    repeat first [apply list_elem_of_here | apply list_elem_of_further].
  - cbn [misfiled_engine].
    repeat first [apply list_elem_of_here | apply list_elem_of_further].
Defined.

(** X3.  A name listed for SSL 2.0 that does not translate stops the
    builder in its first iteration: it raises after the single legacy
    enumeration for SSL 2.0, before any client is asked about TLS 1.2. *)
Theorem sslv2_failure_stops_after_first_enumeration
        (get_cipher_list : GetCipherList) (log : list EngineCall)
        (n : string) :
  n ∈ get_cipher_list LegacySslClient SSL_2_0
                      "ALL:COMPLEMENTOFALL:-PSK:-SRP" ->
  (exists e, translate SSL_2_0 n = Raise e) ->
  exists e,
    run (_parse_all_cipher_suites get_cipher_list) log =
    ((log ++ [mkEngineCall LegacySslClient SSL_2_0
                           "ALL:COMPLEMENTOFALL:-PSK:-SRP"])%list,
     Raise e).
Proof.
  intros Hlist [e He]. unfold _parse_all_cipher_suites.
  cbn [for_each_M]. rewrite run_bind.
  rewrite (loop_body_run get_cipher_list SSL_2_0 ∅ log
                         (list_elem_of_here _ _)).
  pose proof (for_each_add_cipher_suite
                SSL_2_0 (to_translate get_cipher_list SSL_2_0)
                (<[SSL_2_0 := ∅]> ∅) ∅ (lookup_insert_eq _ _ _)) as Hloop.
  destruct (for_each (to_translate get_cipher_list SSL_2_0)
                     (add_cipher_suite SSL_2_0) (<[SSL_2_0 := ∅]> ∅))
    as [d1|e1].
  - destruct Hloop as [Hall _]. rewrite Forall_forall in Hall.
    assert (n ∈ to_translate get_cipher_list SSL_2_0) as Hn.
    { apply elem_of_to_translate. split; [|discriminate 1].
      apply elem_of_list_to_set. exact Hlist. }
    destruct (is_Ok_not_Raise _ e (Hall n Hn) He).
  - exists e1. reflexivity.
Qed.

Lemma sslv2_failure_stops_after_first_enumeration_witness :
  exists e,
    run (_parse_all_cipher_suites stale_sslv2_engine) [] =
    ([mkEngineCall LegacySslClient SSL_2_0 "ALL:COMPLEMENTOFALL:-PSK:-SRP"],
     Raise e).
Proof.
  apply (sslv2_failure_stops_after_first_enumeration
           stale_sslv2_engine [] "AES128-SHA").
  - cbn [stale_sslv2_engine].
    repeat first [apply list_elem_of_here | apply list_elem_of_further].
  - exists (KeyError (KeyStr "AES128-SHA")). vm_compute. reflexivity.
Defined.

(** ** Records and the tables *)

Lemma elem_of_names_of_entry (g : GetCipherList) v n :
  n ∈ names_of_entry g v <-> n ∈ to_translate g v.
Proof.
  rewrite elem_of_to_translate.
  destruct v; cbn [names_of_entry];
    try (split; [ intros H; split; [exact H|discriminate 1]
                | intros [H _]; exact H ]).
  rewrite elem_of_difference, elem_of_list_to_set.
  split; intros [H1 H2]; split; auto.
Qed.

(** X4.  Every record of a catalogue the builder returned can be read back
    from the tables: its key size is the key-size table's value for its
    name, and, except in the TLS 1.3 entry where the OpenSSL name is the
    name itself, its OpenSSL name is one of the names its version's entry
    is built from, the version's table maps it to the record's name, and
    translating it again gives the record. *)
Theorem catalogue_records_read_back_from_tables
        (get_cipher_list : GetCipherList) (log log' : list EngineCall)
        (d : Catalog) (v : TlsVersionEnum) (s : gset CipherSuite)
        (S : CipherSuite) :
  run (_parse_all_cipher_suites get_cipher_list) log = (log', Ok d) ->
  d !! v = Some s ->
  S ∈ s ->
  _RFC_NAME_TO_KEY_SIZE_MAPPING !! name S = Some (key_size S) /\
  (v = TLS_1_3 -> openssl_name S = name S) /\
  (v <> TLS_1_3 ->
   openssl_name S ∈ names_of_entry get_cipher_list v /\
   native_to_rfc v (openssl_name S) = Some (name S) /\
   translate v (openssl_name S) = Ok S).
Proof.
  intros Hrun Hs HS.
  destruct (catalog_elem _ _ _ _ _ _ _ Hrun Hs HS)
    as [[-> H13]|[Hv (n & Hn & Ht)]].
  - apply elem_of_tls_1_3_suites in H13 as (_ & Ho & _ & Hk).
    split; [exact Hk|]. split; [intros _; exact Ho|].
    intros Hne. destruct (Hne eq_refl).
  - pose proof (translate_openssl_name _ _ _ Ht) as Ho.
    pose proof Ht as (rfc & ks & Hrfc & Hks & ->)%translate_Ok.
    cbn [name key_size openssl_name] in *.
    split; [exact Hks|]. split; [intros Heq; destruct (Hv Heq)|].
    intros _. split; [apply elem_of_names_of_entry; exact Hn|].
    split; [exact Hrfc|exact Ht].
Qed.

Lemma catalogue_records_read_back_from_tables_witness :
  exists log' d s,
    run (_parse_all_cipher_suites example_engine) [] = (log', Ok d) /\
    d !! TLS_1_0 = Some s /\
    mkCipherSuite "TLS_RSA_WITH_NULL_SHA" "NULL-SHA" false 0 ∈ s /\
    translate TLS_1_0 "NULL-SHA" =
    Ok (mkCipherSuite "TLS_RSA_WITH_NULL_SHA" "NULL-SHA" false 0).
Proof.
  destruct (example_engine_run []) as (d & Hrun & _).
  destruct (catalog_elem_intro example_engine [] _ d TLS_1_0 "NULL-SHA"
              (mkCipherSuite "TLS_RSA_WITH_NULL_SHA" "NULL-SHA" false 0) Hrun)
    as (s & Hs & HS).
  { discriminate. }
  { apply elem_of_list_to_set. cbn [example_engine].
    repeat first [apply list_elem_of_here | apply list_elem_of_further]. }
  { discriminate 1. }
  { vm_compute. reflexivity. }
  exists ([] ++ calls_of_build)%list, d, s.
  split; [exact Hrun|]. split; [exact Hs|]. split; [exact HS|].
  destruct (catalogue_records_read_back_from_tables
              example_engine _ _ _ _ _ _ Hrun Hs HS) as (_ & _ & Hback).
  destruct Hback as (_ & _ & Ht); [discriminate|exact Ht].
Defined.

(** ** One record for each name *)

Lemma translated_NoDup_length v (l : list string) :
  NoDup l ->
  (forall n, n ∈ l -> is_Ok (translate v n)) ->
  NoDup (omap (fun n => result_to_option (translate v n)) l) /\
  length (omap (fun n => result_to_option (translate v n)) l) = length l.
Proof.
  induction l as [|n l IH]; intros Hnd Hall.
  - split; [apply NoDup_nil_2|reflexivity].
  - apply NoDup_cons in Hnd as [Hn Hnd].
    destruct (IH Hnd (fun m Hm => Hall m (list_elem_of_further _ _ _ Hm)))
      as [IHnd IHlen].
    destruct (Hall n (list_elem_of_here _ _)) as [x Hx].
    cbn [omap list_omap]. rewrite Hx. cbn [result_to_option].
    split; [|cbn [length]; rewrite <- IHlen; reflexivity].
    apply NoDup_cons_2; [|exact IHnd].
    intros (m & Hm & Hmx)%list_elem_of_omap.
    destruct (translate v m) as [y|e] eqn:Hy; [|discriminate Hmx].
    cbn [result_to_option] in Hmx. injection Hmx as ->.
    apply translate_openssl_name in Hx, Hy. rewrite Hx in Hy. subst m.
    exact (Hn Hm).
Qed.

(** X5.  In a catalogue the builder returned, an entry other than that of
    TLS 1.3 has exactly one record for each name it is built from: as many
    records as the legacy client listed distinct names for the version or,
    for TLS 1.2, as the two clients together listed distinct names that are
    not TLS 1.3 names.  No two names are merged and none is lost. *)
Theorem entry_has_one_record_per_name
        (get_cipher_list : GetCipherList) (log log' : list EngineCall)
        (d : Catalog) (v : TlsVersionEnum) (s : gset CipherSuite) :
  run (_parse_all_cipher_suites get_cipher_list) log = (log', Ok d) ->
  d !! v = Some s ->
  v <> TLS_1_3 ->
  size s = size (names_of_entry get_cipher_list v).
Proof.
  intros (_ & Hd & Hall)%parse_all_Ok_inv Hs Hv.
  rewrite Hd in Hs. injection Hs as <-.
  assert (entry get_cipher_list v =
          translated v (to_translate get_cipher_list v)) as ->
    by (destruct v; try reflexivity; destruct (Hv eq_refl)).
  assert (NoDup (to_translate get_cipher_list v)) as Hnd.
  { destruct v; unfold to_translate;
      try apply NoDup_filter; apply NoDup_elements. }
  destruct (translated_NoDup_length v _ Hnd (Hall v)) as [Hnd' Hlen].
  unfold translated. rewrite (size_list_to_set _ Hnd'), Hlen.
  rewrite <- (size_list_to_set (C := gset string) _ Hnd).
  f_equal. apply set_eq. intros n.
  rewrite elem_of_list_to_set. symmetry. apply elem_of_names_of_entry.
Qed.

Lemma entry_has_one_record_per_name_witness :
  exists log' d s,
    run (_parse_all_cipher_suites example_engine) [] = (log', Ok d) /\
    d !! TLS_1_2 = Some s /\
    size s = size (names_of_entry example_engine TLS_1_2) /\
    size (names_of_entry example_engine TLS_1_2) = 5%nat.
Proof.
  destruct (example_engine_run []) as (d & Hrun & Hd).
  exists ([] ++ calls_of_build)%list, d, (entry example_engine TLS_1_2).
  split; [exact Hrun|]. split; [exact (Hd TLS_1_2)|].
  split; [|vm_compute; reflexivity].
  apply (entry_has_one_record_per_name example_engine _ _ _ _ _
                                       Hrun (Hd TLS_1_2)).
  discriminate.
Defined.

(** ** Fewer names, smaller catalogue *)

(** X6.  When clients list, version by version, only names that other
    clients list too, and the builder returns a catalogue for the others,
    it returns one for them as well, after the same enumerations, and each
    of its entries is included in the corresponding entry of the other
    catalogue. *)
Theorem fewer_names_give_a_smaller_catalogue
        (g1 g2 : GetCipherList) (log log2 : list EngineCall) (d2 : Catalog) :
  (forall cls v n,
      n ∈ g1 cls v "ALL:COMPLEMENTOFALL:-PSK:-SRP" ->
      n ∈ g2 cls v "ALL:COMPLEMENTOFALL:-PSK:-SRP") ->
  run (_parse_all_cipher_suites g2) log = (log2, Ok d2) ->
  exists d1,
    run (_parse_all_cipher_suites g1) log = (log2, Ok d1) /\
    forall v s1 s2, d1 !! v = Some s1 -> d2 !! v = Some s2 -> s1 ⊆ s2.
Proof.
  intros Hsub (-> & Hd2 & Hall2)%parse_all_Ok_inv.
  assert (forall v n, n ∈ to_translate g1 v -> n ∈ to_translate g2 v)
    as Hto.
  { intros v n [Hn H13]%elem_of_to_translate.
    apply elem_of_to_translate. split; [|exact H13].
    destruct v; cbn [enumerated] in *;
      rewrite ?elem_of_union, ?elem_of_list_to_set in *;
      try (apply Hsub; exact Hn); try exact Hn.
    destruct Hn as [Hn|Hn]; [left|right]; apply Hsub; exact Hn. }
  destruct (parse_all_Ok_intro g1 log (fun v n Hn => Hall2 v n (Hto v n Hn)))
    as (d1 & Hrun1 & Hd1).
  exists d1. split; [exact Hrun1|].
  intros v s1 s2 Hs1 Hs2. rewrite Hd1 in Hs1. rewrite Hd2 in Hs2.
  injection Hs1 as <-. injection Hs2 as <-.
  intros S HS. apply elem_of_entry in HS. apply elem_of_entry.
  destruct HS as [HS|[Hv (n & Hn & Ht)]]; [left; exact HS|right].
  split; [exact Hv|]. exists n. split; [exact (Hto v n Hn)|exact Ht].
Qed.

Lemma fewer_names_give_a_smaller_catalogue_witness :
  exists log2 d1 d2,
    run (_parse_all_cipher_suites example_engine) [] = (log2, Ok d2) /\
    run (_parse_all_cipher_suites smaller_engine) [] = (log2, Ok d1) /\
    forall v s1 s2, d1 !! v = Some s1 -> d2 !! v = Some s2 -> s1 ⊆ s2.
Proof.
  destruct (example_engine_run []) as (d2 & Hrun & _).
  destruct (fewer_names_give_a_smaller_catalogue
              smaller_engine example_engine [] ([] ++ calls_of_build)%list d2)
    as (d1 & Hrun1 & Hsub).
  - intros cls v n Hn. unfold smaller_engine in Hn.
    exact (subseteq_take _ _ _ Hn).
  - exact Hrun.
  - exists ([] ++ calls_of_build)%list, d1, d2. auto.
Defined.

(** ** One table for SSL 3.0 to TLS 1.2 *)

Lemma translate_TLS_family v1 v2 n :
  v1 ∈ [SSL_3_0; TLS_1_0; TLS_1_1; TLS_1_2] ->
  v2 ∈ [SSL_3_0; TLS_1_0; TLS_1_1; TLS_1_2] ->
  translate v1 n = translate v2 n.
Proof.
  intros H1 H2. unfold translate, getitem_version.
  assert (forall v, v ∈ [SSL_3_0; TLS_1_0; TLS_1_1; TLS_1_2] ->
                    _OPENSSL_TO_RFC_NAMES_MAPPING !! v =
                    Some _TLS_OPENSSL_TO_RFC_NAMES_MAPPING) as Hm.
  { intros v Hv. rewrite mapping_lookup.
    repeat (apply elem_of_cons in Hv as [->|Hv]; [reflexivity|]).
    apply elem_of_nil in Hv. destruct Hv. }
  rewrite (Hm v1 H1), (Hm v2 H2). reflexivity.
Qed.

(** X7.  SSL 3.0, TLS 1.0, TLS 1.1 and TLS 1.2 share one table: a name
    translates alike under each of them, so a record of one of these
    entries is also in any other of them whose entry is built from the
    record's OpenSSL name. *)
Theorem record_shared_by_tls_table_versions
        (get_cipher_list : GetCipherList) (log log' : list EngineCall)
        (d : Catalog) (v1 v2 : TlsVersionEnum) (s1 s2 : gset CipherSuite)
        (S : CipherSuite) :
  run (_parse_all_cipher_suites get_cipher_list) log = (log', Ok d) ->
  v1 ∈ [SSL_3_0; TLS_1_0; TLS_1_1; TLS_1_2] ->
  v2 ∈ [SSL_3_0; TLS_1_0; TLS_1_1; TLS_1_2] ->
  d !! v1 = Some s1 ->
  d !! v2 = Some s2 ->
  S ∈ s1 ->
  openssl_name S ∈ names_of_entry get_cipher_list v2 ->
  (forall n, translate v1 n = translate v2 n) /\ S ∈ s2.
Proof.
  intros Hrun H1 H2 Hs1 Hs2 HS Hn.
  split; [intros n; exact (translate_TLS_family v1 v2 n H1 H2)|].
  destruct (catalog_elem _ _ _ _ _ _ _ Hrun Hs1 HS)
    as [[-> _]|[_ (n & _ & Ht)]].
  { repeat (apply elem_of_cons in H1 as [H1|H1]; [discriminate H1|]).
    apply elem_of_nil in H1. destruct H1. }
  rewrite (translate_openssl_name _ _ _ Ht) in Hn.
  rewrite (translate_TLS_family v1 v2 n H1 H2) in Ht.
  apply parse_all_Ok_inv in Hrun as (_ & Hd & _).
  rewrite Hd in Hs2. injection Hs2 as <-.
  apply elem_of_entry. right. split.
  - intros ->.
    repeat (apply elem_of_cons in H2 as [H2|H2]; [discriminate H2|]).
    apply elem_of_nil in H2. destruct H2.
  - exists n. split; [apply elem_of_names_of_entry; exact Hn|exact Ht].
Qed.

Lemma record_shared_by_tls_table_versions_witness :
  exists log' d s1 s2,
    run (_parse_all_cipher_suites example_engine) [] = (log', Ok d) /\
    d !! TLS_1_0 = Some s1 /\
    d !! TLS_1_2 = Some s2 /\
    mkCipherSuite "TLS_RSA_WITH_AES_128_CBC_SHA" "AES128-SHA"
                  false 128 ∈ s1 /\
    mkCipherSuite "TLS_RSA_WITH_AES_128_CBC_SHA" "AES128-SHA"
                  false 128 ∈ s2.
Proof.
  destruct (example_engine_run []) as (d & Hrun & Hd).
  destruct (catalog_elem_intro example_engine [] _ d TLS_1_0 "AES128-SHA"
              (mkCipherSuite "TLS_RSA_WITH_AES_128_CBC_SHA" "AES128-SHA"
                             false 128) Hrun)
    as (s1 & Hs1 & HS).
  { discriminate. }
  { apply elem_of_list_to_set. cbn [example_engine].
    repeat first [apply list_elem_of_here | apply list_elem_of_further]. }
  { discriminate 1. }
  { vm_compute. reflexivity. }
  exists ([] ++ calls_of_build)%list, d, s1, (entry example_engine TLS_1_2).
  split; [exact Hrun|]. split; [exact Hs1|]. split; [exact (Hd TLS_1_2)|].
  split; [exact HS|].
  apply (fun H1 H2 Hn =>
           proj2 (record_shared_by_tls_table_versions
                    example_engine [] ([] ++ calls_of_build)%list d
                    TLS_1_0 TLS_1_2 s1 (entry example_engine TLS_1_2)
                    (mkCipherSuite "TLS_RSA_WITH_AES_128_CBC_SHA"
                                   "AES128-SHA" false 128)
                    Hrun H1 H2 Hs1 (Hd TLS_1_2) HS Hn)).
  - repeat first [apply list_elem_of_here | apply list_elem_of_further].
  - repeat first [apply list_elem_of_here | apply list_elem_of_further].
  - cbn [openssl_name]. apply elem_of_names_of_entry, elem_of_to_translate.
    split.
    + cbn [enumerated example_engine].
      apply elem_of_union_l, elem_of_list_to_set.
      repeat first [apply list_elem_of_here | apply list_elem_of_further].
    + intros _ H. repeat (apply elem_of_cons in H as [H|H]; [discriminate H|]).
      apply elem_of_nil in H. exact H.
Defined.

(** ** Key size 0 *)

Lemma catalog_key_size (g : GetCipherList) log log' (d : Catalog) v s S :
  run (_parse_all_cipher_suites g) log = (log', Ok d) ->
  d !! v = Some s ->
  S ∈ s ->
  _RFC_NAME_TO_KEY_SIZE_MAPPING !! name S = Some (key_size S).
Proof.
  intros Hrun Hs HS.
  destruct (catalog_elem _ _ _ _ _ _ _ Hrun Hs HS)
    as [[_ H13]|[_ (n & _ & Ht)]].
  - apply elem_of_tls_1_3_suites in H13 as (_ & _ & _ & Hk). exact Hk.
  - apply translate_Ok in Ht as (rfc & ks & _ & Hks & ->). exact Hks.
Qed.

(** X8.  In a catalogue the builder returned, a record has key size 0
    exactly when NULL occurs in its name: the suites without encryption,
    and only they, are catalogued with no key. *)
Theorem key_size_zero_iff_null_in_name
        (get_cipher_list : GetCipherList) (log log' : list EngineCall)
        (d : Catalog) (v : TlsVersionEnum) (s : gset CipherSuite)
        (S : CipherSuite) :
  run (_parse_all_cipher_suites get_cipher_list) log = (log', Ok d) ->
  d !! v = Some s ->
  S ∈ s ->
  (key_size S = 0 <-> substring_of "NULL" (name S)).
Proof.
  intros Hrun Hs HS.
  pose proof (catalog_key_size _ _ _ _ _ _ _ Hrun Hs HS) as Hk.
  apply key_size_elem in Hk.
  assert (forallb (fun kv => check_null_key_size kv.1 kv.2)
                  _RFC_NAME_TO_KEY_SIZE_items = true) as Hall
    by (vm_compute; reflexivity).
  apply (forallb_items _ _ Hall) in Hk. unfold check_null_key_size in Hk.
  apply Bool.eqb_prop in Hk. rewrite <- str_in_spec, <- Hk.
  symmetry. apply bool_decide_eq_true.
Qed.

Lemma key_size_zero_iff_null_in_name_witness :
  exists log' d s,
    run (_parse_all_cipher_suites example_engine) [] = (log', Ok d) /\
    d !! TLS_1_0 = Some s /\
    mkCipherSuite "TLS_RSA_WITH_NULL_SHA" "NULL-SHA" false 0 ∈ s /\
    substring_of "NULL" "TLS_RSA_WITH_NULL_SHA".
Proof.
  destruct (example_engine_run []) as (d & Hrun & _).
  destruct (catalog_elem_intro example_engine [] _ d TLS_1_0 "NULL-SHA"
              (mkCipherSuite "TLS_RSA_WITH_NULL_SHA" "NULL-SHA" false 0) Hrun)
    as (s & Hs & HS).
  { discriminate. }
  { apply elem_of_list_to_set. cbn [example_engine].
    repeat first [apply list_elem_of_here | apply list_elem_of_further]. }
  { discriminate 1. }
  { vm_compute. reflexivity. }
  exists ([] ++ calls_of_build)%list, d, s.
  split; [exact Hrun|]. split; [exact Hs|]. split; [exact HS|].
  apply (key_size_zero_iff_null_in_name example_engine _ _ _ _ _ _
                                        Hrun Hs HS).
  reflexivity.
Defined.

(** ** Entries of versions with different tables *)

Lemma sslv2_table_not_tls_1_3 n rfc :
  _SSLV2_OPENSSL_TO_RFC_NAMES_MAPPING !! n = Some rfc ->
  rfc ∉ _TLS_1_3_CIPHER_SUITES.
Proof.
  intros H%sslv2_lookup_elem.
  assert (forallb (fun kv => check_not_tls_1_3 kv.1 kv.2)
                  _SSLV2_OPENSSL_TO_RFC_NAMES_items = true) as Hall
    by (vm_compute; reflexivity).
  apply (forallb_items _ _ Hall) in H.
  unfold check_not_tls_1_3 in H. apply bool_decide_eq_true in H. exact H.
Qed.

Lemma translated_name_not_tls_1_3 v n S :
  translate v n = Ok S -> name S ∉ _TLS_1_3_CIPHER_SUITES.
Proof.
  intros Ht. destruct (decide (v = SSL_2_0)) as [->|Hv].
  - exact (sslv2_table_not_tls_1_3 _ _ (translate_SSL_2_0_lookup _ _ Ht)).
  - exact (tls_table_not_tls_1_3 _ _ (translate_TLS_lookup _ _ _ Hv Ht)).
Qed.

(** X9.  In a catalogue the builder returned, the TLS 1.3 entry has no
    record in common with the entry of any other version. *)
Theorem tls_1_3_entry_shares_no_record
        (get_cipher_list : GetCipherList) (log log' : list EngineCall)
        (d : Catalog) (v : TlsVersionEnum) (s13 s : gset CipherSuite)
        (S : CipherSuite) :
  run (_parse_all_cipher_suites get_cipher_list) log = (log', Ok d) ->
  d !! TLS_1_3 = Some s13 ->
  d !! v = Some s ->
  v <> TLS_1_3 ->
  S ∈ s13 ->
  S ∉ s.
Proof.
  intros Hrun Hs13 Hs Hv H13 HS.
  destruct (catalog_elem _ _ _ _ _ _ _ Hrun Hs13 H13)
    as [[_ H13']|[Hne _]]; [|destruct (Hne eq_refl)].
  apply elem_of_tls_1_3_suites in H13' as (Hname & _).
  destruct (catalog_elem _ _ _ _ _ _ _ Hrun Hs HS)
    as [[Heq _]|[_ (n & _ & Ht)]]; [destruct (Hv Heq)|].
  exact (translated_name_not_tls_1_3 _ _ _ Ht Hname).
Qed.

Lemma tls_1_3_entry_shares_no_record_witness :
  exists log' d s13 s,
    run (_parse_all_cipher_suites example_engine) [] = (log', Ok d) /\
    d !! TLS_1_3 = Some s13 /\
    d !! TLS_1_2 = Some s /\
    mkCipherSuite "TLS_AES_128_GCM_SHA256" "TLS_AES_128_GCM_SHA256"
                  false 128 ∈ s13 /\
    mkCipherSuite "TLS_AES_128_GCM_SHA256" "TLS_AES_128_GCM_SHA256"
                  false 128 ∉ s.
Proof.
  destruct (example_engine_run []) as (d & Hrun & Hd).
  assert (mkCipherSuite "TLS_AES_128_GCM_SHA256" "TLS_AES_128_GCM_SHA256"
                        false 128 ∈ entry example_engine TLS_1_3) as H13.
  { cbn [entry]. unfold tls_1_3_suites.
    apply elem_of_list_to_set, list_elem_of_here. }
  exists ([] ++ calls_of_build)%list, d,
    (entry example_engine TLS_1_3), (entry example_engine TLS_1_2).
  split; [exact Hrun|]. split; [exact (Hd TLS_1_3)|].
  split; [exact (Hd TLS_1_2)|]. split; [exact H13|].
  apply (tls_1_3_entry_shares_no_record
           example_engine _ _ _ TLS_1_2 _ _ _ Hrun (Hd TLS_1_3) (Hd TLS_1_2));
    [discriminate|exact H13].
Defined.

Lemma null_md5_engine_run log :
  exists d,
    run (_parse_all_cipher_suites null_md5_engine) log =
    ((log ++ calls_of_build)%list, Ok d) /\
    forall v, d !! v = Some (entry null_md5_engine v).
Proof.
  apply parse_all_Ok_intro. intros v n [H _]%elem_of_to_translate.
  destruct v; unfold enumerated, null_md5_engine in H;
    rewrite ?elem_of_union, ?elem_of_list_to_set in H;
    repeat (rewrite elem_of_cons in H); rewrite ?elem_of_nil in H.
  all: repeat match goal with
              | H : _ \/ _ |- _ => destruct H as [H|H]
              | H : False |- _ => destruct H
              | H : _ ∈ ∅ |- _ => apply not_elem_of_empty in H; destruct H
              end.
  all: subst n; eexists; vm_compute; reflexivity.
Qed.

(** X10.  In a catalogue the builder returned, the SSL 2.0 entry and the
    entry of another version have at most one record in common: the one of
    NULL-MD5, named TLS_RSA_WITH_NULL_MD5 with key size 0.  Every other
    name the SSL 2.0 table shares with the TLS table (RC4-MD5, EXP-RC4-MD5,
    EXP-RC2-CBC-MD5) gets a different record under SSL 2.0. *)
Theorem sslv2_entry_shares_only_null_md5
        (get_cipher_list : GetCipherList) (log log' : list EngineCall)
        (d : Catalog) (v : TlsVersionEnum) (s2 s : gset CipherSuite)
        (S : CipherSuite) :
  run (_parse_all_cipher_suites get_cipher_list) log = (log', Ok d) ->
  d !! SSL_2_0 = Some s2 ->
  d !! v = Some s ->
  v <> SSL_2_0 ->
  S ∈ s2 ->
  S ∈ s ->
  S = mkCipherSuite "TLS_RSA_WITH_NULL_MD5" "NULL-MD5" false 0.
Proof.
  intros Hrun Hs2 Hs Hv H2 HS.
  destruct (catalog_elem _ _ _ _ _ _ _ Hrun Hs2 H2)
    as [[Heq _]|[_ (n & _ & Ht2)]]; [discriminate Heq|].
  destruct (catalog_elem _ _ _ _ _ _ _ Hrun Hs HS)
    as [[_ H13]|[_ (n' & _ & Ht)]].
  { apply elem_of_tls_1_3_suites in H13 as (Hname & _).
    destruct (translated_name_not_tls_1_3 _ _ _ Ht2 Hname). }
  pose proof (translate_openssl_name _ _ _ Ht2) as Ho2.
  pose proof (translate_openssl_name _ _ _ Ht) as Ho.
  rewrite Ho2 in Ho. subst n'.
  pose proof (translate_SSL_2_0_lookup _ _ Ht2) as Hl2.
  pose proof (translate_TLS_lookup _ _ _ Hv Ht) as Hl.
  apply sslv2_lookup_elem in Hl2.
  assert (forallb (fun kv => check_sslv2_overlap kv.1 kv.2)
                  _SSLV2_OPENSSL_TO_RFC_NAMES_items = true) as Hall
    by (vm_compute; reflexivity).
  apply (forallb_items _ _ Hall) in Hl2. unfold check_sslv2_overlap in Hl2.
  rewrite Hl in Hl2.
  rewrite bool_decide_eq_true_2 in Hl2 by reflexivity.
  cbn [implb] in Hl2. apply bool_decide_eq_true in Hl2.
  rewrite Hl2 in Ht2.
  assert (translate SSL_2_0 "NULL-MD5" =
          Ok (mkCipherSuite "TLS_RSA_WITH_NULL_MD5" "NULL-MD5" false 0)) as Hc
    by (vm_compute; reflexivity).
  rewrite Hc in Ht2. injection Ht2 as <-. reflexivity.
Qed.

Lemma sslv2_entry_shares_only_null_md5_witness :
  exists log' d s2 s S,
    run (_parse_all_cipher_suites null_md5_engine) [] = (log', Ok d) /\
    d !! SSL_2_0 = Some s2 /\
    d !! TLS_1_0 = Some s /\
    S ∈ s2 /\ S ∈ s /\
    S = mkCipherSuite "TLS_RSA_WITH_NULL_MD5" "NULL-MD5" false 0.
Proof.
  destruct (null_md5_engine_run []) as (d & Hrun & _).
  destruct (catalog_elem_intro null_md5_engine [] _ d SSL_2_0 "NULL-MD5"
              (mkCipherSuite "TLS_RSA_WITH_NULL_MD5" "NULL-MD5" false 0) Hrun)
    as (s2 & Hs2 & H2).
  { discriminate. }
  { apply elem_of_list_to_set. cbn [null_md5_engine]. apply list_elem_of_here. }
  { discriminate 1. }
  { vm_compute. reflexivity. }
  destruct (catalog_elem_intro null_md5_engine [] _ d TLS_1_0 "NULL-MD5"
              (mkCipherSuite "TLS_RSA_WITH_NULL_MD5" "NULL-MD5" false 0) Hrun)
    as (s & Hs & HS).
  { discriminate. }
  { apply elem_of_list_to_set. cbn [null_md5_engine]. apply list_elem_of_here. }
  { discriminate 1. }
  { vm_compute. reflexivity. }
  exists ([] ++ calls_of_build)%list, d, s2, s,
    (mkCipherSuite "TLS_RSA_WITH_NULL_MD5" "NULL-MD5" false 0).
  split; [exact Hrun|]. split; [exact Hs2|]. split; [exact Hs|].
  split; [exact H2|]. split; [exact HS|].
  apply (sslv2_entry_shares_only_null_md5
           null_md5_engine _ _ _ TLS_1_0 _ _ _ Hrun Hs2 Hs);
    [discriminate|exact H2|exact HS].
Defined.

(** ** What a run asks the clients *)

(** X11.  Whatever the clients list, a run of the builder asks them in one
    fixed order: what it adds to the log is a prefix of twelve enumerations,
    all twelve when it returns a catalogue.  Every enumeration uses the
    cipher string "ALL:COMPLEMENTOFALL:-PSK:-SRP", none is for TLS 1.3, and
    the modern client is asked about TLS 1.2 only. *)
Theorem enumerations_of_a_run
        (get_cipher_list : GetCipherList) (log log' : list EngineCall)
        (r : result Catalog) :
  run (_parse_all_cipher_suites get_cipher_list) log = (log', r) ->
  (exists k,
      log' =
      (log ++
       take k
         [ mkEngineCall LegacySslClient SSL_2_0 "ALL:COMPLEMENTOFALL:-PSK:-SRP";
           mkEngineCall LegacySslClient TLS_1_2 "ALL:COMPLEMENTOFALL:-PSK:-SRP";
           mkEngineCall SslClient TLS_1_2 "ALL:COMPLEMENTOFALL:-PSK:-SRP";
           mkEngineCall LegacySslClient SSL_3_0 "ALL:COMPLEMENTOFALL:-PSK:-SRP";
           mkEngineCall LegacySslClient TLS_1_2 "ALL:COMPLEMENTOFALL:-PSK:-SRP";
           mkEngineCall SslClient TLS_1_2 "ALL:COMPLEMENTOFALL:-PSK:-SRP";
           mkEngineCall LegacySslClient TLS_1_0 "ALL:COMPLEMENTOFALL:-PSK:-SRP";
           mkEngineCall LegacySslClient TLS_1_2 "ALL:COMPLEMENTOFALL:-PSK:-SRP";
           mkEngineCall SslClient TLS_1_2 "ALL:COMPLEMENTOFALL:-PSK:-SRP";
           mkEngineCall LegacySslClient TLS_1_1 "ALL:COMPLEMENTOFALL:-PSK:-SRP";
           mkEngineCall LegacySslClient TLS_1_2 "ALL:COMPLEMENTOFALL:-PSK:-SRP";
           mkEngineCall SslClient TLS_1_2 "ALL:COMPLEMENTOFALL:-PSK:-SRP"
         ])%list /\
      (is_Ok r -> k = 12%nat)) /\
  Forall (fun c =>
            call_cipher_list c = "ALL:COMPLEMENTOFALL:-PSK:-SRP" /\
            call_version c <> TLS_1_3 /\
            (call_client c = SslClient -> call_version c = TLS_1_2))
         (drop (length log) log').
Proof.
  intros Hrun.
  assert (exists k, log' = (log ++ take k calls_of_build)%list /\
                    (is_Ok r -> k = 12%nat)) as (k & -> & Hk).
  { destruct r as [d|e].
    - apply parse_all_Ok_inv in Hrun as (-> & _). exists 12%nat.
      split; [reflexivity|auto].
    - apply parse_all_Raise_inv in Hrun as ([k ->] & _). exists k.
      split; [reflexivity|]. intros [d Hd]. discriminate Hd. }
  split; [exists k; split; [reflexivity|exact Hk]|].
  rewrite drop_app_length. apply Forall_take.
  unfold calls_of_build, calls_of_iteration, cipher_string.
  repeat (apply Forall_cons_2;
          [ cbn [call_cipher_list call_version call_client];
            split; [reflexivity|split; [discriminate|]];
            first [intros _; reflexivity | discriminate 1] |]).
  apply Forall_nil_2.
Qed.

Lemma enumerations_of_a_run_witness :
  exists log' r,
    run (_parse_all_cipher_suites stale_engine) [] = (log', r) /\
    Forall (fun c =>
              call_cipher_list c = "ALL:COMPLEMENTOFALL:-PSK:-SRP" /\
              call_version c <> TLS_1_3 /\
              (call_client c = SslClient -> call_version c = TLS_1_2))
           (drop (length (@nil EngineCall)) log').
Proof.
  destruct (run (_parse_all_cipher_suites stale_engine) []) as [log' r] eqn:H.
  exists log', r. split; [reflexivity|].
  exact (proj2 (enumerations_of_a_run stale_engine [] log' r H)).
Defined.
